(** * POL token bridge (Sepolia <-> Amoy): a shallow embedding of [bridge.js]

    The script drives two chains and an HTTP proof service.  Every [await]
    of the source is an interaction with the outside world; here the outside
    world is an arbitrary state-passing oracle ([External]) and every
    function of the script is a computation in a small monad that threads
    the oracle's state, records the observable events in the order they are
    issued, and completes normally or by a thrown JavaScript error.

    The module-level code of the script runs before any function: it ends
    the process unless PRIVATE_KEY and POL_AMOY are set and not empty
    (l.41-48), and it builds the contract objects for DEPOSIT_MANAGER,
    POL_SEPOLIA, CHILD_MANAGER and POL_AMOY (l.79-104), which ethers refuses
    for a variable that is not set.  [Config] is the environment as the
    functions see it afterwards: these addresses are strings.
    ERC20_PREDICATE and WITHDRAW_MANAGER are read only inside [processExit]
    and [finalizeExit], where their contract objects are built, and nothing
    checks them before: they may be missing. *)

From Stdlib Require Import ZArith String Ascii List Bool Lia DecimalString.
Import ListNotations.
Open Scope string_scope.

(** ** JavaScript values that the script handles *)

(** An [Error] object; only its [message] is ever inspected. *)
Record JsError := mkError { message : string }.

(** How a JavaScript computation completes. *)
Inductive Completion (A : Type) : Type :=
| Normal (a : A)
| Throw (e : JsError).
Arguments Normal {A} a.
Arguments Throw {A} e.

(** The value produced by [response.json()]. *)
#[local] Unset Elimination Schemes.
Inductive Json : Type :=
| JNull
| JBool (b : bool)
| JNum (n : Z)
| JStr (s : string)
| JArr (items : list Json)
| JObj (fields : list (string * Json)).
#[local] Set Elimination Schemes.

(** Values passed to the console and to contract methods. *)
Inductive JsVal : Type :=
| VUndef
| VStr (s : string)
| VNum (n : Z)
| VBig (n : Z)
| VJson (j : Json)
| VErr (e : JsError).

(** [String.prototype.includes]. *)
Fixpoint includes (s sub : string) : bool :=
  String.prefix sub s
  || match s with
     | EmptyString => false
     | String _ rest => includes rest sub
     end.

(** Decimal rendering of a number inside a template string. *)
Definition dec (n : Z) : string :=
  if (n <? 0)%Z
  then "-" ++ NilZero.string_of_uint (N.to_uint (Z.to_N (- n)))
  else NilZero.string_of_uint (N.to_uint (Z.to_N n)).

Definition LF : string := String (ascii_of_nat 10) EmptyString.

(** [x || d] on a possibly missing command-line argument: [undefined] and
    the empty string are falsy. *)
Definition or_default (x : option string) (d : string) : string :=
  match x with
  | Some (String c rest) => String c rest
  | _ => d
  end.

(** [x === s] for a possibly undefined string [x]. *)
Definition strict_eq (x : option string) (s : string) : bool :=
  match x with
  | Some v => v =? s
  | None => false
  end.

(** Truthiness of a parsed JSON value. *)
Definition truthy (j : Json) : bool :=
  match j with
  | JNull => false
  | JBool b => b
  | JNum n => negb (n =? 0)%Z
  | JStr s => negb (s =? "")
  | JArr _ | JObj _ => true
  end.

(** Property lookup in a parsed object: the last occurrence of a key wins. *)
Fixpoint lookup_field (k : string) (fields : list (string * Json)) : option Json :=
  match fields with
  | [] => None
  | (k', v) :: rest =>
      match lookup_field k rest with
      | Some v' => Some v'
      | None => if k' =? k then Some v else None
      end
  end.

(** [data.result]: a [TypeError] on [null], [undefined] where the property
    is missing. *)
Definition get_result (data : Json) : Completion JsVal :=
  match data with
  | JNull => Throw (mkError "Cannot read properties of null (reading 'result')")
  | JObj fields =>
      match lookup_field "result" fields with
      | Some v => Normal (VJson v)
      | None => Normal VUndef
      end
  | _ => Normal VUndef
  end.

(** [r?.length || 'Unknown'] for [r = data.result] (strings are taken to
    be ASCII, as the hexadecimal proof payload is). *)
Definition length_or_unknown (r : JsVal) : JsVal :=
  match r with
  | VJson (JStr s) =>
      if (String.length s =? 0)%nat then VStr "Unknown"
      else VNum (Z.of_nat (String.length s))
  | VJson (JArr items) =>
      if (List.length items =? 0)%nat then VStr "Unknown"
      else VNum (Z.of_nat (List.length items))
  | VJson (JObj fields) =>
      match lookup_field "length" fields with
      | Some v => if truthy v then VJson v else VStr "Unknown"
      | None => VStr "Unknown"
      end
  | _ => VStr "Unknown"
  end.

(** ** The two functions of the ethers library that the script uses

    [ethers.parseEther] and [ethers.formatEther] (ethers v6: [parseUnits]
    and [formatUnits] with 18 decimals, through [FixedNumber] of width
    512).  The library is not part of the repository; the model follows its
    documented behaviour, with the diagnostic suffix of its error messages
    left out. *)
Module Ethers.

Definition decimals : nat := 18.

Definition is_digit (c : ascii) : bool :=
  let n := nat_of_ascii c in (48 <=? n)%nat && (n <=? 57)%nat.

Definition digit_value (c : ascii) : Z := Z.of_nat (nat_of_ascii c - 48).

(** Longest prefix of decimal digits, and what follows it. *)
Fixpoint span_digits (s : string) : string * string :=
  match s with
  | String c rest =>
      if is_digit c
      then let '(d, r) := span_digits rest in (String c d, r)
      else (EmptyString, s)
  | EmptyString => (EmptyString, EmptyString)
  end.

Fixpoint digits_value (acc : Z) (s : string) : Z :=
  match s with
  | EmptyString => acc
  | String c rest => digits_value (10 * acc + digit_value c)%Z rest
  end.

Fixpoint all_zeros (s : string) : bool :=
  match s with
  | EmptyString => true
  | String c rest => (c =? "0")%char && all_zeros rest
  end.

Fixpoint zeros (n : nat) : string :=
  match n with
  | O => EmptyString
  | S k => String "0" (zeros k)
  end.

(** The three groups of the pattern of [FixedNumber.fromString]: an
    optional minus sign, a run of digits, an optional point, a run of
    digits, and nothing else. *)
Definition match_fixed (value : string) : option (bool * string * string) :=
  let '(neg, body) :=
    match value with
    | String "-" rest => (true, rest)
    | _ => (false, value)
    end in
  let '(whole, after) := span_digits body in
  let frac_part :=
    match after with
    | String "." rest => rest
    | _ => after
    end in
  let '(frac, tail) := span_digits frac_part in
  match tail with
  | EmptyString => Some (neg, whole, frac)
  | _ => None
  end.

Definition limit : Z := Z.shiftl 1 511.

Definition parseEther (value : string) : Completion Z :=
  match match_fixed value with
  | None => Throw (mkError "invalid FixedNumber string value")
  | Some (neg, whole, frac) =>
      if (String.length whole + String.length frac =? 0)%nat
      then Throw (mkError "invalid FixedNumber string value")
      else
        let padded := frac ++ zeros (decimals - String.length frac) in
        if negb (all_zeros (substring decimals (String.length padded - decimals) padded))
        then Throw (mkError "too many decimals for format")
        else
          let magnitude := digits_value 0 (whole ++ substring 0 decimals padded) in
          let v := if neg then (- magnitude)%Z else magnitude in
          if ((- limit <=? v) && (v <? limit))%Z
          then Normal v
          else Throw (mkError "overflow")
  end.

(** Drop trailing zeros, keeping at least one digit. *)
Fixpoint trim_fraction (s : string) : string :=
  match s with
  | EmptyString => EmptyString
  | String c rest =>
      let rest' := trim_fraction rest in
      if all_zeros rest then String c EmptyString else String c rest'
  end.

Definition formatEther (v : Z) : string :=
  let a := Z.abs v in
  let unit := (10 ^ Z.of_nat decimals)%Z in
  let whole := dec (a / unit) in
  let f := dec (a mod unit) in
  let frac := zeros (decimals - String.length f) ++ f in
  (if (v <? 0)%Z then "-" else "") ++ whole ++ "." ++ trim_fraction frac.

(** The error of the [Contract] constructor for a target that is not a
    string.  The diagnostic suffix that ethers appends is left out; it
    names the argument, the value [undefined], the code INVALID_ARGUMENT and
    the version of the library. *)
Definition invalid_target : JsError := mkError "invalid value for Contract target".

End Ethers.

(** ** Observable interactions *)

Inductive Network := Sepolia | Amoy.

(** A state-changing contract method invoked through a signing wallet:
    [new ethers.Contract(target, [signature], wallet).method(...args, { value })]. *)
Record ContractCall := mkCall {
  signer : Network;
  target : string;
  signature : string;
  args : list JsVal;
  value : option Z
}.

(** What a contract method resolves to; [hash] is the transaction
    identifier. *)
Record TxResponse := mkTx { hash : string }.

(** What [fetch] resolves to.  [body] is the completion of
    [response.json()]. *)
Record Response := mkResponse {
  status : Z;
  body : Completion Json
}.

(** [response.ok] *)
Definition ok (r : Response) : bool :=
  ((200 <=? status r) && (status r <=? 299))%Z.

(** The events of a run, in the order the script issues them.  Interactions
    with the chain and with the proof service carry what came back. *)
Inductive Event : Type :=
| EGetCode (address : string) (r : Completion string)
| EBalanceOf (token owner : string) (r : Completion Z)
| ECall (c : ContractCall) (r : Completion TxResponse)
| EWait (tx : TxResponse) (r : Completion unit)
| EFetch (url : string) (r : Completion Response)
| ESleep (ms : Z)
| ELog (line : list JsVal)
| EError (line : list JsVal)
| EExit (code : Z).

(** The outside world: the two JSON-RPC providers and the HTTP endpoint, as
    transitions of an arbitrary state [W]. *)
Record External (W : Type) := mkExternal {
  getCode : string -> W -> Completion string * W;
  balanceOf : string -> string -> W -> Completion Z * W;
  invoke : ContractCall -> W -> Completion TxResponse * W;
  wait : TxResponse -> W -> Completion unit * W;
  fetch : string -> W -> Completion Response * W
}.
Arguments getCode {W} _ _ _.
Arguments balanceOf {W} _ _ _ _.
Arguments invoke {W} _ _ _.
Arguments wait {W} _ _ _.
Arguments fetch {W} _ _ _.

(** ** The monad of the script *)

Definition M (W A : Type) : Type := W -> Completion A * W * list Event.

Definition ret {W A} (a : A) : M W A := fun w => (Normal a, w, []).

Definition throw {W A} (e : JsError) : M W A := fun w => (Throw e, w, []).

Definition bind {W A B} (m : M W A) (k : A -> M W B) : M W B :=
  fun w =>
    match m w with
    | (Normal a, w1, t1) => let '(r, w2, t2) := k a w1 in (r, w2, (t1 ++ t2)%list)
    | (Throw e, w1, t1) => (Throw e, w1, t1)
    end.

(** [try { m } catch (error) { handler error }] *)
Definition try_catch {W A} (m : M W A) (handler : JsError -> M W A) : M W A :=
  fun w =>
    match m w with
    | (Normal a, w1, t1) => (Normal a, w1, t1)
    | (Throw e, w1, t1) => let '(r, w2, t2) := handler e w1 in (r, w2, (t1 ++ t2)%list)
    end.

Definition emit {W} (e : Event) : M W unit := fun w => (Normal tt, w, [e]).

Definition lift {W A} (c : Completion A) : M W A := fun w => (c, w, []).

(** One interaction with the outside world, recorded with its answer. *)
Definition ask {W A} (q : W -> Completion A * W) (ev : Completion A -> Event) : M W A :=
  fun w => let '(r, w1) := q w in (r, w1, [ev r]).

Declare Scope js_scope.
Delimit Scope js_scope with js.
Notation "x <- m ;; k" := (bind m (fun x => k))
  (at level 100, m at next level, right associativity) : js_scope.
Notation "m ;; k" := (bind m (fun _ => k))
  (at level 100, right associativity) : js_scope.
Open Scope js_scope.

Definition console_log {W} (line : list JsVal) : M W unit := emit (ELog line).
Definition console_error {W} (line : list JsVal) : M W unit := emit (EError line).
Definition sleep {W} (ms : Z) : M W unit := emit (ESleep ms).

(** ** Configuration ([process.env]) and command line ([process.argv]) *)

Record Config := mkConfig {
  DEPOSIT_MANAGER : string;
  POL_SEPOLIA : string;
  POL_AMOY : string;
  ERC20_PREDICATE : option string;
  WITHDRAW_MANAGER : option string;
  AUTO_COMPLETE : option string;
  (** [walletSepolia.address], equal to [walletAmoy.address]: both wallets
      are built from [PRIVATE_KEY]. *)
  walletAddress : string
}.

Definition argv_at (argv : list string) (i : nat) : option string := nth_error argv i.

(** [main] is called at the end of the module, after its start-up: by then
    the process has ended with status 1 when PRIVATE_KEY or POL_AMOY is
    unset or empty, and the construction of a module-level contract has
    thrown when its address is undefined.  The functions below read
    DEPOSIT_MANAGER, POL_SEPOLIA and POL_AMOY only through these objects,
    which is why the three are plain strings in [Config]; PRIVATE_KEY is
    read by no function.  What is left of the start-up checks as a
    condition on a configuration is that POL_AMOY is not empty. *)
Definition past_startup (env : Config) : bool := negb (POL_AMOY env =? "").

(** ** The script *)

Section Script.

Context {W : Type}.
Variable X : External W.
Variable env : Config.
Variable argv : list string.

(** [const tx = await contract.method(...); await tx.wait();] *)
Definition contract_call (c : ContractCall) : M W TxResponse :=
  ask (invoke X c) (ECall c).

Definition tx_wait (tx : TxResponse) : M W unit :=
  ask (wait X tx) (EWait tx).

Definition approve_call (amountWei : Z) : ContractCall :=
  mkCall Sepolia (POL_SEPOLIA env)
    "function approve(address spender, uint256 amount) external returns (bool)"
    [VStr (DEPOSIT_MANAGER env); VBig amountWei] None.

(** [depositManager] is built from [depositManagerAbi.json]; only the
    method name is known here. *)
Definition deposit_call (amountWei : Z) : ContractCall :=
  mkCall Sepolia (DEPOSIT_MANAGER env) "depositERC20ForUser"
    [VStr (POL_SEPOLIA env); VStr (walletAddress env); VBig amountWei] None.

Definition burn_call (withdrawAmount : Z) : ContractCall :=
  mkCall Amoy (POL_AMOY env) "function withdraw(uint256 amount) public payable"
    [VBig withdrawAmount] (Some withdrawAmount).

(** [new ethers.Contract(target, abi, wallet)] for a target read from
    [process.env]: ethers asserts that the target is a string, which fails
    for a variable that is not set.  The contract object is stood for by its
    address. *)
Definition new_contract (target : option string) : M W string :=
  match target with
  | Some address => ret address
  | None => throw Ethers.invalid_target
  end.

Definition start_exit_call (predicate : string) (data : JsVal) : ContractCall :=
  mkCall Sepolia predicate
    "function startExitWithBurntTokens(bytes calldata data) external"
    [data] None.

Definition process_exits_call (manager : string) : ContractCall :=
  mkCall Sepolia manager
    "function processExits(address _token) external"
    [VStr (POL_SEPOLIA env)] None.

Definition sepolia_tx (h : string) : string := "https://sepolia.etherscan.io/tx/" ++ h.
Definition amoy_tx (h : string) : string := "https://amoy.polygonscan.com/tx/" ++ h.

Definition proofUrl (txHash : string) : string :=
  "https://proof-generator.polygon.technology/api/v1/amoy/exit-payload/" ++ txHash
  ++ "?eventSignature=0xebff2602b3f468259e1e99f613fed6691f3a6526effe6ef3e768ba7ae7a36c4f".

(** *** Deposit: Sepolia -> Amoy *)

Definition bridgePOL : M W unit :=
  let amountArg := argv_at argv 3 in
  let amount := or_default amountArg "1" in
  amountWei <- lift (Ethers.parseEther amount) ;;
  console_log [VStr ("Depositing " ++ amount ++ " POL (" ++ Ethers.formatEther amountWei ++ " POL)")] ;;
  console_log [VStr "1) Approving DepositManager on Sepolia…"] ;;
  approveTx <- contract_call (approve_call amountWei) ;;
  tx_wait approveTx ;;
  console_log [VStr "  ✔ Approval:"; VStr (sepolia_tx (hash approveTx))] ;;
  console_log [VStr "2) depositERC20ForUser on Sepolia…"] ;;
  depositTx <- contract_call (deposit_call amountWei) ;;
  tx_wait depositTx ;;
  console_log [VStr "  ✔ Deposit:"; VStr (sepolia_tx (hash depositTx))] ;;
  console_log [VStr "✅ Deposit confirmed — funds will arrive on Amoy in ~25 min."].

(** *** Checkpoint polling *)

Definition maxAttempts : nat := 360.

Definition checkpoint_timeout : JsError :=
  mkError "Checkpoint timeout - transaction not checkpointed after 180 minutes".

(** The [try { ... } catch (error) { ... }] inside the loop.  [Some data]
    stands for the [return data] of the source, [None] for falling out of
    the statement. *)
Definition poll_once (url : string) (attempts : nat) : M W (option Json) :=
  try_catch
    (console_log [VStr ("   ⏰ Attempt " ++ dec (Z.of_nat attempts + 1) ++ "/"
                        ++ dec (Z.of_nat maxAttempts) ++ " - Checking checkpoint...")] ;;
     response <- ask (fetch X url) (EFetch url) ;;
     if ok response then
       data <- lift (body response) ;;
       console_log [VStr "✅ Transaction checkpointed! Proof generated successfully."] ;;
       result <- lift (get_result data) ;;
       console_log [VStr "📄 Proof data length:"; length_or_unknown result] ;;
       ret (Some data)
     else if (status response =? 400)%Z then
       console_log [VStr "   ⏳ Not checkpointed yet... waiting 30 seconds"] ;;
       ret None
     else
       console_log [VStr ("   ⚠️  API returned status " ++ dec (status response) ++ ", retrying...")] ;;
       ret None)
    (fun error =>
       console_log [VStr ("   ❌ Error checking status: " ++ message error)] ;;
       ret None).

(** [while (attempts < maxAttempts) { ... attempts++; sleep }] followed by
    the [throw].  [remaining] is [maxAttempts - attempts]: the loop test
    holds exactly when it is not zero. *)
Fixpoint poll_loop (url : string) (remaining attempts : nat) : M W Json :=
  match remaining with
  | O => throw checkpoint_timeout
  | S remaining' =>
      returned <- poll_once url attempts ;;
      match returned with
      | Some data => ret data
      | None =>
          sleep 30000 ;;
          poll_loop url remaining' (S attempts)
      end
  end.

Definition waitForCheckpoint (txHash : string) : M W Json :=
  console_log [VStr "🔍 Polling checkpoint status..."] ;;
  poll_loop (proofUrl txHash) maxAttempts 0.

(** *** Exit processing *)

(** [proofData.result] where the source evaluates it. *)
Definition result_of (proofData : Json) : M W JsVal := lift (get_result proofData).

(** The second step, as it is written three times in the source, after
    the contract object of the withdraw manager has been built. *)
Definition send_process_exits (manager : string) : M W TxResponse :=
  processExitTx <- contract_call (process_exits_call manager) ;;
  tx_wait processExitTx ;;
  console_log [VStr "  ✔ ProcessExit:"; VStr (sepolia_tx (hash processExitTx))] ;;
  ret processExitTx.

Definition processExit (proofData : Json) : M W unit :=
  try_catch
    (console_log [VStr "📋 Step 1: Starting exit on ERC20 Predicate..."] ;;
     predicateContract <- new_contract (ERC20_PREDICATE env) ;;
     try_catch
       (data <- result_of proofData ;;
        startExitTx <- contract_call (start_exit_call predicateContract data) ;;
        tx_wait startExitTx ;;
        console_log [VStr "  ✔ StartExit:"; VStr (sepolia_tx (hash startExitTx))])
       (fun startExitError =>
          if includes (message startExitError) "KNOWN_EXIT" then
            console_log [VStr "  ℹ️  Exit already started for this transaction"] ;;
            console_log [VStr "  ✅ Proceeding to finalize exit..."]
          else throw startExitError) ;;
     console_log [VStr "📋 Step 2: Processing exit on Withdraw Manager..."] ;;
     withdrawContract <- new_contract (WITHDRAW_MANAGER env) ;;
     console_log [VStr "  🚀 Attempting to process exits (testnet - no challenge period)..."] ;;
     send_process_exits withdrawContract ;;
     console_log [VStr "💰 POL tokens released on Sepolia!"])
    (fun error =>
       console_error [VStr "❌ Exit processing failed:"; VStr (message error)] ;;
       (** [true] stands for the [return] inside the nested [try]. *)
       returned <-
         (if includes (message error) "KNOWN_EXIT" then
            console_log [VStr (LF ++ "💡 Exit already initiated! Trying to finalize immediately...")] ;;
            try_catch
              (withdrawContract <- new_contract (WITHDRAW_MANAGER env) ;;
               send_process_exits withdrawContract ;;
               console_log [VStr "💰 POL tokens released on Sepolia!"] ;;
               ret true)
              (fun finalizeError =>
                 console_log [VStr "⚠️  Could not immediately finalize. You can try:"] ;;
                 console_log [VStr "   npm run finalize"] ;;
                 ret false)
          else ret false) ;;
       if returned : bool then ret tt
       else
         console_log [VStr "💡 You can complete the exit manually using the proof:"] ;;
         data <- result_of proofData ;;
         console_log [VStr "   Proof data:"; data] ;;
         throw error).

(** *** Withdrawal: Amoy -> Sepolia *)

Definition withdrawPOL : M W unit :=
  code <- ask (getCode X (POL_AMOY env)) (EGetCode (POL_AMOY env)) ;;
  if code =? "0x" then
    console_error
      [VStr ("❌ No contract found at POL_AMOY (" ++ POL_AMOY env ++ ")." ++ LF
             ++ "   Make sure you copied the *token* contract address (from Amoy Polygonscan Token Tracker), not the manager/predicate.")]
  else
    bal <- ask (balanceOf X (POL_AMOY env) (walletAddress env))
               (EBalanceOf (POL_AMOY env) (walletAddress env)) ;;
    console_log [VStr "Amoy POL balance:"; VStr (Ethers.formatEther bal)] ;;
    let amountArg := argv_at argv 3 in
    let amount := or_default amountArg "1" in
    withdrawAmount <- lift (Ethers.parseEther amount) ;;
    console_log [VStr ("Withdrawing " ++ amount ++ " POL (" ++ Ethers.formatEther withdrawAmount ++ " POL)")] ;;
    if (bal <? withdrawAmount)%Z then
      console_error
        [VStr ("❌ Insufficient balance. Need " ++ Ethers.formatEther withdrawAmount
               ++ " POL, have " ++ Ethers.formatEther bal ++ " POL")]
    else
      console_log [VStr "Withdrawing:"; VStr (Ethers.formatEther withdrawAmount); VStr "POL"] ;;
      console_log [VStr "1) Calling withdraw function on POL contract…"] ;;
      (** [None] stands for the [return] of the [catch] block. *)
      burned <-
        try_catch
          (burnTx <- contract_call (burn_call withdrawAmount) ;;
           tx_wait burnTx ;;
           console_log [VStr "  ✔ Burn:"; VStr (amoy_tx (hash burnTx))] ;;
           ret (Some burnTx))
          (fun error =>
             console_error [VStr "❌ Burn transaction failed:"; VStr (message error)] ;;
             ret None) ;;
      match burned with
      | None => ret tt
      | Some burnTx =>
          console_log [VStr "2) Waiting for checkpoint inclusion..."] ;;
          console_log [VStr "   ⏰ This can take 90-180 minutes on testnet"] ;;
          console_log [VStr "   🔗 Burn tx:"; VStr (amoy_tx (hash burnTx))] ;;
          console_log [VStr (LF ++ "📋 Next steps after checkpoint:")] ;;
          console_log [VStr "1. Generate proof from:"; VStr (proofUrl (hash burnTx))] ;;
          console_log [VStr "2. Use the proof with ERC20 Predicate contract on Sepolia"] ;;
          console_log [VStr "3. Process exit to complete withdrawal"] ;;
          if strict_eq (AUTO_COMPLETE env) "true" then
            console_log [VStr (LF ++ "⏳ Auto-completion enabled, polling for checkpoint...")] ;;
            proofData <- waitForCheckpoint (hash burnTx) ;;
            console_log [VStr "3) Processing exit on Sepolia..."] ;;
            processExit proofData ;;
            console_log [VStr "✅ Automatic withdrawal completed!"]
          else
            console_log [VStr (LF ++ "💡 Set AUTO_COMPLETE=true in .env to enable automated completion")]
      end.

(** *** Checkpoint status *)

Definition checkStatus : M W unit :=
  match argv_at argv 3 with
  | None | Some EmptyString =>
      console_error [VStr "❌ Please provide transaction hash"] ;;
      console_log [VStr "Usage: node bridge.js check <transaction_hash>"]
  | Some txHash =>
      console_log [VStr ("🔍 Checking checkpoint status for: " ++ txHash)] ;;
      try_catch
        (let url := proofUrl txHash in
         response <- ask (fetch X url) (EFetch url) ;;
         if ok response then
           data <- lift (body response) ;;
           console_log [VStr "✅ Transaction is checkpointed!"] ;;
           result <- lift (get_result data) ;;
           console_log [VStr "📄 Proof data length:"; length_or_unknown result] ;;
           console_log [VStr (LF ++ "🔗 Links:")] ;;
           console_log [VStr "   Transaction:"; VStr (amoy_tx txHash)] ;;
           console_log [VStr "   Proof API:"; VStr url] ;;
           console_log [VStr (LF ++ "💡 Ready to complete exit? Run:")] ;;
           console_log [VStr ("   node bridge.js exit " ++ txHash)]
         else if ((status response =? 400) || (status response =? 404))%Z then
           console_log [VStr "⏳ Transaction not yet checkpointed"] ;;
           console_log [VStr "📍 Current status: Waiting for checkpoint inclusion"] ;;
           console_log [VStr (LF ++ "🔗 Links:")] ;;
           console_log [VStr "   Transaction:"; VStr (amoy_tx txHash)] ;;
           console_log [VStr "   Check again: node bridge.js check"; VStr txHash]
         else
           console_log [VStr ("⚠️  API returned status " ++ dec (status response))])
        (fun error =>
           console_error [VStr "❌ Error checking status:"; VStr (message error)])
  end.

(** *** Exit completion *)

Definition completeExit : M W unit :=
  match argv_at argv 3 with
  | None | Some EmptyString =>
      console_error [VStr "❌ Please provide transaction hash"] ;;
      console_log [VStr "Usage: node bridge.js exit <transaction_hash>"]
  | Some txHash =>
      console_log [VStr ("🚀 Completing exit for: " ++ txHash)] ;;
      try_catch
        (proofData <- waitForCheckpoint txHash ;;
         processExit proofData ;;
         console_log [VStr "✅ Exit completed successfully!"])
        (fun error =>
           console_error [VStr "❌ Exit completion failed:"; VStr (message error)])
  end.

(** *** Finalization *)

Definition finalizeExit : M W unit :=
  console_log [VStr "🏁 Finalizing exits after challenge period..."] ;;
  try_catch
    (withdrawContract <- new_contract (WITHDRAW_MANAGER env) ;;
     send_process_exits withdrawContract ;;
     console_log [VStr "💰 All eligible POL tokens have been released on Sepolia!"])
    (fun error =>
       console_error [VStr "❌ Finalization failed:"; VStr (message error)] ;;
       console_log [VStr "💡 Make sure the 7-day challenge period has passed"]).

(** *** Entry point *)

Definition usage : M W unit :=
  console_log [VStr "Usage:"] ;;
  console_log [VStr "  node bridge.js deposit [amount]"] ;;
  console_log [VStr "  node bridge.js withdraw [amount]"] ;;
  console_log [VStr "  node bridge.js check <transaction_hash>"] ;;
  console_log [VStr "  node bridge.js exit <transaction_hash>"] ;;
  console_log [VStr "  node bridge.js finalize"].

Definition main : M W unit :=
  let mode := argv_at argv 2 in
  if strict_eq mode "deposit" then bridgePOL
  else if strict_eq mode "withdraw" then withdrawPOL
  else if strict_eq mode "check" then checkStatus
  else if strict_eq mode "exit" then completeExit
  else if strict_eq mode "finalize" then finalizeExit
  else usage.

(** [main().catch(err => { console.error(..., err); process.exit(1) })],
    for an environment that passed the two start-up checks. *)
Definition run : M W unit :=
  try_catch main
    (fun err => console_error [VStr "❌ Error:"; VErr err] ;; emit (EExit 1)).

End Script.

Arguments Ethers.parseEther : simpl never.
Arguments Ethers.formatEther : simpl never.
Arguments dec : simpl never.
Arguments includes : simpl never.
Arguments proofUrl : simpl never.
Arguments String.append : simpl never.
Arguments or_default : simpl never.
Arguments argv_at : simpl never.
Arguments strict_eq : simpl never.
Arguments waitForCheckpoint : simpl never.
Arguments processExit : simpl never.

(** ** Reading a trace *)

Definition calls_of (t : list Event) : list ContractCall :=
  flat_map (fun e => match e with ECall c _ => [c] | _ => [] end) t.

Definition fetches_of (t : list Event) : list (Completion Response) :=
  flat_map (fun e => match e with EFetch _ r => [r] | _ => [] end) t.

Definition sleeps_of (t : list Event) : list Z :=
  flat_map (fun e => match e with ESleep ms => [ms] | _ => [] end) t.

(** The result, the final world and the trace of a run. *)
Definition result_of_run {W A} (r : Completion A * W * list Event) : Completion A := fst (fst r).
Definition world_of_run {W A} (r : Completion A * W * list Event) : W := snd (fst r).
Definition trace_of_run {W A} (r : Completion A * W * list Event) : list Event := snd r.

(** The fetches and the sleeps of a run, in order. *)
Definition polling_of (t : list Event) : list Event :=
  filter (fun e => match e with EFetch _ _ | ESleep _ => true | _ => false end) t.

(** What one polling attempt hands back to [waitForCheckpoint] when the
    proof service answers [o]: the parsed body, when the response is [ok],
    its body parses and the parsed value is not [null]; nothing
    otherwise. *)
Definition payload_of (o : Completion Response) : option Json :=
  match o with
  | Normal response =>
      if ok response then
        match body response with
        | Normal data =>
            match get_result data with
            | Normal _ => Some data
            | Throw _ => None
            end
        | Throw _ => None
        end
      else None
  | Throw _ => None
  end.

(** The polling events of attempts that did not end the loop: each is one
    request followed by a sleep of 30 seconds. *)
Definition rounds (url : string) (answers : list (Completion Response)) : list Event :=
  flat_map (fun o => [EFetch url o; ESleep 30000]) answers.

(** None of the next [n] requests to [url], issued from world [w] on, hands
    back a proof. *)
Fixpoint no_proof_within {W} (X : External W) (url : string) (n : nat) (w : W) : bool :=
  match n with
  | O => true
  | S k =>
      let '(o, w1) := fetch X url w in
      match payload_of o with
      | Some _ => false
      | None => no_proof_within X url k w1
      end
  end.

(** A transaction step of the script is a contract method followed by
    [tx.wait()].  It fails when either of the two rejects, and succeeds when
    both resolve. *)
Definition tx_fails {W} (X : External W) (c : ContractCall) (e : JsError) (w w' : W) : Prop :=
  invoke X c w = (Throw e, w')
  \/ exists tx w1, invoke X c w = (Normal tx, w1) /\ wait X tx w1 = (Throw e, w').

Definition tx_succeeds {W} (X : External W) (c : ContractCall) (tx : TxResponse) (w w' : W) : Prop :=
  exists w1, invoke X c w = (Normal tx, w1) /\ wait X tx w1 = (Normal tt, w').

(** The preliminary steps of a withdrawal went through: the token address
    holds code, the balance query answered [bal], and the amount of the
    command line (1 when there is none) parses to [A] smallest units.  [w]
    is the world before the run and [w2] the world after the two
    queries. *)
Definition withdrawal_request {W} (X : External W) (env : Config) (argv : list string)
    (bal A : Z) (w w2 : W) : Prop :=
  exists code w1,
    getCode X (POL_AMOY env) w = (Normal code, w1)
    /\ code <> "0x"
    /\ balanceOf X (POL_AMOY env) (walletAddress env) w1 = (Normal bal, w2)
    /\ Ethers.parseEther (or_default (argv_at argv 3) "1") = Normal A.

(** The first step of the exit is behind: it went through, or it failed as
    a duplicate. *)
Definition start_exit_done {W} (X : External W) (predicate : string) (data : JsVal)
    (w w1 : W) : Prop :=
  (exists tx, tx_succeeds X (start_exit_call predicate data) tx w w1)
  \/ (exists e, tx_fails X (start_exit_call predicate data) e w w1
                /\ includes (message e) "KNOWN_EXIT" = true).

(** ** A scripted outside world, for running the script on concrete inputs

    The answers of the chain and of the proof service are read off lists,
    one per interaction; an exhausted list answers with a failure. *)
Record Scripted := mkScripted {
  s_code : string;
  s_balance : Z;
  s_calls : list (Completion TxResponse);
  s_waits : list (Completion unit);
  s_fetches : list (Completion Response)
}.

Definition exhausted : JsError := mkError "no scripted answer".

Definition scripted : External Scripted :=
  mkExternal Scripted
    (fun _ s => (Normal (s_code s), s))
    (fun _ _ s => (Normal (s_balance s), s))
    (fun _ s =>
       match s_calls s with
       | r :: rest => (r, mkScripted (s_code s) (s_balance s) rest (s_waits s) (s_fetches s))
       | [] => (Throw exhausted, s)
       end)
    (fun _ s =>
       match s_waits s with
       | r :: rest => (r, mkScripted (s_code s) (s_balance s) (s_calls s) rest (s_fetches s))
       | [] => (Throw exhausted, s)
       end)
    (fun _ s =>
       match s_fetches s with
       | r :: rest => (r, mkScripted (s_code s) (s_balance s) (s_calls s) (s_waits s) rest)
       | [] => (Throw exhausted, s)
       end).

Definition demo_env : Config :=
  mkConfig "0xDepositManager" "0xPolSepolia" "0x0000000000000000000000000000000000001010"
           (Some "0xErc20Predicate") (Some "0xWithdrawManager") None "0xWallet".

Definition demo_env_auto : Config :=
  mkConfig "0xDepositManager" "0xPolSepolia" "0x0000000000000000000000000000000000001010"
           (Some "0xErc20Predicate") (Some "0xWithdrawManager") (Some "true") "0xWallet".

(** The same environment with WITHDRAW_MANAGER not set, and with
    ERC20_PREDICATE not set. *)
Definition demo_env_no_manager : Config :=
  mkConfig "0xDepositManager" "0xPolSepolia" "0x0000000000000000000000000000000000001010"
           (Some "0xErc20Predicate") None None "0xWallet".

Definition demo_env_no_predicate : Config :=
  mkConfig "0xDepositManager" "0xPolSepolia" "0x0000000000000000000000000000000000001010"
           None (Some "0xWithdrawManager") None "0xWallet".

(** Concrete inputs. *)
Definition cli (args : list string) : list string := "node" :: "bridge.js" :: args.

Definition proof_body : Json :=
  JObj [("message", JStr "Payload generation success"); ("result", JStr "0xf90a54")].

Definition world_of (balance : Z) (calls : list (Completion TxResponse))
    (waits : list (Completion unit)) (fetches : list (Completion Response)) : Scripted :=
  mkScripted "0x608060405234801561001057600080fd" balance calls waits fetches.

(** Five tokens on Amoy; the burn goes through. *)
Definition world_funded : Scripted :=
  world_of 5000000000000000000 [Normal (mkTx "0xb0b1")] [Normal tt] [].

(** Five tokens on Amoy; the burn is reverted. *)
Definition world_burn_reverts : Scripted :=
  world_of 5000000000000000000 [Throw (mkError "execution reverted")] [] [].

(** The exit was started before; finalization goes through. *)
Definition world_known_exit : Scripted :=
  world_of 0 [Throw (mkError "execution reverted: KNOWN_EXIT"); Normal (mkTx "0xf1a1")]
    [Normal tt] [].

(** The start of the exit fails for another reason. *)
Definition world_exit_rejected : Scripted :=
  world_of 0 [Throw (mkError "insufficient funds for gas"); Normal (mkTx "0xf1a1")]
    [Normal tt] [].

(** The exit starts; [processExits] fails once with a message that contains
    KNOWN_EXIT and goes through when sent again. *)
Definition world_process_exits_twice : Scripted :=
  world_of 0
    [Normal (mkTx "0x57a7"); Throw (mkError "execution reverted: KNOWN_EXIT");
     Normal (mkTx "0xf1a1")]
    [Normal tt; Normal tt] [].

(** The proof service answers 201 with a proof. *)
Definition world_created : Scripted :=
  world_of 0 [] [] [Normal (mkResponse 201 (Normal proof_body))].

(** The proof service answers 200 with an unreadable body, then 200 with a
    proof. *)
Definition world_unreadable_then_proof : Scripted :=
  world_of 0 [] []
    [Normal (mkResponse 200 (Throw (mkError "Unexpected end of JSON input")));
     Normal (mkResponse 200 (Normal proof_body))].

(** Nothing is deployed at the configured token address. *)
Definition world_no_contract : Scripted :=
  mkScripted "0x" 5000000000000000000 [Normal (mkTx "0xb0b1")] [Normal tt] [].

(** Five tokens on Amoy; the burn, the start of the exit and its
    finalization go through; the proof is there at the third request, after
    a 400 and a 404. *)
Definition world_automatic : Scripted :=
  world_of 5000000000000000000
    [Normal (mkTx "0xb0b1"); Normal (mkTx "0x57a7"); Normal (mkTx "0xf1a1")]
    [Normal tt; Normal tt; Normal tt]
    [Normal (mkResponse 400 (Normal (JObj [("error", JBool true)])));
     Normal (mkResponse 404 (Throw (mkError "Unexpected token < in JSON")));
     Normal (mkResponse 200 (Normal proof_body))].

(** The proof service is unreachable. *)
Definition world_unreachable : Scripted := world_of 0 [] [] [].

(** The exit statuses of a run and the time it spends asleep, in
    milliseconds. *)
Definition exits_of (t : list Event) : list Z :=
  flat_map (fun e => match e with EExit code => [code] | _ => [] end) t.

Definition total_sleep (t : list Event) : Z := fold_right Z.add 0%Z (sleeps_of t).

(** What a run prints, on either console, in order. *)
Definition console_of (t : list Event) : list Event :=
  filter (fun e => match e with ELog _ | EError _ => true | _ => false end) t.

(** No line of the trace ends the process. *)
Definition no_exit (t : list Event) : Prop :=
  Forall (fun e => match e with EExit _ => False | _ => True end) t.

(** An outside world in which nothing can be reached. *)
Definition network_down : JsError := mkError "could not detect network".

Definition offline : External unit :=
  mkExternal unit
    (fun _ s => (Throw network_down, s))
    (fun _ _ s => (Throw network_down, s))
    (fun _ s => (Throw network_down, s))
    (fun _ s => (Throw network_down, s))
    (fun _ s => (Throw network_down, s)).

(** More concrete inputs.  The proof service has the proof at once. *)
Definition world_checkpointed : Scripted :=
  world_of 0 [Normal (mkTx "0x57a7"); Normal (mkTx "0xf1a1")] [Normal tt; Normal tt]
    [Normal (mkResponse 200 (Normal proof_body))].

(** The proof service answers 404. *)
Definition world_not_yet : Scripted :=
  world_of 0 [] [] [Normal (mkResponse 404 (Normal (JObj [("error", JBool true)])))].

(** The approval is confirmed and the deposit is reverted. *)
Definition world_deposit_reverts : Scripted :=
  world_of 0 [Normal (mkTx "0xa991"); Throw (mkError "execution reverted")] [Normal tt] [].

(** The approval and the deposit are confirmed. *)
Definition world_deposit : Scripted :=
  world_of 0 [Normal (mkTx "0xa991"); Normal (mkTx "0xde90")] [Normal tt; Normal tt] [].

(** The exit starts; [processExits] fails twice, the first time with a
    message that contains KNOWN_EXIT. *)
Definition world_process_exits_fails_twice : Scripted :=
  world_of 0
    [Normal (mkTx "0x57a7"); Throw (mkError "execution reverted: KNOWN_EXIT");
     Throw (mkError "nonce too low")]
    [Normal tt] [].

(** ** Theorems *)

(** Unfolds the monad and evaluates a run as far as the answers of the
    outside world are known. *)
Ltac unfold_script :=
  unfold send_process_exits, result_of, new_contract;
  unfold contract_call, tx_wait, try_catch, bind, ask,
    lift, console_log, console_error, sleep, emit, ret, throw;
  cbn.

(** Membership of an event in an explicit trace. *)
Ltac in_trace := cbn; repeat (first [left; reflexivity | right]).

(** Case analysis on every answer of the outside world that the goal still
    depends on. *)
Ltac all_answers :=
  repeat (cbn;
          match goal with
          | |- context [invoke ?X ?c ?w] => destruct (invoke X c w) as [[?|?] ?] eqn:?
          | |- context [wait ?X ?tx ?w] => destruct (wait X tx w) as [[[]|?] ?] eqn:?
          | |- context [fetch ?X ?u ?w] => destruct (fetch X u w) as [[?|?] ?] eqn:?
          | |- context [includes "invalid value for Contract target" "KNOWN_EXIT"] =>
              change (includes "invalid value for Contract target" "KNOWN_EXIT") with false
          | |- context [includes ?m ?s] => destruct (includes m s) eqn:?
          | |- context [get_result ?d] => destruct (get_result d) as [?|?] eqn:?
          end);
  cbn.

(** *** The model at work on concrete inputs *)

Example parseEther_half : Ethers.parseEther "0.5" = Normal 500000000000000000%Z.
Proof. reflexivity. Qed.

Example parseEther_negative : Ethers.parseEther "-1" = Normal (-1000000000000000000)%Z.
Proof. reflexivity. Qed.

Example parseEther_not_a_number :
  Ethers.parseEther "ten" = Throw (mkError "invalid FixedNumber string value").
Proof. reflexivity. Qed.

Example parseEther_too_precise :
  Ethers.parseEther "0.0000000000000000001" = Throw (mkError "too many decimals for format").
Proof. reflexivity. Qed.

Example formatEther_samples :
  Ethers.formatEther 5000000000000000000 = "5.0"
  /\ Ethers.formatEther 1500000000000000000 = "1.5"
  /\ Ethers.formatEther 1 = "0.000000000000000001"
  /\ Ethers.formatEther 0 = "0.0".
Proof. repeat split. Qed.

Example includes_samples :
  includes "execution reverted: KNOWN_EXIT" "KNOWN_EXIT" = true
  /\ includes "insufficient funds for gas" "KNOWN_EXIT" = false.
Proof. split; reflexivity. Qed.

(** The whole withdrawal with automatic continuation: burn, three requests
    to the proof service with two sleeps in between, start of the exit,
    finalization. *)
Example automatic_withdrawal :
  let r := withdrawPOL scripted demo_env_auto (cli ["withdraw"; "5"]) world_automatic in
  result_of_run r = Normal tt
  /\ calls_of (trace_of_run r)
     = [burn_call demo_env_auto 5000000000000000000;
        start_exit_call "0xErc20Predicate" (VJson (JStr "0xf90a54"));
        process_exits_call demo_env_auto "0xWithdrawManager"]
  /\ length (fetches_of (trace_of_run r)) = 3
  /\ sleeps_of (trace_of_run r) = [30000; 30000]%Z
  /\ world_of_run r = world_of 5000000000000000000 [] [] [].
Proof. vm_compute. repeat split. Qed.

(** The same command without automatic continuation stops after the burn. *)
Example manual_withdrawal :
  let r := withdrawPOL scripted demo_env (cli ["withdraw"; "5"]) world_automatic in
  result_of_run r = Normal tt
  /\ calls_of (trace_of_run r) = [burn_call demo_env 5000000000000000000]
  /\ fetches_of (trace_of_run r) = [].
Proof. vm_compute. repeat split. Qed.

(** A deposit without an amount. *)
Example default_deposit :
  calls_of (trace_of_run (run scripted demo_env (cli ["deposit"]) world_automatic))
  = [approve_call demo_env 1000000000000000000; deposit_call demo_env 1000000000000000000].
Proof. vm_compute. reflexivity. Qed.

(** An unknown command prints the usage text and touches nothing. *)
Example unknown_command :
  run scripted demo_env (cli ["status"]) world_automatic
  = (Normal tt, world_automatic,
     [ELog [VStr "Usage:"];
      ELog [VStr "  node bridge.js deposit [amount]"];
      ELog [VStr "  node bridge.js withdraw [amount]"];
      ELog [VStr "  node bridge.js check <transaction_hash>"];
      ELog [VStr "  node bridge.js exit <transaction_hash>"];
      ELog [VStr "  node bridge.js finalize"]]).
Proof. reflexivity. Qed.

(** An exit without ERC20_PREDICATE sends nothing: the first contract
    object cannot be built. *)
Example exit_without_predicate :
  let r := processExit scripted demo_env_no_predicate proof_body world_known_exit in
  result_of_run r = Throw Ethers.invalid_target
  /\ world_of_run r = world_known_exit
  /\ calls_of (trace_of_run r) = [].
Proof. vm_compute. repeat split. Qed.

Section Facts.

Context {W : Type}.
Variable X : External W.
Variable env : Config.

Lemma calls_of_app (t1 t2 : list Event) : calls_of (t1 ++ t2) = (calls_of t1 ++ calls_of t2)%list.
Proof. apply flat_map_app. Qed.

Lemma fetches_of_app (t1 t2 : list Event) :
  fetches_of (t1 ++ t2) = (fetches_of t1 ++ fetches_of t2)%list.
Proof. apply flat_map_app. Qed.

Lemma sleeps_of_app (t1 t2 : list Event) :
  sleeps_of (t1 ++ t2) = (sleeps_of t1 ++ sleeps_of t2)%list.
Proof. apply flat_map_app. Qed.

Lemma fetches_of_polling (t : list Event) : fetches_of (polling_of t) = fetches_of t.
Proof.
  unfold fetches_of, sleeps_of, polling_of.
  induction t as [|e t IH]; [reflexivity|].
  destruct e; cbn; congruence.
Qed.

Lemma sleeps_of_polling (t : list Event) : sleeps_of (polling_of t) = sleeps_of t.
Proof.
  unfold fetches_of, sleeps_of, polling_of.
  induction t as [|e t IH]; [reflexivity|].
  destruct e; cbn; congruence.
Qed.

Lemma polling_of_app (t1 t2 : list Event) :
  polling_of (t1 ++ t2) = (polling_of t1 ++ polling_of t2)%list.
Proof. apply filter_app. Qed.

Lemma fetches_of_rounds (url : string) (l : list (Completion Response)) :
  fetches_of (rounds url l) = l.
Proof.
  unfold fetches_of, sleeps_of, rounds.
  induction l as [|o l IH]; cbn; [reflexivity | congruence].
Qed.

Lemma sleeps_of_rounds (url : string) (l : list (Completion Response)) :
  sleeps_of (rounds url l) = repeat 30000%Z (length l).
Proof.
  unfold fetches_of, sleeps_of, rounds.
  induction l as [|o l IH]; cbn; [reflexivity | congruence].
Qed.

(** One attempt: exactly one request, no sleep, and the attempt never
    throws; it hands back a proof exactly when [payload_of] says so. *)
Lemma poll_once_run (url : string) (attempts : nat) (w : W) :
  exists t,
    poll_once X url attempts w
    = (Normal (payload_of (fst (fetch X url w))), snd (fetch X url w), t)
    /\ polling_of t = [EFetch url (fst (fetch X url w))]
    /\ calls_of t = [].
Proof.
  unfold poll_once, try_catch, bind, ask, payload_of, lift, console_log, emit, ret.
  cbn.
  destruct (fetch X url w) as [[response|e] w1]; cbn.
  - destruct (ok response); cbn.
    + destruct (body response) as [data|e]; cbn.
      * destruct (get_result data) as [r|e]; cbn; eexists; repeat split; reflexivity.
      * eexists; repeat split; reflexivity.
    + destruct (status response =? 400)%Z; cbn; eexists; repeat split; reflexivity.
  - eexists; repeat split; reflexivity.
Qed.

(** The loop, by induction on what is left of the budget. *)
Lemma poll_loop_run (url : string) (n : nat) :
  forall (attempts : nat) (w : W),
  exists r w' t,
    poll_loop X url n attempts w = (r, w', t)
    /\ calls_of t = []
    /\ match r with
       | Normal data =>
           exists failed o,
             polling_of t = (rounds url failed ++ [EFetch url o])%list
             /\ Forall (fun o' => payload_of o' = None) failed
             /\ payload_of o = Some data
             /\ length failed < n
             /\ no_proof_within X url n w = false
       | Throw e =>
           e = checkpoint_timeout
           /\ exists failed,
               polling_of t = rounds url failed
               /\ Forall (fun o' => payload_of o' = None) failed
               /\ length failed = n
               /\ no_proof_within X url n w = true
       end.
Proof.
  induction n as [|n IH]; intros attempts w.
  - exists (Throw checkpoint_timeout), w, []. cbn.
    repeat split. exists []. repeat split. constructor.
  - destruct (poll_once_run url attempts w) as (t0 & Hrun & Hpoll & Hcalls).
    cbn [poll_loop no_proof_within]. unfold bind at 1. rewrite Hrun.
    destruct (fetch X url w) as [o w1]; cbn [fst snd] in *.
    destruct (payload_of o) as [data|] eqn:Hpay.
    + exists (Normal data), w1, (t0 ++ [])%list. cbn.
      rewrite app_nil_r. repeat split; [assumption|].
      exists [], o. cbn. repeat split; [assumption|constructor|assumption|lia].
    + destruct (IH (S attempts) w1) as (r & w2 & t & Hloop & Hc & Hspec).
      unfold bind, sleep, emit. rewrite Hloop. cbn.
      exists r, w2, (t0 ++ ESleep 30000 :: t)%list.
      repeat split.
      * rewrite calls_of_app, Hcalls. cbn. assumption.
      * rewrite polling_of_app, Hpoll. cbn [polling_of filter app].
        destruct r as [data|e].
        -- destruct Hspec as (failed & o' & Hp & Hf & Hd & Hlen & Hsome).
           exists (o :: failed), o'. cbn. fold (polling_of t). rewrite Hp.
           repeat split; [constructor; assumption | assumption | lia | assumption].
        -- destruct Hspec as (He & failed & Hp & Hf & Hlen & Hnone).
           split; [assumption|]. exists (o :: failed). cbn.
           fold (polling_of t). rewrite Hp.
           repeat split; [constructor; assumption | lia | assumption].
Qed.

(** [waitForCheckpoint] is the loop with the whole budget, after one
    line on the console. *)
Lemma waitForCheckpoint_run (txHash : string) (w : W) :
  exists r w' t,
    waitForCheckpoint X txHash w = (r, w', t)
    /\ calls_of t = []
    /\ match r with
       | Normal data =>
           exists failed o,
             polling_of t = (rounds (proofUrl txHash) failed ++ [EFetch (proofUrl txHash) o])%list
             /\ Forall (fun o' => payload_of o' = None) failed
             /\ payload_of o = Some data
             /\ length failed < maxAttempts
             /\ no_proof_within X (proofUrl txHash) maxAttempts w = false
       | Throw e =>
           e = checkpoint_timeout
           /\ exists failed,
               polling_of t = rounds (proofUrl txHash) failed
               /\ Forall (fun o' => payload_of o' = None) failed
               /\ length failed = maxAttempts
               /\ no_proof_within X (proofUrl txHash) maxAttempts w = true
       end.
Proof.
  destruct (poll_loop_run (proofUrl txHash) maxAttempts 0 w) as (r & w' & t & Hrun & Hc & Hspec).
  exists r, w', (ELog [VStr "🔍 Polling checkpoint status..."] :: t).
  split.
  - unfold waitForCheckpoint, bind, console_log, emit. rewrite Hrun. reflexivity.
  - split; [exact Hc|]. exact Hspec.
Qed.

End Facts.

Section ExitFacts.

Context {W : Type}.
Variable X : External W.
Variable env : Config.

(** The start-exit step failed as a duplicate and the process-exits step
    went through. *)
Lemma processExit_known_exit_run
    (predicate manager : string)
    (proofData : Json) (data : JsVal) (e : JsError) (tx : TxResponse) (w w1 w2 : W) :
  ERC20_PREDICATE env = Some predicate ->
  WITHDRAW_MANAGER env = Some manager ->
  get_result proofData = Normal data ->
  tx_fails X (start_exit_call predicate data) e w w1 ->
  includes (message e) "KNOWN_EXIT" = true ->
  tx_succeeds X (process_exits_call env manager) tx w1 w2 ->
  exists t,
    processExit X env proofData w = (Normal tt, w2, t)
    /\ calls_of t = [start_exit_call predicate data; process_exits_call env manager]
    /\ fetches_of t = []
    /\ In (ELog [VStr "💰 POL tokens released on Sepolia!"]) t.
Proof.
  intros Hpred Hmgr Hdata Hfail Hdup (w0 & Hi2 & Hw2).
  unfold processExit. unfold_script. rewrite Hpred, Hmgr, Hdata. cbn.
  destruct Hfail as [Hi | (tx0 & w3 & Hi & Hw)];
    rewrite Hi; cbn; try (rewrite Hw; cbn); rewrite Hdup; cbn;
    rewrite Hi2; cbn; rewrite Hw2; cbn;
    eexists; repeat split; in_trace.
Qed.

(** The start-exit step failed as a duplicate: whatever follows, the next
    contract call is process-exits. *)
Lemma processExit_known_exit_calls
    (predicate manager : string)
    (proofData : Json) (data : JsVal) (e : JsError) (w w1 : W) :
  ERC20_PREDICATE env = Some predicate ->
  WITHDRAW_MANAGER env = Some manager ->
  get_result proofData = Normal data ->
  tx_fails X (start_exit_call predicate data) e w w1 ->
  includes (message e) "KNOWN_EXIT" = true ->
  exists rest,
    calls_of (trace_of_run (processExit X env proofData w))
    = start_exit_call predicate data :: process_exits_call env manager :: rest.
Proof.
  intros Hpred Hmgr Hdata Hfail Hdup.
  unfold processExit, trace_of_run. unfold_script. rewrite Hpred, Hmgr, Hdata. cbn.
  destruct Hfail as [Hi | (tx & w0 & Hi & Hw)];
    rewrite Hi; cbn; try (rewrite Hw; cbn); rewrite Hdup; cbn; all_answers;
    eexists; reflexivity.
Qed.

(** The start-exit step failed as a duplicate and WITHDRAW_MANAGER is not
    set: the contract object of the second step cannot be built, nothing
    more is sent and the error of the constructor is thrown. *)
Lemma processExit_known_exit_no_manager_run
    (predicate : string)
    (proofData : Json) (data : JsVal) (e : JsError) (w w1 : W) :
  ERC20_PREDICATE env = Some predicate ->
  WITHDRAW_MANAGER env = None ->
  get_result proofData = Normal data ->
  tx_fails X (start_exit_call predicate data) e w w1 ->
  includes (message e) "KNOWN_EXIT" = true ->
  exists t,
    processExit X env proofData w = (Throw Ethers.invalid_target, w1, t)
    /\ calls_of t = [start_exit_call predicate data]
    /\ In (EError [VStr "❌ Exit processing failed:"; VStr (message Ethers.invalid_target)]) t.
Proof.
  intros Hpred Hmgr Hdata Hfail Hdup.
  unfold processExit. unfold_script. rewrite Hpred, Hmgr, Hdata. cbn.
  destruct Hfail as [Hi | (tx & w0 & Hi & Hw)];
    rewrite Hi; cbn; try (rewrite Hw; cbn); rewrite Hdup; cbn;
    eexists; repeat split; in_trace.
Qed.

(** The start-exit step failed otherwise: the error is logged and thrown
    on, and nothing else is sent. *)
Lemma processExit_start_exit_fatal_run
    (predicate : string)
    (proofData : Json) (data : JsVal) (e : JsError) (w w1 : W) :
  ERC20_PREDICATE env = Some predicate ->
  get_result proofData = Normal data ->
  tx_fails X (start_exit_call predicate data) e w w1 ->
  includes (message e) "KNOWN_EXIT" = false ->
  exists t,
    processExit X env proofData w = (Throw e, w1, t)
    /\ calls_of t = [start_exit_call predicate data]
    /\ fetches_of t = []
    /\ In (EError [VStr "❌ Exit processing failed:"; VStr (message e)]) t.
Proof.
  intros Hpred Hdata Hfail Hdup.
  unfold processExit. unfold_script. rewrite Hpred, Hdata. cbn.
  destruct Hfail as [Hi | (tx & w0 & Hi & Hw)];
    rewrite Hi; cbn; try (rewrite Hw; cbn); rewrite Hdup; cbn;
    rewrite ?Hdup; cbn; rewrite ?Hdata; cbn;
    eexists; repeat split; in_trace.
Qed.

(** The [exit] command: the poll, then the exit, with every failure
    caught and reported on the error console. *)
Lemma completeExit_run (argv : list string) (txHash : string) (w0 : W) :
  argv_at argv 3 = Some txHash ->
  txHash <> "" ->
  completeExit X env argv w0
  = let '(r0, w, t0) := waitForCheckpoint X txHash w0 in
    let head := ELog [VStr ("🚀 Completing exit for: " ++ txHash)] in
    match r0 with
    | Throw e =>
        (Normal tt, w,
         head :: t0 ++ [EError [VStr "❌ Exit completion failed:"; VStr (message e)]])%list
    | Normal proofData =>
        let '(r, w2, t) := processExit X env proofData w in
        match r with
        | Normal _ =>
            (Normal tt, w2,
             head :: t0 ++ t ++ [ELog [VStr "✅ Exit completed successfully!"]])%list
        | Throw e =>
            (Normal tt, w2,
             head :: t0 ++ t
               ++ [EError [VStr "❌ Exit completion failed:"; VStr (message e)]])%list
        end
    end.
Proof.
  intros Hargv Hne. unfold completeExit. rewrite Hargv.
  destruct txHash as [|c rest]; [congruence|].
  unfold try_catch, bind, console_log, console_error, emit. cbn.
  destruct (waitForCheckpoint X (String c rest) w0) as [[[proofData|e] w] t0]; cbn.
  - destruct (processExit X env proofData w) as [[[[]|e] w2] t]; cbn.
    + reflexivity.
    + rewrite <- app_assoc. reflexivity.
  - reflexivity.
Qed.

(** The process-exits step failed, and not as a duplicate: the error is
    logged, the proof is displayed and the error is thrown on; the call is
    not repeated. *)
Lemma processExit_process_exits_fatal_run
    (predicate manager : string)
    (proofData : Json) (data : JsVal) (e : JsError) (w w1 w2 : W) :
  ERC20_PREDICATE env = Some predicate ->
  WITHDRAW_MANAGER env = Some manager ->
  get_result proofData = Normal data ->
  start_exit_done X predicate data w w1 ->
  tx_fails X (process_exits_call env manager) e w1 w2 ->
  includes (message e) "KNOWN_EXIT" = false ->
  exists t,
    processExit X env proofData w = (Throw e, w2, t)
    /\ calls_of t = [start_exit_call predicate data; process_exits_call env manager]
    /\ In (EError [VStr "❌ Exit processing failed:"; VStr (message e)]) t
    /\ In (ELog [VStr "   Proof data:"; data]) t.
Proof.
  intros Hpred Hmgr Hdata Hstart Hfail Hdup.
  unfold processExit. unfold_script. rewrite Hpred, Hmgr, Hdata. cbn.
  destruct Hstart as [(tx0 & w0 & Hi0 & Hw0) | (e0 & [Hi0 | (tx0 & w0 & Hi0 & Hw0)] & Hdup0)];
    rewrite Hi0; cbn; try (rewrite Hw0; cbn); try (rewrite Hdup0; cbn);
    (destruct Hfail as [Hi | (tx & w3 & Hi & Hw)];
     rewrite Hi; cbn; try (rewrite Hw; cbn); rewrite ?Hdup; cbn; rewrite ?Hdata; cbn;
     eexists; repeat split; in_trace).
Qed.

(** The process-exits step failed with a message that contains KNOWN_EXIT:
    the call is issued a second time. *)
Lemma processExit_process_exits_retried
    (predicate manager : string)
    (proofData : Json) (data : JsVal) (e : JsError) (w w1 w2 : W) :
  ERC20_PREDICATE env = Some predicate ->
  WITHDRAW_MANAGER env = Some manager ->
  get_result proofData = Normal data ->
  start_exit_done X predicate data w w1 ->
  tx_fails X (process_exits_call env manager) e w1 w2 ->
  includes (message e) "KNOWN_EXIT" = true ->
  calls_of (trace_of_run (processExit X env proofData w))
  = [start_exit_call predicate data; process_exits_call env manager;
     process_exits_call env manager].
Proof.
  intros Hpred Hmgr Hdata Hstart Hfail Hdup.
  unfold processExit, trace_of_run. unfold_script. rewrite Hpred, Hmgr, Hdata. cbn.
  destruct Hstart as [(tx0 & w0 & Hi0 & Hw0) | (e0 & [Hi0 | (tx0 & w0 & Hi0 & Hw0)] & Hdup0)];
    rewrite Hi0; cbn; try (rewrite Hw0; cbn); try (rewrite Hdup0; cbn);
    (destruct Hfail as [Hi | (tx & w3 & Hi & Hw)];
     rewrite Hi; cbn; try (rewrite Hw; cbn); rewrite ?Hdup; cbn; rewrite ?Hdata; cbn;
     all_answers; rewrite ?Hdata; cbn; reflexivity).
Qed.

(** The process-exits step failed with a message that contains KNOWN_EXIT
    and the call sent again went through: the failure is logged and
    [processExit] completes normally. *)
Lemma processExit_retry_succeeds_run
    (predicate manager : string)
    (proofData : Json) (data : JsVal) (e : JsError) (tx : TxResponse) (w w1 w2 w3 : W) :
  ERC20_PREDICATE env = Some predicate ->
  WITHDRAW_MANAGER env = Some manager ->
  get_result proofData = Normal data ->
  start_exit_done X predicate data w w1 ->
  tx_fails X (process_exits_call env manager) e w1 w2 ->
  includes (message e) "KNOWN_EXIT" = true ->
  tx_succeeds X (process_exits_call env manager) tx w2 w3 ->
  exists t,
    processExit X env proofData w = (Normal tt, w3, t)
    /\ calls_of t
       = [start_exit_call predicate data; process_exits_call env manager;
          process_exits_call env manager]
    /\ In (EError [VStr "❌ Exit processing failed:"; VStr (message e)]) t
    /\ In (ELog [VStr "  ✔ ProcessExit:"; VStr (sepolia_tx (hash tx))]) t.
Proof.
  intros Hpred Hmgr Hdata Hstart Hfail Hdup (w4 & Hj & Hv).
  unfold processExit. unfold_script. rewrite Hpred, Hmgr, Hdata. cbn.
  destruct Hstart as [(tx0 & w0 & Hi0 & Hw0) | (e0 & [Hi0 | (tx0 & w0 & Hi0 & Hw0)] & Hdup0)];
    rewrite Hi0; cbn; try (rewrite Hw0; cbn); try (rewrite Hdup0; cbn);
    (destruct Hfail as [Hi | (tx' & w5 & Hi & Hw)];
     rewrite Hi; cbn; try (rewrite Hw; cbn); rewrite ?Hdup; cbn;
     rewrite Hj; cbn; rewrite Hv; cbn;
     eexists; repeat split; in_trace).
Qed.

(** The process-exits step failed with a message that contains KNOWN_EXIT
    and the call sent again failed too: the first error is thrown, and what
    the run prints is fixed by the first step and the first error alone. *)
Lemma processExit_second_failure_run
    (predicate manager : string)
    (proofData : Json) (data : JsVal) (e e2 : JsError) (w w1 w2 w3 : W) :
  ERC20_PREDICATE env = Some predicate ->
  WITHDRAW_MANAGER env = Some manager ->
  get_result proofData = Normal data ->
  start_exit_done X predicate data w w1 ->
  tx_fails X (process_exits_call env manager) e w1 w2 ->
  includes (message e) "KNOWN_EXIT" = true ->
  tx_fails X (process_exits_call env manager) e2 w2 w3 ->
  exists t,
    processExit X env proofData w = (Throw e, w3, t)
    /\ calls_of t
       = [start_exit_call predicate data; process_exits_call env manager;
          process_exits_call env manager]
    /\ exists head,
        console_of t
        = (head
           ++ [ELog [VStr "📋 Step 2: Processing exit on Withdraw Manager..."];
               ELog [VStr "  🚀 Attempting to process exits (testnet - no challenge period)..."];
               EError [VStr "❌ Exit processing failed:"; VStr (message e)];
               ELog [VStr (LF ++ "💡 Exit already initiated! Trying to finalize immediately...")];
               ELog [VStr "⚠️  Could not immediately finalize. You can try:"];
               ELog [VStr "   npm run finalize"];
               ELog [VStr "💡 You can complete the exit manually using the proof:"];
               ELog [VStr "   Proof data:"; data]])%list
        /\ (head
            = [ELog [VStr "📋 Step 1: Starting exit on ERC20 Predicate..."];
               ELog [VStr "  ℹ️  Exit already started for this transaction"];
               ELog [VStr "  ✅ Proceeding to finalize exit..."]]
            \/ exists tx0,
                head
                = [ELog [VStr "📋 Step 1: Starting exit on ERC20 Predicate..."];
                   ELog [VStr "  ✔ StartExit:"; VStr (sepolia_tx (hash tx0))]]).
Proof.
  intros Hpred Hmgr Hdata Hstart Hfail Hdup Hfail2.
  unfold processExit. unfold_script. rewrite Hpred, Hmgr, Hdata. cbn.
  destruct Hstart as [(tx0 & w0 & Hi0 & Hw0) | (e0 & [Hi0 | (tx0 & w0 & Hi0 & Hw0)] & Hdup0)];
    rewrite Hi0; cbn; try (rewrite Hw0; cbn); try (rewrite Hdup0; cbn);
    (destruct Hfail as [Hi | (tx & w4 & Hi & Hw)];
     rewrite Hi; cbn; try (rewrite Hw; cbn); rewrite ?Hdup; cbn;
     (destruct Hfail2 as [Hj | (tx' & w5 & Hj & Hv)];
      rewrite Hj; cbn; try (rewrite Hv; cbn); rewrite ?Hdata; cbn;
      eexists; (split; [reflexivity|]); (split; [reflexivity|]);
      first
        [ exists [ELog [VStr "📋 Step 1: Starting exit on ERC20 Predicate..."];
                  ELog [VStr "  ℹ️  Exit already started for this transaction"];
                  ELog [VStr "  ✅ Proceeding to finalize exit..."]];
          (split; [reflexivity | left; reflexivity])
        | exists [ELog [VStr "📋 Step 1: Starting exit on ERC20 Predicate..."];
                  ELog [VStr "  ✔ StartExit:"; VStr (sepolia_tx (hash tx0))]];
          (split; [reflexivity | right; exists tx0; reflexivity]) ])).
Qed.

Lemma finalizeExit_fails_run (manager : string) (e : JsError) (w w1 : W) :
  WITHDRAW_MANAGER env = Some manager ->
  tx_fails X (process_exits_call env manager) e w w1 ->
  exists t,
    finalizeExit X env w = (Normal tt, w1, t)
    /\ calls_of t = [process_exits_call env manager]
    /\ In (EError [VStr "❌ Finalization failed:"; VStr (message e)]) t.
Proof.
  intros Hmgr Hfail. unfold finalizeExit. unfold_script. rewrite Hmgr. cbn.
  destruct Hfail as [Hi | (tx & w0 & Hi & Hw)];
    rewrite Hi; cbn; try (rewrite Hw; cbn); eexists; repeat split; in_trace.
Qed.

(** The contract calls of [finalizeExit], whatever the chain answers: the
    one process-exits call when WITHDRAW_MANAGER is set, none when it is
    not; every failure is caught. *)
Lemma finalizeExit_calls (w : W) :
  result_of_run (finalizeExit X env w) = Normal tt
  /\ calls_of (trace_of_run (finalizeExit X env w))
     = match WITHDRAW_MANAGER env with
       | Some manager => [process_exits_call env manager]
       | None => []
       end.
Proof.
  unfold finalizeExit, trace_of_run, result_of_run. unfold_script.
  destruct (WITHDRAW_MANAGER env) as [manager|]; cbn; [|split; reflexivity].
  destruct (invoke X (process_exits_call env manager) w) as [[tx|e] w1]; cbn.
  - destruct (wait X tx w1) as [[[]|e] w2]; cbn; split; reflexivity.
  - split; reflexivity.
Qed.

Lemma finalizeExit_no_manager_run (w : W) :
  WITHDRAW_MANAGER env = None ->
  finalizeExit X env w
  = (Normal tt, w,
     [ELog [VStr "🏁 Finalizing exits after challenge period..."];
      EError [VStr "❌ Finalization failed:"; VStr (message Ethers.invalid_target)];
      ELog [VStr "💡 Make sure the 7-day challenge period has passed"]]).
Proof.
  intros Hmgr. unfold finalizeExit. unfold_script. rewrite Hmgr. reflexivity.
Qed.

End ExitFacts.

Section WithdrawFacts.

Context {W : Type}.
Variable X : External W.
Variable env : Config.
Variable argv : list string.

Lemma strict_eq_false (x : option string) (s : string) :
  x <> Some s -> strict_eq x s = false.
Proof.
  destruct x as [v|]; [|reflexivity]. intros Hne. unfold strict_eq.
  apply String.eqb_neq. congruence.
Qed.

(** Runs [withdrawPOL] up to the balance check. *)
Ltac to_balance_check Hreq :=
  let code := fresh "code" in
  let w1 := fresh "w1" in
  let Hcode := fresh "Hcode" in
  let Hne := fresh "Hne" in
  let Hbal := fresh "Hbal" in
  let Hparse := fresh "Hparse" in
  destruct Hreq as (code & w1 & Hcode & Hne & Hbal & Hparse);
  unfold withdrawPOL; unfold_script;
  rewrite Hcode; cbn;
  rewrite (proj2 (String.eqb_neq _ _) Hne); cbn;
  rewrite Hbal; cbn;
  rewrite Hparse; cbn.

Lemma withdrawPOL_insufficient_run (bal A : Z) (w w2 : W) :
  withdrawal_request X env argv bal A w w2 ->
  (bal < A)%Z ->
  exists t,
    withdrawPOL X env argv w = (Normal tt, w2, t)
    /\ calls_of t = []
    /\ fetches_of t = []
    /\ In (EError [VStr ("❌ Insufficient balance. Need " ++ Ethers.formatEther A
                         ++ " POL, have " ++ Ethers.formatEther bal ++ " POL")]) t.
Proof.
  intros Hreq Hlt. to_balance_check Hreq.
  rewrite (proj2 (Z.ltb_lt _ _) Hlt). cbn.
  eexists; repeat split; in_trace.
Qed.

Lemma withdrawPOL_burn_first (bal A : Z) (w w2 : W) :
  withdrawal_request X env argv bal A w w2 ->
  (A <= bal)%Z ->
  exists r rest,
    calls_of (trace_of_run (withdrawPOL X env argv w)) = burn_call env A :: rest
    /\ In (ECall (burn_call env A) r) (trace_of_run (withdrawPOL X env argv w)).
Proof.
  intros Hreq Hle. unfold trace_of_run. to_balance_check Hreq.
  rewrite (proj2 (Z.ltb_ge _ _) Hle). cbn.
  destruct (invoke X (burn_call env A) w2) as [[tx|e] w3]; cbn.
  - destruct (wait X tx w3) as [[[]|e] w4]; cbn.
    + destruct (strict_eq (AUTO_COMPLETE env) "true"); cbn.
      * destruct (waitForCheckpoint X (hash tx) w4) as [[[proofData|e] w5] t5]; cbn.
        -- destruct (processExit X env proofData w5) as [[[[]|e] w6] t6]; cbn;
             eexists; eexists; (split; [reflexivity | in_trace]).
        -- eexists; eexists; (split; [reflexivity | in_trace]).
      * eexists; eexists; (split; [reflexivity | in_trace]).
    + eexists; eexists; (split; [reflexivity | in_trace]).
  - eexists; eexists; (split; [reflexivity | in_trace]).
Qed.

Lemma withdrawPOL_burn_fails_run (bal A : Z) (e : JsError) (w w2 w3 : W) :
  withdrawal_request X env argv bal A w w2 ->
  (A <= bal)%Z ->
  tx_fails X (burn_call env A) e w2 w3 ->
  exists t,
    withdrawPOL X env argv w = (Normal tt, w3, t)
    /\ calls_of t = [burn_call env A]
    /\ fetches_of t = []
    /\ In (EError [VStr "❌ Burn transaction failed:"; VStr (message e)]) t.
Proof.
  intros Hreq Hle Hfail. to_balance_check Hreq.
  rewrite (proj2 (Z.ltb_ge _ _) Hle). cbn.
  destruct Hfail as [Hi | (tx & w0 & Hi & Hw)];
    rewrite Hi; cbn; try (rewrite Hw; cbn);
    eexists; repeat split; in_trace.
Qed.

Lemma withdrawPOL_manual_run (bal A : Z) (tx : TxResponse) (w w2 w3 : W) :
  withdrawal_request X env argv bal A w w2 ->
  (A <= bal)%Z ->
  tx_succeeds X (burn_call env A) tx w2 w3 ->
  AUTO_COMPLETE env <> Some "true" ->
  exists t,
    withdrawPOL X env argv w = (Normal tt, w3, t)
    /\ calls_of t = [burn_call env A]
    /\ fetches_of t = []
    /\ sleeps_of t = []
    /\ In (EWait tx (Normal tt)) t
    /\ In (ELog [VStr "   🔗 Burn tx:"; VStr (amoy_tx (hash tx))]) t
    /\ In (ELog [VStr "1. Generate proof from:"; VStr (proofUrl (hash tx))]) t.
Proof.
  intros Hreq Hle (w0 & Hi & Hw) Hauto. to_balance_check Hreq.
  rewrite (proj2 (Z.ltb_ge _ _) Hle). cbn.
  rewrite Hi; cbn. rewrite Hw; cbn.
  rewrite (strict_eq_false _ _ Hauto). cbn.
  eexists; repeat split; in_trace.
Qed.

(** Without an amount on the command line the amount is the string 1. *)
Lemma default_amount : argv_at argv 3 = None -> or_default (argv_at argv 3) "1" = "1".
Proof. intros H. rewrite H. reflexivity. Qed.

Lemma parseEther_one : Ethers.parseEther "1" = Normal 1000000000000000000%Z.
Proof. reflexivity. Qed.

(** [bridgePOL] from the parsed amount to its first contract call. *)
Lemma bridgePOL_approve_first (A : Z) (w : W) :
  Ethers.parseEther (or_default (argv_at argv 3) "1") = Normal A ->
  exists t,
    trace_of_run (bridgePOL X env argv w)
    = ELog [VStr ("Depositing " ++ or_default (argv_at argv 3) "1" ++ " POL ("
                  ++ Ethers.formatEther A ++ " POL)")]
      :: ELog [VStr "1) Approving DepositManager on Sepolia…"]
      :: ECall (approve_call env A) (fst (invoke X (approve_call env A) w))
      :: t.
Proof.
  intros Hparse. unfold bridgePOL, trace_of_run. unfold_script. rewrite Hparse. cbn.
  all_answers; eexists; reflexivity.
Qed.

Lemma bridgePOL_approve_fails_run (A : Z) (e : JsError) (w w1 : W) :
  Ethers.parseEther (or_default (argv_at argv 3) "1") = Normal A ->
  tx_fails X (approve_call env A) e w w1 ->
  exists t,
    bridgePOL X env argv w = (Throw e, w1, t)
    /\ calls_of t = [approve_call env A].
Proof.
  intros Hparse Hfail. unfold bridgePOL. unfold_script. rewrite Hparse. cbn.
  destruct Hfail as [Hi | (tx & w0 & Hi & Hw)];
    rewrite Hi; cbn; try (rewrite Hw; cbn); eexists; repeat split.
Qed.

Lemma bridgePOL_deposit_fails_run (A : Z) (tx : TxResponse) (e : JsError) (w w1 w2 : W) :
  Ethers.parseEther (or_default (argv_at argv 3) "1") = Normal A ->
  tx_succeeds X (approve_call env A) tx w w1 ->
  tx_fails X (deposit_call env A) e w1 w2 ->
  exists t,
    bridgePOL X env argv w = (Throw e, w2, t)
    /\ calls_of t = [approve_call env A; deposit_call env A].
Proof.
  intros Hparse (w0 & Hi0 & Hw0) Hfail. unfold bridgePOL. unfold_script.
  rewrite Hparse. cbn. rewrite Hi0. cbn. rewrite Hw0. cbn.
  destruct Hfail as [Hi | (tx1 & w3 & Hi & Hw)];
    rewrite Hi; cbn; try (rewrite Hw; cbn); eexists; repeat split.
Qed.

End WithdrawFacts.

(** ** The properties of the specification *)

(** C1. For a withdrawal of a positive amount [A] (in smallest units): when
    [A] does not exceed the queried balance, the first contract call of the
    run is the [withdraw] method of the Amoy token with [A] both as its
    argument and as the value of the transaction; when [A] exceeds the
    balance, the run issues no contract call and reports the insufficient
    balance on the error console. *)
Theorem burn_amount_checked_against_balance
    {W : Type} (X : External W) (env : Config) (argv : list string)
    (bal A : Z) (w w2 : W)
    (Hreq : withdrawal_request X env argv bal A w w2)
    (Hpos : (0 < A)%Z) :
  let run := withdrawPOL X env argv w in
  ((A <= bal)%Z ->
   exists r rest,
     calls_of (trace_of_run run) = burn_call env A :: rest
     /\ In (ECall (burn_call env A) r) (trace_of_run run)
     /\ args (burn_call env A) = [VBig A]
     /\ value (burn_call env A) = Some A)
  /\ ((bal < A)%Z ->
      result_of_run run = Normal tt
      /\ calls_of (trace_of_run run) = []
      /\ In (EError [VStr ("❌ Insufficient balance. Need " ++ Ethers.formatEther A
                           ++ " POL, have " ++ Ethers.formatEther bal ++ " POL")])
            (trace_of_run run)).
Proof.
  intros run. subst run. split.
  - intros Hle.
    destruct (withdrawPOL_burn_first X env argv bal A w w2 Hreq Hle) as (r & rest & Hc & Hin).
    exists r, rest. repeat split; assumption.
  - intros Hlt.
    destruct (withdrawPOL_insufficient_run X env argv bal A w w2 Hreq Hlt)
      as (t & Hrun & Hc & _ & Hin).
    rewrite Hrun. unfold result_of_run, trace_of_run. cbn [fst snd].
    repeat split; assumption.
Qed.

Lemma burn_amount_checked_against_balance_witness :
  (withdrawal_request scripted demo_env (cli ["withdraw"; "2"])
     5000000000000000000 2000000000000000000 world_funded world_funded
   /\ (0 < 2000000000000000000)%Z
   /\ exists r rest,
       calls_of (trace_of_run (withdrawPOL scripted demo_env (cli ["withdraw"; "2"]) world_funded))
       = burn_call demo_env 2000000000000000000 :: rest
       /\ In (ECall (burn_call demo_env 2000000000000000000) r)
             (trace_of_run (withdrawPOL scripted demo_env (cli ["withdraw"; "2"]) world_funded))
       /\ args (burn_call demo_env 2000000000000000000) = [VBig 2000000000000000000]
       /\ value (burn_call demo_env 2000000000000000000) = Some 2000000000000000000%Z)
  /\ (withdrawal_request scripted demo_env (cli ["withdraw"; "9"])
        5000000000000000000 9000000000000000000 world_funded world_funded
      /\ (0 < 9000000000000000000)%Z
      /\ result_of_run (withdrawPOL scripted demo_env (cli ["withdraw"; "9"]) world_funded)
         = Normal tt
      /\ calls_of (trace_of_run (withdrawPOL scripted demo_env (cli ["withdraw"; "9"]) world_funded))
         = []
      /\ In (EError [VStr "❌ Insufficient balance. Need 9.0 POL, have 5.0 POL"])
            (trace_of_run (withdrawPOL scripted demo_env (cli ["withdraw"; "9"]) world_funded))).
Proof.
  assert (Hreq2 : withdrawal_request scripted demo_env (cli ["withdraw"; "2"])
                    5000000000000000000 2000000000000000000 world_funded world_funded).
  { exists "0x608060405234801561001057600080fd", world_funded.
    repeat split; try reflexivity. discriminate. }
  assert (Hreq9 : withdrawal_request scripted demo_env (cli ["withdraw"; "9"])
                    5000000000000000000 9000000000000000000 world_funded world_funded).
  { exists "0x608060405234801561001057600080fd", world_funded.
    repeat split; try reflexivity. discriminate. }
  assert (Hpos2 : (0 < 2000000000000000000)%Z) by lia.
  assert (Hpos9 : (0 < 9000000000000000000)%Z) by lia.
  split.
  - split; [exact Hreq2|]. split; [exact Hpos2|].
    apply (proj1 (burn_amount_checked_against_balance scripted demo_env
                    (cli ["withdraw"; "2"]) 5000000000000000000 2000000000000000000
                    world_funded world_funded Hreq2 Hpos2)).
    lia.
  - split; [exact Hreq9|]. split; [exact Hpos9|].
    apply (proj2 (burn_amount_checked_against_balance scripted demo_env
                    (cli ["withdraw"; "9"]) 5000000000000000000 9000000000000000000
                    world_funded world_funded Hreq9 Hpos9)).
    lia.
Defined.

(** C2, as the code has it.  [waitForCheckpoint] issues at most 360
    requests and sleeps 30 seconds after each request that hands back no
    proof.  It returns the parsed body at the first answer that is [ok]
    (status 200 to 299) with a body that parses to a value other than
    [null], without sleeping or polling again; every other answer (status
    400, 404 or any status outside 200 to 299, an unreadable body, a failed
    request) is followed by the sleep and the next attempt, and the only way
    the loop fails is the time-out after 360 such answers. *)
Theorem checkpoint_polling_stops_at_first_proof
    {W : Type} (X : External W) (txHash : string) (w : W) :
  let run := waitForCheckpoint X txHash w in
  let url := proofUrl txHash in
  length (fetches_of (trace_of_run run)) <= 360
  /\ calls_of (trace_of_run run) = []
  /\ match result_of_run run with
     | Normal data =>
         exists failed o,
           polling_of (trace_of_run run) = (rounds url failed ++ [EFetch url o])%list
           /\ sleeps_of (trace_of_run run) = repeat 30000%Z (length failed)
           /\ Forall (fun o' => payload_of o' = None) failed
           /\ payload_of o = Some data
     | Throw e =>
         e = checkpoint_timeout
         /\ exists failed,
             polling_of (trace_of_run run) = rounds url failed
             /\ sleeps_of (trace_of_run run) = repeat 30000%Z 360
             /\ Forall (fun o' => payload_of o' = None) failed
             /\ length failed = 360
     end
  /\ (forall e, payload_of (Throw e) = None)
  /\ (forall b, payload_of (Normal (mkResponse 400 b)) = None)
  /\ (forall b, payload_of (Normal (mkResponse 404 b)) = None)
  /\ (forall s b,
        payload_of (Normal (mkResponse s b))
        = if ((200 <=? s) && (s <=? 299))%Z then payload_of (Normal (mkResponse 200 b)) else None)
  /\ (forall e, payload_of (Normal (mkResponse 200 (Throw e))) = None)
  /\ (forall data,
        payload_of (Normal (mkResponse 200 (Normal data)))
        = match data with JNull => None | _ => Some data end).
Proof.
  intros run url. subst run url.
  destruct (waitForCheckpoint_run X txHash w) as (r & w' & t & Hrun & Hc & Hspec).
  rewrite Hrun. unfold trace_of_run, result_of_run. cbn [fst snd].
  split.
  - rewrite <- fetches_of_polling.
    destruct r as [data|e].
    + destruct Hspec as (failed & o & Hp & _ & _ & Hlen & _). rewrite Hp.
      rewrite fetches_of_app, fetches_of_rounds, length_app. cbn.
      unfold maxAttempts in Hlen. lia.
    + destruct Hspec as (_ & failed & Hp & _ & Hlen & _). rewrite Hp.
      rewrite fetches_of_rounds. unfold maxAttempts in Hlen. lia.
  - split; [exact Hc|]. split.
    + destruct r as [data|e].
      * destruct Hspec as (failed & o & Hp & Hf & Hd & _).
        exists failed, o. repeat split; try assumption.
        rewrite <- sleeps_of_polling, Hp, sleeps_of_app, sleeps_of_rounds. cbn.
        apply app_nil_r.
      * destruct Hspec as (He & failed & Hp & Hf & Hlen & _).
        split; [exact He|]. exists failed. repeat split; try assumption.
        rewrite <- sleeps_of_polling, Hp, sleeps_of_rounds, Hlen. reflexivity.
    + repeat apply conj; try (intros; reflexivity).
      intros data. destruct data as [| | | | |fields]; try reflexivity.
      unfold payload_of, get_result. cbn.
      destruct (lookup_field "result" fields); reflexivity.
Qed.

(** C2 as stated fails twice.  A response with status 201, which is not 200,
    ends the polling: its body is returned after a single request.  And a
    response with status 200 whose body cannot be read does not end it: the
    loop sleeps and asks again. *)
Lemma polling_is_decided_by_ok_and_body :
  (status (mkResponse 201 (Normal proof_body)) <> 200%Z
   /\ result_of_run (waitForCheckpoint scripted "0xb0b1" world_created) = Normal proof_body
   /\ polling_of (trace_of_run (waitForCheckpoint scripted "0xb0b1" world_created))
      = [EFetch (proofUrl "0xb0b1") (Normal (mkResponse 201 (Normal proof_body)))])
  /\ (polling_of (trace_of_run (waitForCheckpoint scripted "0xb0b1" world_unreadable_then_proof))
      = [EFetch (proofUrl "0xb0b1")
           (Normal (mkResponse 200 (Throw (mkError "Unexpected end of JSON input"))));
         ESleep 30000;
         EFetch (proofUrl "0xb0b1") (Normal (mkResponse 200 (Normal proof_body)))]).
Proof.
  split; [split; [discriminate|split]|]; vm_compute; reflexivity.
Qed.

(** C3, as the code has it.  When the start-exit step of [processExit]
    fails with an error whose message contains KNOWN_EXIT, the failure is
    not fatal.  With WITHDRAW_MANAGER set, [processExits] is the next
    contract call, and when that step succeeds [processExit] completes
    normally and the [exit] command reports success.  With WITHDRAW_MANAGER
    not set, the contract object of the second step cannot be built:
    [processExits] is not invoked and the error of the constructor is
    thrown.  When the message does not contain KNOWN_EXIT, the same error is
    thrown by [processExit], the start-exit call is the only contract call
    of the run, and the [exit] command reports the failure with that
    message. *)
Theorem start_exit_failure_handling
    {W : Type} (X : External W) (env : Config) (predicate : string)
    (proofData : Json) (data : JsVal) (e : JsError) (w w1 : W)
    (Hpredicate : ERC20_PREDICATE env = Some predicate)
    (Hdata : get_result proofData = Normal data)
    (Hfail : tx_fails X (start_exit_call predicate data) e w w1) :
  let run := processExit X env proofData w in
  (includes (message e) "KNOWN_EXIT" = true ->
   match WITHDRAW_MANAGER env with
   | Some manager =>
       (exists rest,
           calls_of (trace_of_run run)
           = start_exit_call predicate data :: process_exits_call env manager :: rest)
       /\ forall tx w2,
           tx_succeeds X (process_exits_call env manager) tx w1 w2 ->
           result_of_run run = Normal tt
           /\ world_of_run run = w2
           /\ calls_of (trace_of_run run)
              = [start_exit_call predicate data; process_exits_call env manager]
           /\ In (ELog [VStr "💰 POL tokens released on Sepolia!"]) (trace_of_run run)
           /\ forall argv txHash w0 t0,
               argv_at argv 3 = Some txHash ->
               txHash <> "" ->
               waitForCheckpoint X txHash w0 = (Normal proofData, w, t0) ->
               let cli := completeExit X env argv w0 in
               result_of_run cli = Normal tt
               /\ calls_of (trace_of_run cli)
                  = [start_exit_call predicate data; process_exits_call env manager]
               /\ In (ELog [VStr "✅ Exit completed successfully!"]) (trace_of_run cli)
   | None =>
       result_of_run run = Throw Ethers.invalid_target
       /\ world_of_run run = w1
       /\ calls_of (trace_of_run run) = [start_exit_call predicate data]
   end)
  /\ (includes (message e) "KNOWN_EXIT" = false ->
      result_of_run run = Throw e
      /\ world_of_run run = w1
      /\ calls_of (trace_of_run run) = [start_exit_call predicate data]
      /\ forall argv txHash w0 t0,
          argv_at argv 3 = Some txHash ->
          txHash <> "" ->
          waitForCheckpoint X txHash w0 = (Normal proofData, w, t0) ->
          let cli := completeExit X env argv w0 in
          result_of_run cli = Normal tt
          /\ calls_of (trace_of_run cli) = [start_exit_call predicate data]
          /\ In (EError [VStr "❌ Exit completion failed:"; VStr (message e)])
                (trace_of_run cli)).
Proof.
  intros run. subst run. split; intros Hdup.
  - destruct (WITHDRAW_MANAGER env) as [manager|] eqn:Hmanager.
    + split; [eapply processExit_known_exit_calls; eassumption|].
      intros tx w2 Hok.
      destruct (processExit_known_exit_run X env predicate manager proofData data e tx w w1 w2
                  Hpredicate Hmanager Hdata Hfail Hdup Hok) as (t & Hrun & Hcalls & _ & Hin).
      rewrite Hrun. unfold result_of_run, world_of_run, trace_of_run. cbn [fst snd].
      repeat apply conj; try assumption; try reflexivity.
      intros argv txHash w0 t0 Hargv Hne Hpoll.
      rewrite (completeExit_run X env argv txHash w0 Hargv Hne), Hpoll, Hrun. cbn [fst snd].
      destruct (waitForCheckpoint_run X txHash w0) as (r & w' & t' & Hw & Hc0 & _).
      rewrite Hpoll in Hw. injection Hw as _ _ <-.
      repeat split.
      * cbn. rewrite !calls_of_app, Hc0, Hcalls. reflexivity.
      * right. apply in_or_app. right. apply in_or_app. right. now left.
    + destruct (processExit_known_exit_no_manager_run X env predicate proofData data e w w1
                  Hpredicate Hmanager Hdata Hfail Hdup) as (t & Hrun & Hcalls & _).
      rewrite Hrun. unfold result_of_run, world_of_run, trace_of_run. cbn [fst snd].
      repeat split. exact Hcalls.
  - destruct (processExit_start_exit_fatal_run X env predicate proofData data e w w1
                Hpredicate Hdata Hfail Hdup) as (t & Hrun & Hcalls & _ & Hin).
    rewrite Hrun. unfold result_of_run, world_of_run, trace_of_run. cbn [fst snd].
    repeat apply conj; try assumption; try reflexivity.
    intros argv txHash w0 t0 Hargv Hne Hpoll.
    rewrite (completeExit_run X env argv txHash w0 Hargv Hne), Hpoll, Hrun. cbn [fst snd].
    destruct (waitForCheckpoint_run X txHash w0) as (r & w' & t' & Hw & Hc0 & _).
    rewrite Hpoll in Hw. injection Hw as _ _ <-.
    repeat split.
    + cbn. rewrite !calls_of_app, Hc0, Hcalls. reflexivity.
    + right. apply in_or_app. right. apply in_or_app. right. now left.
Qed.

Lemma start_exit_failure_handling_witness :
  ERC20_PREDICATE demo_env = Some "0xErc20Predicate"
  /\ tx_fails scripted (start_exit_call "0xErc20Predicate" (VJson (JStr "0xf90a54")))
       (mkError "execution reverted: KNOWN_EXIT")
       world_known_exit (world_of 0 [Normal (mkTx "0xf1a1")] [Normal tt] [])
  /\ (exists rest,
        calls_of (trace_of_run (processExit scripted demo_env proof_body world_known_exit))
        = start_exit_call "0xErc20Predicate" (VJson (JStr "0xf90a54"))
          :: process_exits_call demo_env "0xWithdrawManager" :: rest)
  /\ tx_fails scripted (start_exit_call "0xErc20Predicate" (VJson (JStr "0xf90a54")))
       (mkError "insufficient funds for gas")
       world_exit_rejected (world_of 0 [Normal (mkTx "0xf1a1")] [Normal tt] [])
  /\ result_of_run (processExit scripted demo_env proof_body world_exit_rejected)
     = Throw (mkError "insufficient funds for gas")
  /\ calls_of (trace_of_run (processExit scripted demo_env proof_body world_exit_rejected))
     = [start_exit_call "0xErc20Predicate" (VJson (JStr "0xf90a54"))].
Proof.
  assert (Hpred : ERC20_PREDICATE demo_env = Some "0xErc20Predicate") by reflexivity.
  assert (Hdata : get_result proof_body = Normal (VJson (JStr "0xf90a54"))) by reflexivity.
  assert (Hdup : tx_fails scripted (start_exit_call "0xErc20Predicate" (VJson (JStr "0xf90a54")))
                   (mkError "execution reverted: KNOWN_EXIT")
                   world_known_exit (world_of 0 [Normal (mkTx "0xf1a1")] [Normal tt] [])).
  { left. reflexivity. }
  assert (Hother : tx_fails scripted (start_exit_call "0xErc20Predicate" (VJson (JStr "0xf90a54")))
                     (mkError "insufficient funds for gas")
                     world_exit_rejected (world_of 0 [Normal (mkTx "0xf1a1")] [Normal tt] [])).
  { left. reflexivity. }
  split; [exact Hpred|]. split; [exact Hdup|]. split.
  - exact (proj1 (proj1 (start_exit_failure_handling scripted demo_env "0xErc20Predicate"
                           proof_body _ _ _ _ Hpred Hdata Hdup) eq_refl)).
  - split; [exact Hother|].
    destruct (proj2 (start_exit_failure_handling scripted demo_env "0xErc20Predicate"
                       proof_body _ _ _ _ Hpred Hdata Hother)) as (Hr & _ & Hc & _).
    + reflexivity.
    + split; [exact Hr | exact Hc].
Defined.

(** C3 as stated fails when WITHDRAW_MANAGER is not set, which nothing
    checks at start-up.  The start-exit call fails with a message that
    contains KNOWN_EXIT, the failure is swallowed, and then the contract
    object of the withdraw manager cannot be built: [processExits] is never
    invoked and [processExit] throws. *)
Lemma known_exit_without_manager_stops :
  let run := processExit scripted demo_env_no_manager proof_body world_known_exit in
  WITHDRAW_MANAGER demo_env_no_manager = None
  /\ In (ECall (start_exit_call "0xErc20Predicate" (VJson (JStr "0xf90a54")))
              (Throw (mkError "execution reverted: KNOWN_EXIT"))) (trace_of_run run)
  /\ calls_of (trace_of_run run)
     = [start_exit_call "0xErc20Predicate" (VJson (JStr "0xf90a54"))]
  /\ result_of_run run = Throw Ethers.invalid_target.
Proof.
  vm_compute. repeat apply conj; try reflexivity; in_trace.
Qed.

(** C4. When none of the 360 attempts hands back a proof,
    [waitForCheckpoint] fails with the checkpoint time-out, after exactly
    360 requests; and from any world whatsoever the only error it can fail
    with is that time-out: the failures of the proof service are logged and
    retried, never thrown. *)
Theorem checkpoint_timeout_after_budget
    {W : Type} (X : External W) (txHash : string) (w : W)
    (Hnone : no_proof_within X (proofUrl txHash) 360 w = true) :
  result_of_run (waitForCheckpoint X txHash w) = Throw checkpoint_timeout
  /\ length (fetches_of (trace_of_run (waitForCheckpoint X txHash w))) = 360
  /\ message checkpoint_timeout
     = "Checkpoint timeout - transaction not checkpointed after 180 minutes"
  /\ forall w0 : W,
       match result_of_run (waitForCheckpoint X txHash w0) with
       | Normal _ => True
       | Throw e => e = checkpoint_timeout
       end.
Proof.
  repeat split.
  - destruct (waitForCheckpoint_run X txHash w) as (r & w' & t & Hrun & _ & Hspec).
    rewrite Hrun. unfold result_of_run. cbn.
    destruct r as [data|e].
    + destruct Hspec as (failed & o & _ & _ & _ & _ & Hsome).
      unfold maxAttempts in Hsome. congruence.
    + destruct Hspec as (He & _). now subst.
  - destruct (waitForCheckpoint_run X txHash w) as (r & w' & t & Hrun & _ & Hspec).
    rewrite Hrun. unfold trace_of_run. cbn [snd].
    rewrite <- fetches_of_polling.
    destruct r as [data|e].
    + destruct Hspec as (failed & o & _ & _ & _ & _ & Hsome).
      unfold maxAttempts in Hsome. congruence.
    + destruct Hspec as (_ & failed & Hp & _ & Hlen & _).
      rewrite Hp, fetches_of_rounds. exact Hlen.
  - intros w0.
    destruct (waitForCheckpoint_run X txHash w0) as (r & w' & t & Hrun & _ & Hspec).
    rewrite Hrun. unfold result_of_run. cbn.
    destruct r as [data|e]; [exact I|]. now destruct Hspec.
Qed.

Lemma checkpoint_timeout_after_budget_witness :
  no_proof_within scripted (proofUrl "0xb0b1") 360 world_unreachable = true
  /\ result_of_run (waitForCheckpoint scripted "0xb0b1" world_unreachable)
     = Throw checkpoint_timeout
  /\ length (fetches_of (trace_of_run (waitForCheckpoint scripted "0xb0b1" world_unreachable)))
     = 360.
Proof.
  assert (Hnone : no_proof_within scripted (proofUrl "0xb0b1") 360 world_unreachable = true)
    by (vm_compute; reflexivity).
  split; [exact Hnone|].
  destruct (checkpoint_timeout_after_budget scripted "0xb0b1" world_unreachable Hnone)
    as (Hr & Hlen & _).
  split; [exact Hr | exact Hlen].
Defined.

(** C5, as the code has it.  The amount of a withdrawal is checked against
    the queried balance and against nothing else: the run issues no contract
    call exactly when the amount exceeds the balance.  In particular an
    amount of zero is not rejected: with a balance that is not negative the
    [withdraw] method is invoked with argument 0 and value 0.  In general,
    whatever the amount, zero or negative included, as soon as it does not
    exceed the balance the first contract call of the run is the [withdraw]
    method with that amount as argument and as value. *)
Theorem amount_validated_against_balance_only
    {W : Type} (X : External W) (env : Config) (argv : list string)
    (bal A : Z) (w w2 : W)
    (Hreq : withdrawal_request X env argv bal A w w2) :
  let run := withdrawPOL X env argv w in
  (calls_of (trace_of_run run) = [] <-> (bal < A)%Z)
  /\ (A = 0%Z -> (0 <= bal)%Z ->
      exists r rest,
        calls_of (trace_of_run run) = burn_call env 0 :: rest
        /\ In (ECall (burn_call env 0) r) (trace_of_run run))
  /\ ((A <= bal)%Z ->
      exists r rest,
        calls_of (trace_of_run run) = burn_call env A :: rest
        /\ In (ECall (burn_call env A) r) (trace_of_run run)).
Proof.
  intros run. subst run. split; [|split].
  - split.
    + intros Hnone. destruct (Z.lt_ge_cases bal A) as [Hlt|Hle]; [exact Hlt|].
      destruct (withdrawPOL_burn_first X env argv bal A w w2 Hreq Hle) as (r & rest & Hc & _).
      congruence.
    + intros Hlt.
      destruct (withdrawPOL_insufficient_run X env argv bal A w w2 Hreq Hlt)
        as (t & Hrun & Hc & _).
      rewrite Hrun. exact Hc.
  - intros -> Hle.
    destruct (withdrawPOL_burn_first X env argv bal 0 w w2 Hreq Hle) as (r & rest & Hc & Hin).
    exists r, rest. split; assumption.
  - intros Hle.
    destruct (withdrawPOL_burn_first X env argv bal A w w2 Hreq Hle) as (r & rest & Hc & Hin).
    exists r, rest. split; assumption.
Qed.

Lemma amount_validated_against_balance_only_witness :
  withdrawal_request scripted demo_env (cli ["withdraw"; "0"]) 5000000000000000000 0
    world_funded world_funded
  /\ exists r rest,
      calls_of (trace_of_run (withdrawPOL scripted demo_env (cli ["withdraw"; "0"]) world_funded))
      = burn_call demo_env 0 :: rest
      /\ In (ECall (burn_call demo_env 0) r)
            (trace_of_run (withdrawPOL scripted demo_env (cli ["withdraw"; "0"]) world_funded)).
Proof.
  assert (Hreq : withdrawal_request scripted demo_env (cli ["withdraw"; "0"])
                   5000000000000000000 0 world_funded world_funded).
  { exists "0x608060405234801561001057600080fd", world_funded.
    repeat split; try reflexivity. discriminate. }
  split; [exact Hreq|].
  apply (proj1 (proj2 (amount_validated_against_balance_only scripted demo_env
                         (cli ["withdraw"; "0"]) 5000000000000000000 0
                         world_funded world_funded Hreq))).
  - reflexivity.
  - lia.
Defined.

(** C5 as stated fails: a withdrawal of 0 with five tokens on Amoy passes
    the only check there is, and the burn transaction is submitted with
    amount 0 and confirmed. *)
Lemma zero_amount_is_burned :
  Ethers.parseEther "0" = Normal 0%Z
  /\ calls_of (trace_of_run (withdrawPOL scripted demo_env (cli ["withdraw"; "0"]) world_funded))
     = [mkCall Amoy "0x0000000000000000000000000000000000001010"
          "function withdraw(uint256 amount) public payable" [VBig 0] (Some 0%Z)]
  /\ In (EWait (mkTx "0xb0b1") (Normal tt))
        (trace_of_run (withdrawPOL scripted demo_env (cli ["withdraw"; "0"]) world_funded)).
Proof.
  split; [reflexivity|]. split; [vm_compute; reflexivity|].
  vm_compute. in_trace.
Qed.

(** C6, as the code has it.  A failed chain transaction is reported with
    the message of its error and is not sent again in these cases: the burn
    step writes the message to the error console and ends the withdrawal
    without polling; the approval and the deposit throw the error to the
    caller; [finalizeExit] writes the message to the error console; inside
    [processExit] a failure of the start-exit step, or of the first
    process-exits call, whose message does not contain KNOWN_EXIT is
    written to the error console and thrown.  A first process-exits failure
    whose message contains KNOWN_EXIT is written to the error console and
    followed by one more process-exits call: when that call goes through,
    [processExit] completes normally and the failure is not thrown; when
    that call fails as well, its error is discarded: the first error is the
    one thrown, and what the run prints is fixed by the first step and the
    first error, with nothing of the second. *)
Theorem transaction_failures_are_reported
    {W : Type} (X : External W) (env : Config) :
  (forall argv bal A e w w2 w3,
      withdrawal_request X env argv bal A w w2 ->
      (A <= bal)%Z ->
      tx_fails X (burn_call env A) e w2 w3 ->
      let run := withdrawPOL X env argv w in
      result_of_run run = Normal tt
      /\ calls_of (trace_of_run run) = [burn_call env A]
      /\ fetches_of (trace_of_run run) = []
      /\ In (EError [VStr "❌ Burn transaction failed:"; VStr (message e)]) (trace_of_run run))
  /\ (forall argv A e w w1,
        Ethers.parseEther (or_default (argv_at argv 3) "1") = Normal A ->
        tx_fails X (approve_call env A) e w w1 ->
        let run := bridgePOL X env argv w in
        result_of_run run = Throw e
        /\ calls_of (trace_of_run run) = [approve_call env A])
  /\ (forall argv A tx e w w1 w2,
        Ethers.parseEther (or_default (argv_at argv 3) "1") = Normal A ->
        tx_succeeds X (approve_call env A) tx w w1 ->
        tx_fails X (deposit_call env A) e w1 w2 ->
        let run := bridgePOL X env argv w in
        result_of_run run = Throw e
        /\ calls_of (trace_of_run run) = [approve_call env A; deposit_call env A])
  /\ (forall predicate proofData data e w w1,
        ERC20_PREDICATE env = Some predicate ->
        get_result proofData = Normal data ->
        tx_fails X (start_exit_call predicate data) e w w1 ->
        includes (message e) "KNOWN_EXIT" = false ->
        let run := processExit X env proofData w in
        result_of_run run = Throw e
        /\ calls_of (trace_of_run run) = [start_exit_call predicate data]
        /\ In (EError [VStr "❌ Exit processing failed:"; VStr (message e)]) (trace_of_run run))
  /\ (forall predicate manager proofData data e w w1 w2,
        ERC20_PREDICATE env = Some predicate ->
        WITHDRAW_MANAGER env = Some manager ->
        get_result proofData = Normal data ->
        start_exit_done X predicate data w w1 ->
        tx_fails X (process_exits_call env manager) e w1 w2 ->
        let run := processExit X env proofData w in
        if includes (message e) "KNOWN_EXIT" then
          calls_of (trace_of_run run)
          = [start_exit_call predicate data; process_exits_call env manager;
             process_exits_call env manager]
        else
          result_of_run run = Throw e
          /\ calls_of (trace_of_run run)
             = [start_exit_call predicate data; process_exits_call env manager]
          /\ In (EError [VStr "❌ Exit processing failed:"; VStr (message e)]) (trace_of_run run)
          /\ In (ELog [VStr "   Proof data:"; data]) (trace_of_run run))
  /\ (forall predicate manager proofData data e tx w w1 w2 w3,
        ERC20_PREDICATE env = Some predicate ->
        WITHDRAW_MANAGER env = Some manager ->
        get_result proofData = Normal data ->
        start_exit_done X predicate data w w1 ->
        tx_fails X (process_exits_call env manager) e w1 w2 ->
        includes (message e) "KNOWN_EXIT" = true ->
        tx_succeeds X (process_exits_call env manager) tx w2 w3 ->
        let run := processExit X env proofData w in
        result_of_run run = Normal tt
        /\ calls_of (trace_of_run run)
           = [start_exit_call predicate data; process_exits_call env manager;
              process_exits_call env manager]
        /\ In (EError [VStr "❌ Exit processing failed:"; VStr (message e)]) (trace_of_run run)
        /\ In (ELog [VStr "  ✔ ProcessExit:"; VStr (sepolia_tx (hash tx))]) (trace_of_run run))
  /\ (forall predicate manager proofData data e e2 w w1 w2 w3,
        ERC20_PREDICATE env = Some predicate ->
        WITHDRAW_MANAGER env = Some manager ->
        get_result proofData = Normal data ->
        start_exit_done X predicate data w w1 ->
        tx_fails X (process_exits_call env manager) e w1 w2 ->
        includes (message e) "KNOWN_EXIT" = true ->
        tx_fails X (process_exits_call env manager) e2 w2 w3 ->
        let run := processExit X env proofData w in
        result_of_run run = Throw e
        /\ calls_of (trace_of_run run)
           = [start_exit_call predicate data; process_exits_call env manager;
              process_exits_call env manager]
        /\ exists head,
            console_of (trace_of_run run)
            = (head
               ++ [ELog [VStr "📋 Step 2: Processing exit on Withdraw Manager..."];
                   ELog [VStr "  🚀 Attempting to process exits (testnet - no challenge period)..."];
                   EError [VStr "❌ Exit processing failed:"; VStr (message e)];
                   ELog [VStr (LF ++ "💡 Exit already initiated! Trying to finalize immediately...")];
                   ELog [VStr "⚠️  Could not immediately finalize. You can try:"];
                   ELog [VStr "   npm run finalize"];
                   ELog [VStr "💡 You can complete the exit manually using the proof:"];
                   ELog [VStr "   Proof data:"; data]])%list
            /\ (head
                = [ELog [VStr "📋 Step 1: Starting exit on ERC20 Predicate..."];
                   ELog [VStr "  ℹ️  Exit already started for this transaction"];
                   ELog [VStr "  ✅ Proceeding to finalize exit..."]]
                \/ exists tx0,
                    head
                    = [ELog [VStr "📋 Step 1: Starting exit on ERC20 Predicate..."];
                       ELog [VStr "  ✔ StartExit:"; VStr (sepolia_tx (hash tx0))]]))
  /\ (forall manager e w w1,
        WITHDRAW_MANAGER env = Some manager ->
        tx_fails X (process_exits_call env manager) e w w1 ->
        let run := finalizeExit X env w in
        result_of_run run = Normal tt
        /\ calls_of (trace_of_run run) = [process_exits_call env manager]
        /\ In (EError [VStr "❌ Finalization failed:"; VStr (message e)]) (trace_of_run run)).
Proof.
  unfold result_of_run, trace_of_run. repeat apply conj.
  - intros argv bal A e w w2 w3 Hreq Hle Hfail.
    destruct (withdrawPOL_burn_fails_run X env argv bal A e w w2 w3 Hreq Hle Hfail)
      as (t & Hrun & H).
    cbv zeta. rewrite Hrun. cbn [fst snd]. split; [reflexivity | exact H].
  - intros argv A e w w1 Hparse Hfail.
    destruct (bridgePOL_approve_fails_run X env argv A e w w1 Hparse Hfail) as (t & Hrun & H).
    cbv zeta. rewrite Hrun. cbn [fst snd]. split; [reflexivity | exact H].
  - intros argv A tx e w w1 w2 Hparse Hok Hfail.
    destruct (bridgePOL_deposit_fails_run X env argv A tx e w w1 w2 Hparse Hok Hfail)
      as (t & Hrun & H).
    cbv zeta. rewrite Hrun. cbn [fst snd]. split; [reflexivity | exact H].
  - intros predicate proofData data e w w1 Hpred Hdata Hfail Hdup.
    destruct (processExit_start_exit_fatal_run X env predicate proofData data e w w1
                Hpred Hdata Hfail Hdup) as (t & Hrun & Hc & _ & Hin).
    cbv zeta. rewrite Hrun. cbn [fst snd]. repeat split; assumption.
  - intros predicate manager proofData data e w w1 w2 Hpred Hmgr Hdata Hstart Hfail.
    cbv zeta. destruct (includes (message e) "KNOWN_EXIT") eqn:Hdup.
    + exact (processExit_process_exits_retried X env predicate manager proofData data e
               w w1 w2 Hpred Hmgr Hdata Hstart Hfail Hdup).
    + destruct (processExit_process_exits_fatal_run X env predicate manager proofData data e
                  w w1 w2 Hpred Hmgr Hdata Hstart Hfail Hdup) as (t & Hrun & H).
      rewrite Hrun. cbn [fst snd]. split; [reflexivity | exact H].
  - intros predicate manager proofData data e tx w w1 w2 w3
      Hpred Hmgr Hdata Hstart Hfail Hdup Hok.
    destruct (processExit_retry_succeeds_run X env predicate manager proofData data e tx
                w w1 w2 w3 Hpred Hmgr Hdata Hstart Hfail Hdup Hok) as (t & Hrun & H).
    cbv zeta. rewrite Hrun. cbn [fst snd]. split; [reflexivity | exact H].
  - intros predicate manager proofData data e e2 w w1 w2 w3
      Hpred Hmgr Hdata Hstart Hfail Hdup Hfail2.
    destruct (processExit_second_failure_run X env predicate manager proofData data e e2
                w w1 w2 w3 Hpred Hmgr Hdata Hstart Hfail Hdup Hfail2) as (t & Hrun & H).
    cbv zeta. rewrite Hrun. cbn [fst snd]. split; [reflexivity | exact H].
  - intros manager e w w1 Hmgr Hfail.
    destruct (finalizeExit_fails_run X env manager e w w1 Hmgr Hfail) as (t & Hrun & H).
    cbv zeta. rewrite Hrun. cbn [fst snd]. split; [reflexivity | exact H].
Qed.

Lemma transaction_failures_are_reported_witness :
  withdrawal_request scripted demo_env (cli ["withdraw"; "2"])
    5000000000000000000 2000000000000000000 world_burn_reverts world_burn_reverts
  /\ tx_fails scripted (burn_call demo_env 2000000000000000000) (mkError "execution reverted")
       world_burn_reverts (world_of 5000000000000000000 [] [] [])
  /\ calls_of (trace_of_run (withdrawPOL scripted demo_env (cli ["withdraw"; "2"])
                               world_burn_reverts))
     = [burn_call demo_env 2000000000000000000]
  /\ In (EError [VStr "❌ Burn transaction failed:"; VStr "execution reverted"])
        (trace_of_run (withdrawPOL scripted demo_env (cli ["withdraw"; "2"])
                         world_burn_reverts)).
Proof.
  assert (Hreq : withdrawal_request scripted demo_env (cli ["withdraw"; "2"])
                   5000000000000000000 2000000000000000000
                   world_burn_reverts world_burn_reverts).
  { exists "0x608060405234801561001057600080fd", world_burn_reverts.
    repeat split; try reflexivity. discriminate. }
  assert (Hfail : tx_fails scripted (burn_call demo_env 2000000000000000000)
                    (mkError "execution reverted")
                    world_burn_reverts (world_of 5000000000000000000 [] [] [])).
  { left. reflexivity. }
  assert (Hle : (2000000000000000000 <= 5000000000000000000)%Z) by lia.
  split; [exact Hreq|]. split; [exact Hfail|].
  destruct (proj1 (transaction_failures_are_reported scripted demo_env)
              (cli ["withdraw"; "2"]) 5000000000000000000%Z 2000000000000000000%Z
              (mkError "execution reverted")
              world_burn_reverts world_burn_reverts (world_of 5000000000000000000 [] [] [])
              Hreq Hle Hfail) as (_ & Hc & _ & Hin).
  split; [exact Hc | exact Hin].
Defined.

(** C6 as stated fails on the exit path.  Here the exit starts, the first
    [processExits] is reverted with a message that contains KNOWN_EXIT, and
    the script sends [processExits] again on its own; the second one goes
    through and [processExit] completes normally, so that the failure is
    not thrown to the caller. *)
Lemma process_exits_is_sent_again :
  let run := processExit scripted demo_env proof_body world_process_exits_twice in
  calls_of (trace_of_run run)
  = [start_exit_call "0xErc20Predicate" (VJson (JStr "0xf90a54"));
     process_exits_call demo_env "0xWithdrawManager"; process_exits_call demo_env "0xWithdrawManager"]
  /\ In (ECall (process_exits_call demo_env "0xWithdrawManager")
              (Throw (mkError "execution reverted: KNOWN_EXIT"))) (trace_of_run run)
  /\ In (ECall (process_exits_call demo_env "0xWithdrawManager") (Normal (mkTx "0xf1a1"))) (trace_of_run run)
  /\ result_of_run run = Normal tt.
Proof.
  vm_compute. repeat apply conj; try reflexivity; in_trace.
Qed.

(** C7, as the code has it.  [finalizeExit] issues at most one contract
    call, whatever the outside world answers, and never a start-exit call:
    with WITHDRAW_MANAGER set the calls of the run are exactly
    [processExits] on that contract for the configured Sepolia token
    address; with WITHDRAW_MANAGER not set the contract object cannot be
    built, no call is issued and the failure is written to the error
    console.  In both cases the function completes normally. *)
Theorem finalize_issues_only_process_exits
    {W : Type} (X : External W) (env : Config) (w : W) :
  calls_of (trace_of_run (finalizeExit X env w))
  = match WITHDRAW_MANAGER env with
    | Some manager =>
        [mkCall Sepolia manager "function processExits(address _token) external"
           [VStr (POL_SEPOLIA env)] None]
    | None => []
    end
  /\ result_of_run (finalizeExit X env w) = Normal tt
  /\ match WITHDRAW_MANAGER env with
     | Some _ => True
     | None =>
         finalizeExit X env w
         = (Normal tt, w,
            [ELog [VStr "🏁 Finalizing exits after challenge period..."];
             EError [VStr "❌ Finalization failed:"; VStr (message Ethers.invalid_target)];
             ELog [VStr "💡 Make sure the 7-day challenge period has passed"]])
     end.
Proof.
  destruct (finalizeExit_calls X env w) as (Hr & Hc).
  split; [|split; [exact Hr|]].
  - rewrite Hc. destruct (WITHDRAW_MANAGER env); reflexivity.
  - destruct (WITHDRAW_MANAGER env) eqn:Hmgr; [exact I|].
    exact (finalizeExit_no_manager_run X env w Hmgr).
Qed.

(** C7 as stated fails when WITHDRAW_MANAGER is not set, which nothing
    checks at start-up: the contract object cannot be built, the error is
    caught, and [finalizeExit] returns without a single contract call,
    although the chain would have confirmed one. *)
Lemma finalize_without_manager_sends_nothing :
  let run := finalizeExit scripted demo_env_no_manager world_funded in
  WITHDRAW_MANAGER demo_env_no_manager = None
  /\ calls_of (trace_of_run run) = []
  /\ world_of_run run = world_funded
  /\ In (EError [VStr "❌ Finalization failed:"; VStr (message Ethers.invalid_target)])
        (trace_of_run run).
Proof.
  vm_compute. repeat apply conj; try reflexivity; in_trace.
Qed.

(** C8. With automatic continuation disabled, a withdrawal whose burn is
    confirmed ends there: the run completes normally in the world reached
    by the confirmation, its only contract call is the burn, it sends no
    request to the proof service and never sleeps, and the identifier of
    the burn transaction is on the console, alone and inside the address of
    the proof to fetch later. *)
Theorem manual_handoff_after_burn
    {W : Type} (X : External W) (env : Config) (argv : list string)
    (bal A : Z) (tx : TxResponse) (w w2 w3 : W)
    (Hreq : withdrawal_request X env argv bal A w w2)
    (Hle : (A <= bal)%Z)
    (Hburn : tx_succeeds X (burn_call env A) tx w2 w3)
    (Hmanual : AUTO_COMPLETE env <> Some "true") :
  let run := withdrawPOL X env argv w in
  result_of_run run = Normal tt
  /\ world_of_run run = w3
  /\ calls_of (trace_of_run run) = [burn_call env A]
  /\ fetches_of (trace_of_run run) = []
  /\ sleeps_of (trace_of_run run) = []
  /\ In (EWait tx (Normal tt)) (trace_of_run run)
  /\ In (ELog [VStr "   🔗 Burn tx:"; VStr (amoy_tx (hash tx))]) (trace_of_run run)
  /\ In (ELog [VStr "1. Generate proof from:"; VStr (proofUrl (hash tx))]) (trace_of_run run).
Proof.
  intros run. subst run.
  destruct (withdrawPOL_manual_run X env argv bal A tx w w2 w3 Hreq Hle Hburn Hmanual)
    as (t & Hrun & H).
  rewrite Hrun. unfold result_of_run, world_of_run, trace_of_run. cbn [fst snd].
  split; [reflexivity|]. split; [reflexivity|]. exact H.
Qed.

Lemma manual_handoff_after_burn_witness :
  withdrawal_request scripted demo_env (cli ["withdraw"; "5"])
    5000000000000000000 5000000000000000000 world_funded world_funded
  /\ tx_succeeds scripted (burn_call demo_env 5000000000000000000) (mkTx "0xb0b1")
       world_funded (world_of 5000000000000000000 [] [] [])
  /\ AUTO_COMPLETE demo_env <> Some "true"
  /\ calls_of (trace_of_run (withdrawPOL scripted demo_env (cli ["withdraw"; "5"]) world_funded))
     = [burn_call demo_env 5000000000000000000]
  /\ fetches_of (trace_of_run (withdrawPOL scripted demo_env (cli ["withdraw"; "5"]) world_funded))
     = [].
Proof.
  assert (Hreq : withdrawal_request scripted demo_env (cli ["withdraw"; "5"])
                   5000000000000000000 5000000000000000000 world_funded world_funded).
  { exists "0x608060405234801561001057600080fd", world_funded.
    repeat split; try reflexivity. discriminate. }
  assert (Hburn : tx_succeeds scripted (burn_call demo_env 5000000000000000000) (mkTx "0xb0b1")
                    world_funded (world_of 5000000000000000000 [] [] [])).
  { exists (world_of 5000000000000000000 [] [Normal tt] []). split; reflexivity. }
  assert (Hmanual : AUTO_COMPLETE demo_env <> Some "true") by discriminate.
  assert (Hle : (5000000000000000000 <= 5000000000000000000)%Z) by lia.
  split; [exact Hreq|]. split; [exact Hburn|]. split; [exact Hmanual|].
  destruct (manual_handoff_after_burn scripted demo_env (cli ["withdraw"; "5"])
              5000000000000000000 5000000000000000000 (mkTx "0xb0b1")
              world_funded world_funded (world_of 5000000000000000000 [] [] [])
              Hreq Hle Hburn Hmanual) as (_ & _ & Hc & Hf & _).
  split; [exact Hc | exact Hf].
Defined.

(** C9. When the code query for the configured Amoy token address answers
    with empty code (the string 0x), the withdrawal returns at once: the run
    consists of that query and one error message, so the balance is not
    queried and no transaction is submitted. *)
Theorem withdraw_without_contract_returns_early
    {W : Type} (X : External W) (env : Config) (argv : list string) (w w1 : W)
    (Hcode : getCode X (POL_AMOY env) w = (Normal "0x", w1)) :
  exists msg,
    withdrawPOL X env argv w
    = (Normal tt, w1, [EGetCode (POL_AMOY env) (Normal "0x"); EError [VStr msg]])
    /\ includes msg "No contract found at POL_AMOY" = true.
Proof.
  eexists. unfold withdrawPOL, bind, ask. rewrite Hcode. cbn.
  split; [reflexivity|].
  reflexivity.
Qed.

Lemma withdraw_without_contract_returns_early_witness :
  getCode scripted (POL_AMOY demo_env) world_no_contract = (Normal "0x", world_no_contract)
  /\ calls_of (trace_of_run (withdrawPOL scripted demo_env (cli ["withdraw"; "2"])
                               world_no_contract)) = []
  /\ result_of_run (withdrawPOL scripted demo_env (cli ["withdraw"; "2"]) world_no_contract)
     = Normal tt.
Proof.
  assert (Hcode : getCode scripted (POL_AMOY demo_env) world_no_contract
                  = (Normal "0x", world_no_contract)) by reflexivity.
  split; [exact Hcode|].
  destruct (withdraw_without_contract_returns_early scripted demo_env (cli ["withdraw"; "2"])
              world_no_contract world_no_contract Hcode) as (msg & Hrun & _).
  rewrite Hrun. split; reflexivity.
Defined.

(** C10. Without an amount on the command line, [deposit] and [withdraw]
    go on with the amount 1, which is 1000000000000000000 smallest units:
    the commands are dispatched to [bridgePOL] and [withdrawPOL], not to the
    usage message; the deposit announces 1 POL and its first interaction is
    the approval of 1000000000000000000; the withdrawal, once the balance is
    known to cover it, burns 1000000000000000000. *)
Theorem default_amount_is_one_token
    {W : Type} (X : External W) (env : Config) (node script : string)
    (bal A : Z) (w w2 : W)
    (Hreq : withdrawal_request X env [node; script; "withdraw"] bal A w w2)
    (Hbal : (1000000000000000000 <= bal)%Z) :
  Ethers.parseEther "1" = Normal 1000000000000000000%Z
  /\ main X env [node; script; "deposit"] = bridgePOL X env [node; script; "deposit"]
  /\ main X env [node; script; "withdraw"] = withdrawPOL X env [node; script; "withdraw"]
  /\ (forall w0, exists t,
         trace_of_run (main X env [node; script; "deposit"] w0)
         = ELog [VStr "Depositing 1 POL (1.0 POL)"]
           :: ELog [VStr "1) Approving DepositManager on Sepolia…"]
           :: ECall (approve_call env 1000000000000000000)
                    (fst (invoke X (approve_call env 1000000000000000000) w0))
           :: t)
  /\ A = 1000000000000000000%Z
  /\ exists r rest,
      calls_of (trace_of_run (main X env [node; script; "withdraw"] w))
      = burn_call env 1000000000000000000 :: rest
      /\ In (ECall (burn_call env 1000000000000000000) r)
            (trace_of_run (main X env [node; script; "withdraw"] w)).
Proof.
  assert (HA : A = 1000000000000000000%Z).
  { destruct Hreq as (code & w1 & _ & _ & _ & Hparse).
    change (or_default (argv_at [node; script; "withdraw"] 3) "1") with "1" in Hparse.
    rewrite parseEther_one in Hparse. congruence. }
  split; [reflexivity|]. split; [reflexivity|]. split; [reflexivity|]. split.
  - intros w0. change (main X env [node; script; "deposit"]) with (bridgePOL X env [node; script; "deposit"]).
    apply (bridgePOL_approve_first X env [node; script; "deposit"] 1000000000000000000 w0).
    reflexivity.
  - split; [exact HA|]. subst A.
    change (main X env [node; script; "withdraw"])
      with (withdrawPOL X env [node; script; "withdraw"]).
    apply (withdrawPOL_burn_first X env [node; script; "withdraw"] bal _ w w2 Hreq Hbal).
Qed.

Lemma default_amount_is_one_token_witness :
  withdrawal_request scripted demo_env (cli ["withdraw"]) 5000000000000000000
    1000000000000000000 world_funded world_funded
  /\ exists r rest,
      calls_of (trace_of_run (main scripted demo_env (cli ["withdraw"]) world_funded))
      = burn_call demo_env 1000000000000000000 :: rest
      /\ In (ECall (burn_call demo_env 1000000000000000000) r)
            (trace_of_run (main scripted demo_env (cli ["withdraw"]) world_funded)).
Proof.
  assert (Hreq : withdrawal_request scripted demo_env (cli ["withdraw"])
                   5000000000000000000 1000000000000000000 world_funded world_funded).
  { exists "0x608060405234801561001057600080fd", world_funded.
    repeat split; try reflexivity. discriminate. }
  assert (Hbal : (1000000000000000000 <= 5000000000000000000)%Z) by lia.
  split; [exact Hreq|].
  destruct (default_amount_is_one_token scripted demo_env "node" "bridge.js"
              5000000000000000000 1000000000000000000 world_funded world_funded Hreq Hbal)
    as (_ & _ & _ & _ & _ & H).
  exact H.
Defined.


(** ** Further properties of the script *)

Section CheckFacts.

Context {W : Type}.
Variable X : External W.

(** Case analysis on what a response looks like to the script. *)
Ltac response_cases :=
  repeat (cbn;
          match goal with
          | |- context [fetch ?X ?u ?w] => destruct (fetch X u w) as [[?|?] ?] eqn:?
          | |- context [ok ?r] => destruct (ok r) eqn:?
          | |- context [body ?r] => destruct (body r) as [?|?] eqn:?
          | |- context [get_result ?d] => destruct (get_result d) as [?|?] eqn:?
          | |- context [(status ?r =? ?n)%Z] => destruct (status r =? n)%Z eqn:?
          end);
  cbn.

Lemma checkStatus_bounds (argv : list string) (w : W) :
  result_of_run (checkStatus X argv w) = Normal tt
  /\ calls_of (trace_of_run (checkStatus X argv w)) = []
  /\ sleeps_of (trace_of_run (checkStatus X argv w)) = []
  /\ length (fetches_of (trace_of_run (checkStatus X argv w))) <= 1.
Proof.
  unfold checkStatus, result_of_run, trace_of_run.
  destruct (argv_at argv 3) as [[|c h]|]; unfold_script; response_cases;
    repeat apply conj; try reflexivity; lia.
Qed.

(** An event that is not in an explicit trace: it differs from each of
    its lines, by the shape of the line or by the first characters of its
    text. *)
Ltac not_in_trace H :=
  cbn in H;
  repeat (destruct H as [H|H];
          [ try discriminate H;
            try (injection H as H; cbv [append] in H; discriminate H) | ]);
  try contradiction.

Lemma checkStatus_answer (argv : list string) (txHash : string) (o : Completion Response)
    (w w1 : W) :
  argv_at argv 3 = Some txHash ->
  txHash <> "" ->
  fetch X (proofUrl txHash) w = (o, w1) ->
  world_of_run (checkStatus X argv w) = w1
  /\ fetches_of (trace_of_run (checkStatus X argv w)) = [o]
  /\ (In (ELog [VStr ("   node bridge.js exit " ++ txHash)])
         (trace_of_run (checkStatus X argv w))
      <-> payload_of o <> None).
Proof.
  intros Hargv Hne Hfetch.
  unfold checkStatus, world_of_run, trace_of_run. rewrite Hargv.
  destruct txHash as [|c h]; [congruence|].
  unfold_script. rewrite Hfetch. unfold payload_of.
  destruct o as [r|e]; cbn.
  - destruct (ok r) eqn:Hok; cbn.
    + destruct (body r) as [data|e] eqn:Hbody; cbn.
      * destruct (get_result data) as [v|e] eqn:Hres; cbn.
        -- repeat apply conj; try reflexivity; [discriminate | intros _; in_trace].
        -- repeat apply conj; try reflexivity; [intros H; not_in_trace H | congruence].
      * repeat apply conj; try reflexivity; [intros H; not_in_trace H | congruence].
    + destruct ((status r =? 400) || (status r =? 404))%Z; cbn;
        (repeat apply conj; try reflexivity; [intros H; not_in_trace H | congruence]).
  - repeat apply conj; try reflexivity; [intros H; not_in_trace H | congruence].
Qed.

End CheckFacts.

(** X1. The [check] command only reads: whatever the command line and the
    outside world, [checkStatus] completes normally, sends at most one
    request to the proof service, invokes no contract method and never
    sleeps. *)
Theorem check_only_reads
    {W : Type} (X : External W) (argv : list string) (w : W) :
  result_of_run (checkStatus X argv w) = Normal tt
  /\ calls_of (trace_of_run (checkStatus X argv w)) = []
  /\ sleeps_of (trace_of_run (checkStatus X argv w)) = []
  /\ length (fetches_of (trace_of_run (checkStatus X argv w))) <= 1.
Proof. apply checkStatus_bounds. Qed.

(** X2. Without a transaction hash on the command line (none, or an empty
    one) the [check] and [exit] commands do not touch the outside world:
    each run is an error line and a usage line, and completes normally. *)
Theorem missing_hash_prints_usage
    {W : Type} (X : External W) (env : Config) (argv : list string) (w : W)
    (Hmissing : argv_at argv 3 = None \/ argv_at argv 3 = Some "") :
  checkStatus X argv w
  = (Normal tt, w,
     [EError [VStr "❌ Please provide transaction hash"];
      ELog [VStr "Usage: node bridge.js check <transaction_hash>"]])
  /\ completeExit X env argv w
     = (Normal tt, w,
        [EError [VStr "❌ Please provide transaction hash"];
         ELog [VStr "Usage: node bridge.js exit <transaction_hash>"]]).
Proof.
  unfold checkStatus, completeExit.
  destruct Hmissing as [H|H]; rewrite H; split; reflexivity.
Qed.

Lemma missing_hash_prints_usage_witness :
  (argv_at (cli ["exit"]) 3 = None \/ argv_at (cli ["exit"]) 3 = Some "")
  /\ completeExit scripted demo_env (cli ["exit"]) world_checkpointed
     = (Normal tt, world_checkpointed,
        [EError [VStr "❌ Please provide transaction hash"];
         ELog [VStr "Usage: node bridge.js exit <transaction_hash>"]]).
Proof.
  assert (H : argv_at (cli ["exit"]) 3 = None \/ argv_at (cli ["exit"]) 3 = Some "")
    by (left; reflexivity).
  split; [exact H|].
  exact (proj2 (missing_hash_prints_usage scripted demo_env (cli ["exit"])
                  world_checkpointed H)).
Defined.

(** X3. The [check] command sends one request for the given hash, and it
    prints the command that completes the exit exactly when the answer is
    one on which the polling loop of the [exit] command would stop: an [ok]
    status with a body that parses to a value other than [null]. *)
Theorem check_agrees_with_polling
    {W : Type} (X : External W) (argv : list string) (txHash : string)
    (o : Completion Response) (w w1 : W)
    (Hargv : argv_at argv 3 = Some txHash)
    (Hhash : txHash <> "")
    (Hanswer : fetch X (proofUrl txHash) w = (o, w1)) :
  world_of_run (checkStatus X argv w) = w1
  /\ fetches_of (trace_of_run (checkStatus X argv w)) = [o]
  /\ (In (ELog [VStr ("   node bridge.js exit " ++ txHash)])
         (trace_of_run (checkStatus X argv w))
      <-> payload_of o <> None).
Proof. apply checkStatus_answer; assumption. Qed.

Lemma check_agrees_with_polling_witness :
  argv_at (cli ["check"; "0xb0b1"]) 3 = Some "0xb0b1"
  /\ "0xb0b1" <> ""
  /\ fetch scripted (proofUrl "0xb0b1") world_not_yet
     = (Normal (mkResponse 404 (Normal (JObj [("error", JBool true)]))),
        world_of 0 [] [] [])
  /\ ~ In (ELog [VStr "   node bridge.js exit 0xb0b1"])
          (trace_of_run (checkStatus scripted (cli ["check"; "0xb0b1"]) world_not_yet)).
Proof.
  assert (Hargv : argv_at (cli ["check"; "0xb0b1"]) 3 = Some "0xb0b1") by reflexivity.
  assert (Hhash : "0xb0b1" <> "") by discriminate.
  assert (Hanswer : fetch scripted (proofUrl "0xb0b1") world_not_yet
                    = (Normal (mkResponse 404 (Normal (JObj [("error", JBool true)]))),
                       world_of 0 [] [] [])) by reflexivity.
  split; [exact Hargv|]. split; [exact Hhash|]. split; [exact Hanswer|].
  destruct (check_agrees_with_polling scripted (cli ["check"; "0xb0b1"]) "0xb0b1" _
              world_not_yet _ Hargv Hhash Hanswer) as (_ & _ & Hiff).
  intros Hin. apply (proj1 Hiff Hin). reflexivity.
Defined.

Section MoreExitFacts.

Context {W : Type}.
Variable X : External W.
Variable env : Config.

Lemma payload_readable (o : Completion Response) (data : Json) :
  payload_of o = Some data -> exists v, get_result data = Normal v.
Proof.
  unfold payload_of. destruct o as [r|e]; [|discriminate].
  destruct (ok r); [|discriminate].
  destruct (body r) as [d|e]; [|discriminate].
  destruct (get_result d) as [v|e] eqn:Hres; [|discriminate].
  intros H. injection H as <-. now exists v.
Qed.

Lemma waitForCheckpoint_readable (txHash : string) (data : Json) (w w' : W) (t : list Event) :
  waitForCheckpoint X txHash w = (Normal data, w', t) ->
  exists v, get_result data = Normal v.
Proof.
  intros Hrun.
  destruct (waitForCheckpoint_run X txHash w) as (r & w1 & t1 & Hw & _ & Hspec).
  rewrite Hrun in Hw. injection Hw as <- _ _.
  destruct Hspec as (failed & o & _ & _ & Hpay & _).
  exact (payload_readable o data Hpay).
Qed.

(** The contract calls of [processExit], whatever the chain answers, by
    what the configuration gives for the two contract addresses. *)
Lemma processExit_calls_shape (proofData : Json) (data : JsVal) (w : W) :
  get_result proofData = Normal data ->
  let calls := calls_of (trace_of_run (processExit X env proofData w)) in
  match ERC20_PREDICATE env, WITHDRAW_MANAGER env with
  | None, _ => calls = []
  | Some predicate, None => calls = [start_exit_call predicate data]
  | Some predicate, Some manager =>
      calls = [start_exit_call predicate data]
      \/ calls = [start_exit_call predicate data; process_exits_call env manager]
      \/ calls = [start_exit_call predicate data; process_exits_call env manager;
                  process_exits_call env manager]
  end.
Proof.
  intros Hdata. unfold processExit, trace_of_run. unfold_script.
  destruct (ERC20_PREDICATE env) as [predicate|]; destruct (WITHDRAW_MANAGER env) as [manager|];
    cbn; rewrite ?Hdata; cbn; all_answers; rewrite ?Hdata; cbn; auto.
Qed.

(** Every failure of [processExit] leaves the proof on the console. *)
Lemma processExit_failure_shows_proof (proofData : Json) (data : JsVal) (w : W) :
  get_result proofData = Normal data ->
  match result_of_run (processExit X env proofData w) with
  | Normal _ => True
  | Throw _ =>
      In (ELog [VStr "   Proof data:"; data]) (trace_of_run (processExit X env proofData w))
  end.
Proof.
  intros Hdata. unfold processExit, result_of_run, trace_of_run. unfold_script.
  destruct (ERC20_PREDICATE env) as [predicate|]; destruct (WITHDRAW_MANAGER env) as [manager|];
    cbn; rewrite ?Hdata; cbn; all_answers; rewrite ?Hdata; cbn; try exact I; in_trace.
Qed.

Lemma processExit_null_run (w : W) :
  exists t,
    processExit X env JNull w
    = (Throw (mkError "Cannot read properties of null (reading 'result')"), w, t)
    /\ calls_of t = [].
Proof.
  unfold processExit. unfold_script.
  destruct (ERC20_PREDICATE env) as [predicate|]; cbn; eexists; split; reflexivity.
Qed.

(** Without ERC20_PREDICATE the first contract object cannot be built:
    nothing is sent, and the error of the constructor is logged and thrown
    after the proof has been printed. *)
Lemma processExit_no_predicate_run (proofData : Json) (data : JsVal) (w : W) :
  ERC20_PREDICATE env = None ->
  get_result proofData = Normal data ->
  processExit X env proofData w
  = (Throw Ethers.invalid_target, w,
     [ELog [VStr "📋 Step 1: Starting exit on ERC20 Predicate..."];
      EError [VStr "❌ Exit processing failed:"; VStr (message Ethers.invalid_target)];
      ELog [VStr "💡 You can complete the exit manually using the proof:"];
      ELog [VStr "   Proof data:"; data]]).
Proof.
  intros Hpred Hdata. unfold processExit. unfold_script. rewrite Hpred. cbn.
  rewrite Hdata. reflexivity.
Qed.

Lemma processExit_success_run
    (predicate manager : string)
    (proofData : Json) (data : JsVal) (tx1 tx2 : TxResponse) (w w1 w2 : W) :
  ERC20_PREDICATE env = Some predicate ->
  WITHDRAW_MANAGER env = Some manager ->
  get_result proofData = Normal data ->
  tx_succeeds X (start_exit_call predicate data) tx1 w w1 ->
  tx_succeeds X (process_exits_call env manager) tx2 w1 w2 ->
  exists t,
    processExit X env proofData w = (Normal tt, w2, t)
    /\ calls_of t = [start_exit_call predicate data; process_exits_call env manager]
    /\ In (ELog [VStr "  ✔ StartExit:"; VStr (sepolia_tx (hash tx1))]) t
    /\ In (ELog [VStr "  ✔ ProcessExit:"; VStr (sepolia_tx (hash tx2))]) t
    /\ In (ELog [VStr "💰 POL tokens released on Sepolia!"]) t.
Proof.
  intros Hpred Hmgr Hdata (w0 & Hi1 & Hw1) (w3 & Hi2 & Hw2).
  unfold processExit. unfold_script. rewrite Hpred, Hmgr, Hdata. cbn.
  rewrite Hi1. cbn. rewrite Hw1. cbn. rewrite Hi2. cbn. rewrite Hw2. cbn.
  eexists. repeat split; in_trace.
Qed.

Lemma processExit_double_failure_run
    (predicate manager : string)
    (proofData : Json) (data : JsVal) (e e2 : JsError) (w w1 w2 w3 : W) :
  ERC20_PREDICATE env = Some predicate ->
  WITHDRAW_MANAGER env = Some manager ->
  get_result proofData = Normal data ->
  start_exit_done X predicate data w w1 ->
  tx_fails X (process_exits_call env manager) e w1 w2 ->
  includes (message e) "KNOWN_EXIT" = true ->
  tx_fails X (process_exits_call env manager) e2 w2 w3 ->
  exists t,
    processExit X env proofData w = (Throw e, w3, t)
    /\ calls_of t = [start_exit_call predicate data; process_exits_call env manager; process_exits_call env manager]
    /\ In (EError [VStr "❌ Exit processing failed:"; VStr (message e)]) t
    /\ In (ELog [VStr "   npm run finalize"]) t
    /\ In (ELog [VStr "   Proof data:"; data]) t.
Proof.
  intros Hpred Hmgr Hdata Hstart Hfail Hdup Hfail2.
  unfold processExit. unfold_script. rewrite Hpred, Hmgr, Hdata. cbn.
  destruct Hstart as [(tx0 & w0 & Hi0 & Hw0) | (e0 & [Hi0 | (tx0 & w0 & Hi0 & Hw0)] & Hdup0)];
    rewrite Hi0; cbn; try (rewrite Hw0; cbn); try (rewrite Hdup0; cbn);
    (destruct Hfail as [Hi | (tx & w4 & Hi & Hw)];
     rewrite Hi; cbn; try (rewrite Hw; cbn); rewrite ?Hdup; cbn;
     (destruct Hfail2 as [Hj | (tx' & w5 & Hj & Hv)];
      rewrite Hj; cbn; try (rewrite Hv; cbn); rewrite ?Hdata; cbn;
      eexists; repeat split; in_trace)).
Qed.

End MoreExitFacts.

Section MoreWithdrawFacts.

Context {W : Type}.
Variable X : External W.
Variable env : Config.
Variable argv : list string.

Lemma cons_app_eq (A : Type) (a : A) (l p t : list A) :
  l = (p ++ t)%list -> a :: l = ((a :: p) ++ t)%list.
Proof. intros ->. reflexivity. Qed.

(** Runs [withdrawPOL] through its two queries and the parsing of the
    amount. *)
Ltac through_queries Hreq :=
  let code := fresh "code" in
  let w1 := fresh "w1" in
  let Hcode := fresh "Hcode" in
  let Hne := fresh "Hne" in
  let Hbal := fresh "Hbal" in
  let Hparse := fresh "Hparse" in
  destruct Hreq as (code & w1 & Hcode & Hne & Hbal & Hparse);
  unfold withdrawPOL; unfold_script;
  rewrite Hcode; cbn;
  rewrite (proj2 (String.eqb_neq _ _) Hne); cbn;
  rewrite Hbal; cbn;
  rewrite Hparse; cbn.

(** With automatic continuation, a withdrawal whose burn is confirmed is
    the events up to the confirmation, then the polling for the hash of the
    burn, then the exit with what the polling returned; a failure of either
    is thrown on. *)
Lemma withdrawPOL_auto_run (bal A : Z) (tx : TxResponse) (w w2 w3 : W) :
  withdrawal_request X env argv bal A w w2 ->
  (A <= bal)%Z ->
  tx_succeeds X (burn_call env A) tx w2 w3 ->
  AUTO_COMPLETE env = Some "true" ->
  exists pre,
    withdrawPOL X env argv w
    = (let '(r0, w4, t4) := waitForCheckpoint X (hash tx) w3 in
       match r0 with
       | Throw e => (Throw e, w4, pre ++ t4)
       | Normal proofData =>
           let '(r, w5, t5) := processExit X env proofData w4 in
           match r with
           | Normal _ =>
               (Normal tt, w5,
                pre ++ t4 ++ ELog [VStr "3) Processing exit on Sepolia..."]
                    :: t5 ++ [ELog [VStr "✅ Automatic withdrawal completed!"]])
           | Throw e =>
               (Throw e, w5, pre ++ t4 ++ ELog [VStr "3) Processing exit on Sepolia..."] :: t5)
           end
       end)%list
    /\ calls_of pre = [burn_call env A]
    /\ fetches_of pre = []
    /\ sleeps_of pre = []
    /\ In (EWait tx (Normal tt)) pre
    /\ In (ELog [VStr "   🔗 Burn tx:"; VStr (amoy_tx (hash tx))]) pre
    /\ In (ELog [VStr "1. Generate proof from:"; VStr (proofUrl (hash tx))]) pre.
Proof.
  intros Hreq Hle (w0 & Hi & Hw) Hauto. through_queries Hreq.
  rewrite (proj2 (Z.ltb_ge _ _) Hle). cbn.
  rewrite Hi; cbn. rewrite Hw; cbn.
  assert (Hs : strict_eq (AUTO_COMPLETE env) "true" = true) by (rewrite Hauto; reflexivity).
  rewrite Hs. cbn.
  eexists. split.
  - destruct (waitForCheckpoint X (hash tx) w3) as [[[proofData|e] w4] t4]; cbn.
    + destruct (processExit X env proofData w4) as [[[[]|e] w5] t5]; cbn.
      * apply f_equal. repeat (eapply cons_app_eq). symmetry. apply app_nil_l.
      * reflexivity.
    + reflexivity.
  - repeat split; in_trace.
Qed.

Lemma withdrawPOL_getCode_fails_run (e : JsError) (w w1 : W) :
  getCode X (POL_AMOY env) w = (Throw e, w1) ->
  withdrawPOL X env argv w = (Throw e, w1, [EGetCode (POL_AMOY env) (Throw e)]).
Proof. intros H. unfold withdrawPOL. unfold_script. rewrite H. reflexivity. Qed.

Lemma withdrawPOL_no_contract_run (w w1 : W) :
  getCode X (POL_AMOY env) w = (Normal "0x", w1) ->
  exists t, withdrawPOL X env argv w = (Normal tt, w1, t) /\ calls_of t = [].
Proof.
  intros H. unfold withdrawPOL. unfold_script. rewrite H. cbn.
  eexists. split; reflexivity.
Qed.

Lemma withdrawPOL_balance_fails_run (code : string) (e : JsError) (w w1 w2 : W) :
  getCode X (POL_AMOY env) w = (Normal code, w1) ->
  code <> "0x" ->
  balanceOf X (POL_AMOY env) (walletAddress env) w1 = (Throw e, w2) ->
  exists t, withdrawPOL X env argv w = (Throw e, w2, t) /\ calls_of t = [].
Proof.
  intros Hcode Hne Hbal. unfold withdrawPOL. unfold_script.
  rewrite Hcode; cbn. rewrite (proj2 (String.eqb_neq _ _) Hne); cbn. rewrite Hbal; cbn.
  eexists. split; reflexivity.
Qed.

Lemma withdrawPOL_parse_fails_run (code : string) (bal : Z) (e : JsError) (w w1 w2 : W) :
  getCode X (POL_AMOY env) w = (Normal code, w1) ->
  code <> "0x" ->
  balanceOf X (POL_AMOY env) (walletAddress env) w1 = (Normal bal, w2) ->
  Ethers.parseEther (or_default (argv_at argv 3) "1") = Throw e ->
  exists t, withdrawPOL X env argv w = (Throw e, w2, t) /\ calls_of t = [].
Proof.
  intros Hcode Hne Hbal Hparse. unfold withdrawPOL. unfold_script.
  rewrite Hcode; cbn. rewrite (proj2 (String.eqb_neq _ _) Hne); cbn. rewrite Hbal; cbn.
  rewrite Hparse; cbn.
  eexists. split; reflexivity.
Qed.

(** Either a transaction step goes through or it fails. *)
Lemma tx_step_cases (c : ContractCall) (w : W) :
  (exists tx w', tx_succeeds X c tx w w') \/ (exists e w', tx_fails X c e w w').
Proof.
  unfold tx_succeeds, tx_fails.
  destruct (invoke X c w) as [[tx|e] w1] eqn:Hi.
  - destruct (wait X tx w1) as [[[]|e] w2] eqn:Hw.
    + left. exists tx, w2, w1. split; [reflexivity | exact Hw].
    + right. exists e, w2. right. exists tx, w1. split; [reflexivity | exact Hw].
  - right. exists e, w1. left. reflexivity.
Qed.

Lemma strict_eq_true (x : option string) (s : string) : strict_eq x s = true -> x = Some s.
Proof.
  destruct x as [v|]; unfold strict_eq; [|discriminate].
  intros H. apply String.eqb_eq in H. now subst.
Qed.

(** The contract calls of a withdrawal, whatever the outside world
    answers: none, or one burn followed by at most three calls signed for
    Sepolia. *)
Lemma withdrawPOL_calls_shape (w : W) :
  let calls := calls_of (trace_of_run (withdrawPOL X env argv w)) in
  calls = []
  \/ exists A rest,
      Ethers.parseEther (or_default (argv_at argv 3) "1") = Normal A
      /\ calls = burn_call env A :: rest
      /\ length rest <= 3
      /\ Forall (fun c => signer c = Sepolia) rest.
Proof.
  cbv zeta.
  destruct (getCode X (POL_AMOY env) w) as [[code|e] w1] eqn:Hcode.
  2:{ left. rewrite (withdrawPOL_getCode_fails_run e w w1 Hcode). reflexivity. }
  destruct (String.eqb_spec code "0x") as [->|Hne].
  { left. destruct (withdrawPOL_no_contract_run w w1 Hcode) as (t & -> & Hc). exact Hc. }
  destruct (balanceOf X (POL_AMOY env) (walletAddress env) w1) as [[bal|e] w2] eqn:Hbal.
  2:{ left. destruct (withdrawPOL_balance_fails_run code e w w1 w2 Hcode Hne Hbal)
        as (t & -> & Hc). exact Hc. }
  destruct (Ethers.parseEther (or_default (argv_at argv 3) "1")) as [A|e] eqn:Hparse.
  2:{ left. destruct (withdrawPOL_parse_fails_run code bal e w w1 w2 Hcode Hne Hbal Hparse)
        as (t & -> & Hc). exact Hc. }
  assert (Hreq : withdrawal_request X env argv bal A w w2).
  { exists code, w1. repeat split; assumption. }
  destruct (Z.lt_ge_cases bal A) as [Hlt|Hle].
  { left. destruct (withdrawPOL_insufficient_run X env argv bal A w w2 Hreq Hlt)
      as (t & -> & Hc & _). exact Hc. }
  right. exists A.
  destruct (tx_step_cases (burn_call env A) w2) as [(tx & w3 & Hok) | (e & w3 & Hfail)].
  2:{ destruct (withdrawPOL_burn_fails_run X env argv bal A e w w2 w3 Hreq Hle Hfail)
        as (t & -> & Hc & _).
      exists []. cbn [trace_of_run snd]. repeat split; [exact Hc | cbn; lia | constructor]. }
  destruct (strict_eq (AUTO_COMPLETE env) "true") eqn:Hauto.
  2:{ assert (Hmanual : AUTO_COMPLETE env <> Some "true").
      { intros H. rewrite H in Hauto. discriminate. }
      destruct (withdrawPOL_manual_run X env argv bal A tx w w2 w3 Hreq Hle Hok Hmanual)
        as (t & -> & Hc & _).
      exists []. cbn [trace_of_run snd]. repeat split; [exact Hc | cbn; lia | constructor]. }
  apply strict_eq_true in Hauto.
  destruct (withdrawPOL_auto_run bal A tx w w2 w3 Hreq Hle Hok Hauto)
    as (pre & -> & Hpre & _).
  destruct (waitForCheckpoint_run X (hash tx) w3) as (r0 & w4 & t4 & Hpoll & Hc4 & _).
  rewrite Hpoll.
  destruct r0 as [proofData|e].
  - destruct (waitForCheckpoint_readable X (hash tx) proofData w3 w4 t4 Hpoll) as (v & Hv).
    pose proof (processExit_calls_shape X env proofData v w4 Hv) as Hshape.
    cbv zeta in Hshape. unfold trace_of_run in *.
    destruct (processExit X env proofData w4) as [[r w5] t5]. cbn [snd] in Hshape.
    exists (calls_of t5).
    assert (Hcalls : forall tail, calls_of tail = [] ->
              calls_of (pre ++ t4 ++ ELog [VStr "3) Processing exit on Sepolia..."] :: t5 ++ tail)
              = burn_call env A :: calls_of t5).
    { intros tail Htail.
      rewrite calls_of_app, Hpre, calls_of_app, Hc4.
      change (ELog [VStr "3) Processing exit on Sepolia..."] :: t5 ++ tail)%list
        with ([ELog [VStr "3) Processing exit on Sepolia..."]] ++ (t5 ++ tail))%list.
      rewrite calls_of_app, calls_of_app, Htail, app_nil_r. reflexivity. }
    assert (Hrest : length (calls_of t5) <= 3 /\ Forall (fun c => signer c = Sepolia) (calls_of t5)).
    { destruct (ERC20_PREDICATE env) as [predicate|];
        [destruct (WITHDRAW_MANAGER env) as [manager|]; [destruct Hshape as [-> | [-> | ->]]|]|];
        rewrite ?Hshape; split; cbn; try lia; repeat constructor. }
    destruct r as [[]|e]; cbn [snd].
    + repeat split; [apply Hcalls; reflexivity | apply Hrest | apply Hrest].
    + rewrite <- (app_nil_r t5) at 1.
      repeat split; [apply Hcalls; reflexivity | apply Hrest | apply Hrest].
  - exists []. cbn [trace_of_run snd].
    repeat split; [rewrite calls_of_app, Hpre, Hc4; reflexivity | cbn; lia | constructor].
Qed.

End MoreWithdrawFacts.

Section DepositFacts.

Context {W : Type}.
Variable X : External W.
Variable env : Config.
Variable argv : list string.

Lemma bridgePOL_parse_fails_run (e : JsError) (w : W) :
  Ethers.parseEther (or_default (argv_at argv 3) "1") = Throw e ->
  bridgePOL X env argv w = (Throw e, w, []).
Proof. intros H. unfold bridgePOL. unfold_script. rewrite H. reflexivity. Qed.

Lemma bridgePOL_success_run (A : Z) (tx1 tx2 : TxResponse) (w w1 w2 : W) :
  Ethers.parseEther (or_default (argv_at argv 3) "1") = Normal A ->
  tx_succeeds X (approve_call env A) tx1 w w1 ->
  tx_succeeds X (deposit_call env A) tx2 w1 w2 ->
  exists t,
    bridgePOL X env argv w = (Normal tt, w2, t)
    /\ calls_of t = [approve_call env A; deposit_call env A]
    /\ In (ELog [VStr "  ✔ Approval:"; VStr (sepolia_tx (hash tx1))]) t
    /\ In (ELog [VStr "  ✔ Deposit:"; VStr (sepolia_tx (hash tx2))]) t
    /\ In (ELog [VStr "✅ Deposit confirmed — funds will arrive on Amoy in ~25 min."]) t.
Proof.
  intros Hparse (w0 & Hi1 & Hw1) (w3 & Hi2 & Hw2). unfold bridgePOL. unfold_script.
  rewrite Hparse. cbn. rewrite Hi1. cbn. rewrite Hw1. cbn. rewrite Hi2. cbn. rewrite Hw2. cbn.
  eexists. repeat split; in_trace.
Qed.

(** The contract calls of a deposit, whatever the chain answers. *)
Lemma bridgePOL_calls_shape (w : W) :
  match Ethers.parseEther (or_default (argv_at argv 3) "1") with
  | Throw e => bridgePOL X env argv w = (Throw e, w, [])
  | Normal A =>
      (calls_of (trace_of_run (bridgePOL X env argv w)) = [approve_call env A]
       /\ exists e w1, tx_fails X (approve_call env A) e w w1)
      \/ (calls_of (trace_of_run (bridgePOL X env argv w))
          = [approve_call env A; deposit_call env A]
          /\ exists tx w1, tx_succeeds X (approve_call env A) tx w w1)
  end.
Proof.
  destruct (Ethers.parseEther (or_default (argv_at argv 3) "1")) as [A|e] eqn:Hparse.
  2:{ apply bridgePOL_parse_fails_run. exact Hparse. }
  destruct (tx_step_cases X (approve_call env A) w) as [(tx & w1 & Hok) | (e & w1 & Hfail)].
  - right. split; [|exists tx, w1; exact Hok].
    destruct (tx_step_cases X (deposit_call env A) w1) as [(tx2 & w2 & Hok2) | (e & w2 & Hfail)].
    + destruct (bridgePOL_success_run A tx tx2 w w1 w2 Hparse Hok Hok2) as (t & -> & Hc & _).
      exact Hc.
    + destruct (bridgePOL_deposit_fails_run X env argv A tx e w w1 w2 Hparse Hok Hfail)
        as (t & -> & Hc).
      exact Hc.
  - left. split; [|exists e, w1; exact Hfail].
    destruct (bridgePOL_approve_fails_run X env argv A e w w1 Hparse Hfail) as (t & -> & Hc).
    exact Hc.
Qed.

End DepositFacts.

Section SleepFacts.

Context {W : Type}.
Variable X : External W.

Lemma sum_repeat (ms : Z) (n : nat) :
  fold_right Z.add 0%Z (repeat ms n) = (ms * Z.of_nat n)%Z.
Proof.
  induction n as [|n IH]; [cbn; lia|].
  cbn [repeat fold_right]. rewrite IH. lia.
Qed.

Lemma waitForCheckpoint_sleep (txHash : string) (w : W) :
  let run := waitForCheckpoint X txHash w in
  match result_of_run run with
  | Normal _ =>
      (total_sleep (trace_of_run run)
       = 30000 * (Z.of_nat (length (fetches_of (trace_of_run run))) - 1))%Z
  | Throw _ => total_sleep (trace_of_run run) = 10800000%Z
  end.
Proof.
  cbv zeta.
  destruct (waitForCheckpoint_run X txHash w) as (r & w' & t & Hrun & _ & Hspec).
  rewrite Hrun. unfold result_of_run, trace_of_run, total_sleep. cbn [fst snd].
  rewrite <- sleeps_of_polling, <- fetches_of_polling.
  destruct r as [data|e].
  - destruct Hspec as (failed & o & -> & _).
    rewrite sleeps_of_app, sleeps_of_rounds, fetches_of_app, fetches_of_rounds.
    cbn [sleeps_of fetches_of flat_map app].
    rewrite app_nil_r, length_app, sum_repeat. cbn [length]. lia.
  - destruct Hspec as (_ & failed & -> & _ & Hlen & _).
    rewrite sleeps_of_rounds, sum_repeat, Hlen. reflexivity.
Qed.

End SleepFacts.

Section RunFacts.

Context {W : Type}.
Variable X : External W.
Variable env : Config.

Lemma exits_of_app (t1 t2 : list Event) : exits_of (t1 ++ t2) = (exits_of t1 ++ exits_of t2)%list.
Proof. apply flat_map_app. Qed.

Lemma no_exit_exits (t : list Event) : no_exit t -> exits_of t = [].
Proof.
  unfold no_exit, exits_of. induction 1 as [|e t He _ IH]; [reflexivity|].
  destruct e; cbn; try exact IH. contradiction.
Qed.

(** Closes a goal [no_exit t] for a trace made of explicit lines and of the
    traces of runs already known to be free of exits. *)
Ltac no_exit_tac :=
  unfold no_exit in *;
  repeat first
    [ apply Forall_nil
    | assumption
    | apply Forall_cons; [exact I|]
    | apply Forall_app; split ].

Lemma poll_once_no_exit (url : string) (attempts : nat) (w : W) :
  no_exit (trace_of_run (poll_once X url attempts w)).
Proof.
  unfold poll_once, trace_of_run. unfold_script.
  destruct (fetch X url w) as [[response|e] w1]; cbn; [|no_exit_tac].
  destruct (ok response); cbn.
  - destruct (body response) as [data|e]; cbn; [|no_exit_tac].
    destruct (get_result data) as [r|e]; cbn; no_exit_tac.
  - destruct (status response =? 400)%Z; cbn; no_exit_tac.
Qed.

Lemma poll_loop_no_exit (url : string) (n : nat) :
  forall (attempts : nat) (w : W), no_exit (trace_of_run (poll_loop X url n attempts w)).
Proof.
  induction n as [|n IH]; intros attempts w; [apply Forall_nil|].
  pose proof (poll_once_no_exit url attempts w) as Honce.
  cbn [poll_loop]. unfold bind at 1. unfold trace_of_run in *.
  destruct (poll_once X url attempts w) as [[[[data|]|e] w1] t1]; cbn in *.
  - rewrite app_nil_r. exact Honce.
  - pose proof (IH (S attempts) w1) as Hrest.
    destruct (poll_loop X url n (S attempts) w1) as [[r w2] t2]. cbn in *.
    no_exit_tac.
  - exact Honce.
Qed.

Lemma waitForCheckpoint_no_exit (txHash : string) (w : W) :
  no_exit (trace_of_run (waitForCheckpoint X txHash w)).
Proof.
  pose proof (poll_loop_no_exit (proofUrl txHash) maxAttempts 0 w) as H.
  unfold waitForCheckpoint, trace_of_run, bind, console_log, emit in *.
  destruct (poll_loop X (proofUrl txHash) maxAttempts 0 w) as [[r w1] t]. cbn in *.
  no_exit_tac.
Qed.

Lemma processExit_no_exit (proofData : Json) (w : W) :
  no_exit (trace_of_run (processExit X env proofData w)).
Proof.
  unfold processExit, trace_of_run. unfold_script.
  destruct (ERC20_PREDICATE env) as [predicate|]; destruct (WITHDRAW_MANAGER env) as [manager|];
    cbn; destruct (get_result proofData) as [data|e]; cbn; all_answers; no_exit_tac.
Qed.

Lemma finalizeExit_no_exit (w : W) :
  result_of_run (finalizeExit X env w) = Normal tt
  /\ no_exit (trace_of_run (finalizeExit X env w)).
Proof.
  unfold finalizeExit, result_of_run, trace_of_run. unfold_script.
  destruct (WITHDRAW_MANAGER env) as [manager|]; cbn;
    all_answers; split; try reflexivity; no_exit_tac.
Qed.

Lemma checkStatus_no_exit (argv : list string) (w : W) :
  no_exit (trace_of_run (checkStatus X argv w)).
Proof.
  unfold checkStatus, trace_of_run.
  destruct (argv_at argv 3) as [[|c h]|]; unfold_script; try no_exit_tac.
  destruct (fetch X (proofUrl (String c h)) w) as [[response|e] w1]; cbn; [|no_exit_tac].
  destruct (ok response); cbn.
  - destruct (body response) as [data|e]; cbn; [|no_exit_tac].
    destruct (get_result data) as [r|e]; cbn; no_exit_tac.
  - destruct ((status response =? 400) || (status response =? 404))%Z; cbn; no_exit_tac.
Qed.

Lemma completeExit_no_exit (argv : list string) (w : W) :
  result_of_run (completeExit X env argv w) = Normal tt
  /\ no_exit (trace_of_run (completeExit X env argv w)).
Proof.
  destruct (argv_at argv 3) as [[|c h]|] eqn:Hargv.
  - unfold completeExit. rewrite Hargv. split; [reflexivity | cbn; no_exit_tac].
  - assert (Hne : String c h <> "") by discriminate.
    rewrite (completeExit_run X env argv (String c h) w Hargv Hne).
    pose proof (waitForCheckpoint_no_exit (String c h) w) as Hpoll.
    unfold result_of_run, trace_of_run in *.
    destruct (waitForCheckpoint X (String c h) w) as [[[proofData|e] w1] t1]; cbn in *.
    + pose proof (processExit_no_exit proofData w1) as Hproc.
      unfold trace_of_run in Hproc.
      destruct (processExit X env proofData w1) as [[[[]|e] w2] t2]; cbn in *;
        (split; [reflexivity | no_exit_tac]).
    + split; [reflexivity | no_exit_tac].
  - unfold completeExit. rewrite Hargv. split; [reflexivity | cbn; no_exit_tac].
Qed.

Lemma bridgePOL_no_exit (argv : list string) (w : W) :
  no_exit (trace_of_run (bridgePOL X env argv w)).
Proof.
  unfold bridgePOL, trace_of_run. unfold_script.
  destruct (Ethers.parseEther (or_default (argv_at argv 3) "1")) as [A|e]; cbn;
    all_answers; no_exit_tac.
Qed.

Lemma withdrawPOL_no_exit (argv : list string) (w : W) :
  no_exit (trace_of_run (withdrawPOL X env argv w)).
Proof.
  unfold withdrawPOL, trace_of_run. unfold_script.
  destruct (getCode X (POL_AMOY env) w) as [[code|e] w1]; cbn; [|no_exit_tac].
  destruct (code =? "0x"); cbn; [no_exit_tac|].
  destruct (balanceOf X (POL_AMOY env) (walletAddress env) w1) as [[bal|e] w2]; cbn;
    [|no_exit_tac].
  destruct (Ethers.parseEther (or_default (argv_at argv 3) "1")) as [A|e]; cbn; [|no_exit_tac].
  destruct (bal <? A)%Z; cbn; [no_exit_tac|].
  destruct (invoke X (burn_call env A) w2) as [[tx|e] w3]; cbn; [|no_exit_tac].
  destruct (wait X tx w3) as [[[]|e] w4]; cbn; [|no_exit_tac].
  destruct (strict_eq (AUTO_COMPLETE env) "true"); cbn; [|no_exit_tac].
  pose proof (waitForCheckpoint_no_exit (hash tx) w4) as Hpoll. unfold trace_of_run in Hpoll.
  destruct (waitForCheckpoint X (hash tx) w4) as [[[proofData|e] w5] t5]; cbn in *;
    [|no_exit_tac].
  pose proof (processExit_no_exit proofData w5) as Hproc. unfold trace_of_run in Hproc.
  destruct (processExit X env proofData w5) as [[[[]|e] w6] t6]; cbn in *; no_exit_tac.
Qed.

Lemma main_no_exit (argv : list string) (w : W) :
  no_exit (trace_of_run (main X env argv w)).
Proof.
  unfold main.
  destruct (strict_eq (argv_at argv 2) "deposit"); [apply bridgePOL_no_exit|].
  destruct (strict_eq (argv_at argv 2) "withdraw"); [apply withdrawPOL_no_exit|].
  destruct (strict_eq (argv_at argv 2) "check"); [apply checkStatus_no_exit|].
  destruct (strict_eq (argv_at argv 2) "exit"); [apply completeExit_no_exit|].
  destruct (strict_eq (argv_at argv 2) "finalize"); [apply finalizeExit_no_exit|].
  cbn. no_exit_tac.
Qed.

End RunFacts.

(** X4. When none of the 360 requests hands back a proof, the [exit]
    command gives up without touching the chain: it completes normally
    after 360 requests, invokes no contract method and writes the
    checkpoint time-out to the error console. *)
Theorem exit_command_gives_up_after_timeout
    {W : Type} (X : External W) (env : Config) (argv : list string) (txHash : string) (w : W)
    (Hargv : argv_at argv 3 = Some txHash)
    (Hhash : txHash <> "")
    (Hnone : no_proof_within X (proofUrl txHash) 360 w = true) :
  let run := completeExit X env argv w in
  result_of_run run = Normal tt
  /\ calls_of (trace_of_run run) = []
  /\ length (fetches_of (trace_of_run run)) = 360
  /\ In (EError [VStr "❌ Exit completion failed:";
                 VStr "Checkpoint timeout - transaction not checkpointed after 180 minutes"])
        (trace_of_run run).
Proof.
  cbv zeta. rewrite (completeExit_run X env argv txHash w Hargv Hhash).
  destruct (waitForCheckpoint_run X txHash w) as (r & w' & t & Hrun & Hc & Hspec).
  rewrite Hrun. unfold result_of_run, trace_of_run.
  destruct r as [data|e].
  - destruct Hspec as (failed & o & _ & _ & _ & _ & Hsome).
    unfold maxAttempts in Hsome. congruence.
  - destruct Hspec as (-> & failed & Hp & _ & Hlen & _). cbn [fst snd].
    repeat apply conj.
    + reflexivity.
    + cbn. rewrite calls_of_app, Hc. reflexivity.
    + cbn. rewrite fetches_of_app, <- fetches_of_polling, Hp, fetches_of_rounds, length_app.
      cbn. unfold maxAttempts in Hlen. lia.
    + right. apply in_or_app. right. now left.
Qed.

Lemma exit_command_gives_up_after_timeout_witness :
  argv_at (cli ["exit"; "0xb0b1"]) 3 = Some "0xb0b1"
  /\ "0xb0b1" <> ""
  /\ no_proof_within scripted (proofUrl "0xb0b1") 360 world_unreachable = true
  /\ calls_of (trace_of_run (completeExit scripted demo_env (cli ["exit"; "0xb0b1"])
                               world_unreachable)) = []
  /\ length (fetches_of (trace_of_run (completeExit scripted demo_env (cli ["exit"; "0xb0b1"])
                                         world_unreachable))) = 360.
Proof.
  assert (Hargv : argv_at (cli ["exit"; "0xb0b1"]) 3 = Some "0xb0b1") by reflexivity.
  assert (Hhash : "0xb0b1" <> "") by discriminate.
  assert (Hnone : no_proof_within scripted (proofUrl "0xb0b1") 360 world_unreachable = true)
    by (vm_compute; reflexivity).
  split; [exact Hargv|]. split; [exact Hhash|]. split; [exact Hnone|].
  destruct (exit_command_gives_up_after_timeout scripted demo_env (cli ["exit"; "0xb0b1"])
              "0xb0b1" world_unreachable Hargv Hhash Hnone) as (_ & Hc & Hf & _).
  split; [exact Hc | exact Hf].
Defined.

(** X5. The [exit] command end to end, with both contract addresses
    configured: when the polling returns a proof and both steps of the exit
    go through, the start-exit call carries the [result] field of the
    returned body, [processExits] follows, the two transaction hashes are
    printed and the command reports success. *)
Theorem exit_command_end_to_end
    {W : Type} (X : External W) (env : Config) (predicate manager : string)
    (argv : list string) (txHash : string)
    (proofData : Json) (data : JsVal) (tx1 tx2 : TxResponse)
    (w0 w w1 w2 : W) (t0 : list Event)
    (Hpredicate : ERC20_PREDICATE env = Some predicate)
    (Hmanager : WITHDRAW_MANAGER env = Some manager)
    (Hargv : argv_at argv 3 = Some txHash)
    (Hhash : txHash <> "")
    (Hpoll : waitForCheckpoint X txHash w0 = (Normal proofData, w, t0))
    (Hdata : get_result proofData = Normal data)
    (Hstart : tx_succeeds X (start_exit_call predicate data) tx1 w w1)
    (Hprocess : tx_succeeds X (process_exits_call env manager) tx2 w1 w2) :
  let run := completeExit X env argv w0 in
  result_of_run run = Normal tt
  /\ world_of_run run = w2
  /\ calls_of (trace_of_run run) = [start_exit_call predicate data; process_exits_call env manager]
  /\ In (ELog [VStr "  ✔ StartExit:"; VStr (sepolia_tx (hash tx1))]) (trace_of_run run)
  /\ In (ELog [VStr "  ✔ ProcessExit:"; VStr (sepolia_tx (hash tx2))]) (trace_of_run run)
  /\ In (ELog [VStr "✅ Exit completed successfully!"]) (trace_of_run run).
Proof.
  cbv zeta. rewrite (completeExit_run X env argv txHash w0 Hargv Hhash), Hpoll.
  destruct (processExit_success_run X env predicate manager proofData data tx1 tx2 w w1 w2
              Hpredicate Hmanager Hdata Hstart Hprocess)
    as (t & Hrun & Hc & Hs & Hp & _).
  rewrite Hrun. unfold result_of_run, world_of_run, trace_of_run. cbn [fst snd].
  destruct (waitForCheckpoint_run X txHash w0) as (r & w' & t' & Hw & Hc0 & _).
  rewrite Hpoll in Hw. injection Hw as _ _ <-.
  repeat apply conj; try reflexivity.
  - cbn. rewrite !calls_of_app, Hc0, Hc. reflexivity.
  - right. apply in_or_app. right. apply in_or_app. left. exact Hs.
  - right. apply in_or_app. right. apply in_or_app. left. exact Hp.
  - right. apply in_or_app. right. apply in_or_app. right. now left.
Qed.

Lemma exit_command_end_to_end_witness :
  waitForCheckpoint scripted "0xb0b1" world_checkpointed
  = (Normal proof_body,
     world_of 0 [Normal (mkTx "0x57a7"); Normal (mkTx "0xf1a1")] [Normal tt; Normal tt] [],
     trace_of_run (waitForCheckpoint scripted "0xb0b1" world_checkpointed))
  /\ calls_of (trace_of_run (completeExit scripted demo_env (cli ["exit"; "0xb0b1"])
                               world_checkpointed))
     = [start_exit_call "0xErc20Predicate" (VJson (JStr "0xf90a54")); process_exits_call demo_env "0xWithdrawManager"]
  /\ In (ELog [VStr "✅ Exit completed successfully!"])
        (trace_of_run (completeExit scripted demo_env (cli ["exit"; "0xb0b1"])
                         world_checkpointed)).
Proof.
  assert (Hargv : argv_at (cli ["exit"; "0xb0b1"]) 3 = Some "0xb0b1") by reflexivity.
  assert (Hhash : "0xb0b1" <> "") by discriminate.
  assert (Hpoll : waitForCheckpoint scripted "0xb0b1" world_checkpointed
                  = (Normal proof_body,
                     world_of 0 [Normal (mkTx "0x57a7"); Normal (mkTx "0xf1a1")]
                       [Normal tt; Normal tt] [],
                     trace_of_run (waitForCheckpoint scripted "0xb0b1" world_checkpointed)))
    by (vm_compute; reflexivity).
  assert (Hdata : get_result proof_body = Normal (VJson (JStr "0xf90a54"))) by reflexivity.
  assert (Hstart : tx_succeeds scripted (start_exit_call "0xErc20Predicate" (VJson (JStr "0xf90a54")))
                     (mkTx "0x57a7")
                     (world_of 0 [Normal (mkTx "0x57a7"); Normal (mkTx "0xf1a1")]
                        [Normal tt; Normal tt] [])
                     (world_of 0 [Normal (mkTx "0xf1a1")] [Normal tt] [])).
  { exists (world_of 0 [Normal (mkTx "0xf1a1")] [Normal tt; Normal tt] []).
    split; reflexivity. }
  assert (Hprocess : tx_succeeds scripted (process_exits_call demo_env "0xWithdrawManager") (mkTx "0xf1a1")
                       (world_of 0 [Normal (mkTx "0xf1a1")] [Normal tt] [])
                       (world_of 0 [] [] [])).
  { exists (world_of 0 [] [Normal tt] []). split; reflexivity. }
  split; [exact Hpoll|].
  destruct (exit_command_end_to_end scripted demo_env "0xErc20Predicate" "0xWithdrawManager"
              (cli ["exit"; "0xb0b1"]) "0xb0b1"
              proof_body _ _ _ world_checkpointed _ _ _ _
              eq_refl eq_refl Hargv Hhash Hpoll Hdata Hstart Hprocess)
    as (_ & _ & Hc & _ & _ & Hin).
  split; [exact Hc | exact Hin].
Defined.

(** X6. What the polling returns can always be handed to the exit: the
    returned body is never [null], so reading its [result] field does not
    throw.  With ERC20_PREDICATE set, [processExit] called with it always
    reaches the start-exit call, on that contract and with that field as the
    argument; with ERC20_PREDICATE not set, the contract object cannot be
    built, nothing is sent and the error of the constructor is thrown. *)
Theorem polled_proof_reaches_start_exit
    {W : Type} (X : External W) (env : Config) (txHash : string) (w : W) :
  match result_of_run (waitForCheckpoint X txHash w) with
  | Normal proofData =>
      exists data,
        get_result proofData = Normal data
        /\ forall w',
            let run := processExit X env proofData w' in
            match ERC20_PREDICATE env with
            | Some predicate =>
                exists rest,
                  calls_of (trace_of_run run) = start_exit_call predicate data :: rest
            | None =>
                result_of_run run = Throw Ethers.invalid_target
                /\ world_of_run run = w'
                /\ calls_of (trace_of_run run) = []
            end
  | Throw _ => True
  end.
Proof.
  destruct (waitForCheckpoint X txHash w) as [[[proofData|e] w1] t] eqn:Hrun;
    unfold result_of_run; cbn [fst]; [|exact I].
  destruct (waitForCheckpoint_readable X txHash proofData w w1 t Hrun) as (data & Hdata).
  exists data. split; [exact Hdata|]. intros w'. cbv zeta.
  pose proof (processExit_calls_shape X env proofData data w' Hdata) as Hshape.
  cbv zeta in Hshape.
  destruct (ERC20_PREDICATE env) as [predicate|] eqn:Hpred.
  - destruct (WITHDRAW_MANAGER env) as [manager|];
      [destruct Hshape as [-> | [-> | ->]] | rewrite Hshape]; eexists; reflexivity.
  - rewrite (processExit_no_predicate_run X env proofData data w' Hpred Hdata).
    repeat split.
Qed.

(** X7. The contract calls of [processExit], whatever the chain answers, by
    what the configuration gives for the two contract addresses.  With both
    set: the start-exit call exactly once and first, followed by at most two
    [processExits] calls.  With ERC20_PREDICATE set and WITHDRAW_MANAGER
    not: the start-exit call alone.  With ERC20_PREDICATE not set: none.
    With [null] for the proof nothing is sent and the error of reading its
    [result] field is thrown. *)
Theorem exit_calls_are_bounded
    {W : Type} (X : External W) (env : Config) (proofData : Json) (w : W) :
  let run := processExit X env proofData w in
  match get_result proofData with
  | Normal data =>
      match ERC20_PREDICATE env, WITHDRAW_MANAGER env with
      | None, _ => calls_of (trace_of_run run) = []
      | Some predicate, None =>
          calls_of (trace_of_run run) = [start_exit_call predicate data]
      | Some predicate, Some manager =>
          calls_of (trace_of_run run) = [start_exit_call predicate data]
          \/ calls_of (trace_of_run run)
             = [start_exit_call predicate data; process_exits_call env manager]
          \/ calls_of (trace_of_run run)
             = [start_exit_call predicate data; process_exits_call env manager;
                process_exits_call env manager]
      end
  | Throw e =>
      result_of_run run = Throw e
      /\ world_of_run run = w
      /\ calls_of (trace_of_run run) = []
  end.
Proof.
  cbv zeta. destruct (get_result proofData) as [data|e] eqn:Hdata.
  - exact (processExit_calls_shape X env proofData data w Hdata).
  - destruct proofData; try discriminate Hdata.
    + cbn in Hdata. injection Hdata as <-.
      destruct (processExit_null_run X env w) as (t & -> & Hc).
      repeat split. exact Hc.
    + cbn in Hdata. destruct (lookup_field "result" fields); discriminate.
Qed.

(** X8. With both contract addresses configured: when [processExits]
    fails with a message that contains KNOWN_EXIT and fails again when sent
    the second time, [processExit] throws the first error, not the second,
    after pointing to the [finalize] command and printing the proof. *)
Theorem second_failure_throws_first_error
    {W : Type} (X : External W) (env : Config) (predicate manager : string)
    (proofData : Json) (data : JsVal) (e e2 : JsError) (w w1 w2 w3 : W)
    (Hpredicate : ERC20_PREDICATE env = Some predicate)
    (Hmanager : WITHDRAW_MANAGER env = Some manager)
    (Hdata : get_result proofData = Normal data)
    (Hstart : start_exit_done X predicate data w w1)
    (Hfirst : tx_fails X (process_exits_call env manager) e w1 w2)
    (Hdup : includes (message e) "KNOWN_EXIT" = true)
    (Hsecond : tx_fails X (process_exits_call env manager) e2 w2 w3) :
  let run := processExit X env proofData w in
  result_of_run run = Throw e
  /\ world_of_run run = w3
  /\ calls_of (trace_of_run run)
     = [start_exit_call predicate data; process_exits_call env manager; process_exits_call env manager]
  /\ In (ELog [VStr "   npm run finalize"]) (trace_of_run run)
  /\ In (ELog [VStr "   Proof data:"; data]) (trace_of_run run).
Proof.
  cbv zeta.
  destruct (processExit_double_failure_run X env predicate manager proofData data e e2
              w w1 w2 w3 Hpredicate Hmanager Hdata Hstart Hfirst Hdup Hsecond)
    as (t & -> & Hc & _ & Hf & Hp).
  unfold result_of_run, world_of_run, trace_of_run. cbn [fst snd].
  repeat split; assumption.
Qed.

Lemma second_failure_throws_first_error_witness :
  start_exit_done scripted "0xErc20Predicate" (VJson (JStr "0xf90a54")) world_process_exits_fails_twice
    (world_of 0 [Throw (mkError "execution reverted: KNOWN_EXIT"); Throw (mkError "nonce too low")]
       [] [])
  /\ result_of_run (processExit scripted demo_env proof_body world_process_exits_fails_twice)
     = Throw (mkError "execution reverted: KNOWN_EXIT").
Proof.
  assert (Hdata : get_result proof_body = Normal (VJson (JStr "0xf90a54"))) by reflexivity.
  assert (Hstart : start_exit_done scripted "0xErc20Predicate" (VJson (JStr "0xf90a54"))
                     world_process_exits_fails_twice
                     (world_of 0 [Throw (mkError "execution reverted: KNOWN_EXIT");
                                  Throw (mkError "nonce too low")] [] [])).
  { left. exists (mkTx "0x57a7").
    exists (world_of 0 [Throw (mkError "execution reverted: KNOWN_EXIT");
                        Throw (mkError "nonce too low")] [Normal tt] []).
    split; reflexivity. }
  assert (Hfirst : tx_fails scripted (process_exits_call demo_env "0xWithdrawManager")
                     (mkError "execution reverted: KNOWN_EXIT")
                     (world_of 0 [Throw (mkError "execution reverted: KNOWN_EXIT");
                                  Throw (mkError "nonce too low")] [] [])
                     (world_of 0 [Throw (mkError "nonce too low")] [] []))
    by (left; reflexivity).
  assert (Hsecond : tx_fails scripted (process_exits_call demo_env "0xWithdrawManager") (mkError "nonce too low")
                      (world_of 0 [Throw (mkError "nonce too low")] [] [])
                      (world_of 0 [] [] []))
    by (left; reflexivity).
  split; [exact Hstart|].
  exact (proj1 (second_failure_throws_first_error scripted demo_env
                  "0xErc20Predicate" "0xWithdrawManager" proof_body _ _ _ _ _ _ _
                  eq_refl eq_refl Hdata Hstart Hfirst eq_refl Hsecond)).
Defined.

(** X9. Every failure of [processExit] leaves the proof on the console:
    whenever it throws, for a proof whose [result] field reads as [data],
    the line with [data] has been printed. *)
Theorem exit_failure_shows_proof
    {W : Type} (X : External W) (env : Config) (proofData : Json) (data : JsVal) (w : W)
    (Hdata : get_result proofData = Normal data) :
  match result_of_run (processExit X env proofData w) with
  | Normal _ => True
  | Throw _ =>
      In (ELog [VStr "   Proof data:"; data]) (trace_of_run (processExit X env proofData w))
  end.
Proof. exact (processExit_failure_shows_proof X env proofData data w Hdata). Qed.

Lemma exit_failure_shows_proof_witness :
  get_result proof_body = Normal (VJson (JStr "0xf90a54"))
  /\ In (ELog [VStr "   Proof data:"; VJson (JStr "0xf90a54")])
        (trace_of_run (processExit scripted demo_env proof_body world_exit_rejected)).
Proof.
  assert (Hdata : get_result proof_body = Normal (VJson (JStr "0xf90a54"))) by reflexivity.
  split; [exact Hdata|].
  exact (exit_failure_shows_proof scripted demo_env proof_body _ world_exit_rejected Hdata).
Defined.

(** X10. A deposit never sends the deposit call without a confirmed
    approval.  When the amount does not parse, nothing at all happens and
    the error is thrown; otherwise the contract calls of the run are the
    approval alone, when the approval step fails, or the approval followed
    by [depositERC20ForUser] for the same amount, when the approval was
    sent and confirmed. *)
Theorem deposit_follows_confirmed_approval
    {W : Type} (X : External W) (env : Config) (argv : list string) (w : W) :
  match Ethers.parseEther (or_default (argv_at argv 3) "1") with
  | Throw e => bridgePOL X env argv w = (Throw e, w, [])
  | Normal A =>
      (calls_of (trace_of_run (bridgePOL X env argv w)) = [approve_call env A]
       /\ exists e w1, tx_fails X (approve_call env A) e w w1)
      \/ (calls_of (trace_of_run (bridgePOL X env argv w))
          = [approve_call env A; deposit_call env A]
          /\ exists tx w1, tx_succeeds X (approve_call env A) tx w w1)
  end.
Proof. apply bridgePOL_calls_shape. Qed.

(** X11. A deposit whose two steps go through completes normally: the
    approval names the deposit manager as spender, the deposit names the
    Sepolia token and the wallet's own address as recipient, both carry the
    parsed amount, and both transaction hashes are printed. *)
Theorem deposit_end_to_end
    {W : Type} (X : External W) (env : Config) (argv : list string)
    (A : Z) (tx1 tx2 : TxResponse) (w w1 w2 : W)
    (Hparse : Ethers.parseEther (or_default (argv_at argv 3) "1") = Normal A)
    (Happrove : tx_succeeds X (approve_call env A) tx1 w w1)
    (Hdeposit : tx_succeeds X (deposit_call env A) tx2 w1 w2) :
  let run := bridgePOL X env argv w in
  result_of_run run = Normal tt
  /\ world_of_run run = w2
  /\ calls_of (trace_of_run run)
     = [mkCall Sepolia (POL_SEPOLIA env)
          "function approve(address spender, uint256 amount) external returns (bool)"
          [VStr (DEPOSIT_MANAGER env); VBig A] None;
        mkCall Sepolia (DEPOSIT_MANAGER env) "depositERC20ForUser"
          [VStr (POL_SEPOLIA env); VStr (walletAddress env); VBig A] None]
  /\ In (ELog [VStr "  ✔ Approval:"; VStr (sepolia_tx (hash tx1))]) (trace_of_run run)
  /\ In (ELog [VStr "  ✔ Deposit:"; VStr (sepolia_tx (hash tx2))]) (trace_of_run run).
Proof.
  cbv zeta.
  destruct (bridgePOL_success_run X env argv A tx1 tx2 w w1 w2 Hparse Happrove Hdeposit)
    as (t & -> & Hc & Ha & Hd & _).
  unfold result_of_run, world_of_run, trace_of_run. cbn [fst snd].
  repeat split; assumption.
Qed.

Lemma deposit_end_to_end_witness :
  Ethers.parseEther (or_default (argv_at (cli ["deposit"; "0.5"]) 3) "1")
  = Normal 500000000000000000%Z
  /\ tx_succeeds scripted (approve_call demo_env 500000000000000000) (mkTx "0xa991")
       world_deposit (world_of 0 [Normal (mkTx "0xde90")] [Normal tt] [])
  /\ tx_succeeds scripted (deposit_call demo_env 500000000000000000) (mkTx "0xde90")
       (world_of 0 [Normal (mkTx "0xde90")] [Normal tt] []) (world_of 0 [] [] [])
  /\ result_of_run (bridgePOL scripted demo_env (cli ["deposit"; "0.5"]) world_deposit)
     = Normal tt
  /\ In (ELog [VStr "  ✔ Deposit:"; VStr "https://sepolia.etherscan.io/tx/0xde90"])
        (trace_of_run (bridgePOL scripted demo_env (cli ["deposit"; "0.5"]) world_deposit)).
Proof.
  assert (Hparse : Ethers.parseEther (or_default (argv_at (cli ["deposit"; "0.5"]) 3) "1")
                   = Normal 500000000000000000%Z) by reflexivity.
  assert (Happrove : tx_succeeds scripted (approve_call demo_env 500000000000000000)
                       (mkTx "0xa991") world_deposit
                       (world_of 0 [Normal (mkTx "0xde90")] [Normal tt] [])).
  { exists (world_of 0 [Normal (mkTx "0xde90")] [Normal tt; Normal tt] []).
    split; reflexivity. }
  assert (Hdeposit : tx_succeeds scripted (deposit_call demo_env 500000000000000000)
                       (mkTx "0xde90") (world_of 0 [Normal (mkTx "0xde90")] [Normal tt] [])
                       (world_of 0 [] [] [])).
  { exists (world_of 0 [] [Normal tt] []). split; reflexivity. }
  split; [exact Hparse|]. split; [exact Happrove|]. split; [exact Hdeposit|].
  destruct (deposit_end_to_end scripted demo_env (cli ["deposit"; "0.5"]) _ _ _ _ _ _
              Hparse Happrove Hdeposit) as (Hr & _ & _ & _ & Hd).
  split; [exact Hr | exact Hd].
Defined.

(** X12. An amount that [parseEther] rejects stops a withdrawal before any
    transaction: the error is thrown after the code query and the balance
    query, and no contract method is invoked. *)
Theorem withdrawal_rejects_unparsable_amount
    {W : Type} (X : External W) (env : Config) (argv : list string)
    (code : string) (bal : Z) (e : JsError) (w w1 w2 : W)
    (Hcode : getCode X (POL_AMOY env) w = (Normal code, w1))
    (Hcontract : code <> "0x")
    (Hbal : balanceOf X (POL_AMOY env) (walletAddress env) w1 = (Normal bal, w2))
    (Hparse : Ethers.parseEther (or_default (argv_at argv 3) "1") = Throw e) :
  let run := withdrawPOL X env argv w in
  result_of_run run = Throw e
  /\ world_of_run run = w2
  /\ calls_of (trace_of_run run) = [].
Proof.
  cbv zeta.
  destruct (withdrawPOL_parse_fails_run X env argv code bal e w w1 w2
              Hcode Hcontract Hbal Hparse) as (t & -> & Hc).
  repeat split. exact Hc.
Qed.

Lemma withdrawal_rejects_unparsable_amount_witness :
  Ethers.parseEther (or_default (argv_at (cli ["withdraw"; "ten"]) 3) "1")
  = Throw (mkError "invalid FixedNumber string value")
  /\ calls_of (trace_of_run (withdrawPOL scripted demo_env (cli ["withdraw"; "ten"])
                               world_funded)) = [].
Proof.
  assert (Hparse : Ethers.parseEther (or_default (argv_at (cli ["withdraw"; "ten"]) 3) "1")
                   = Throw (mkError "invalid FixedNumber string value")) by reflexivity.
  split; [exact Hparse|].
  assert (Hcode : getCode scripted (POL_AMOY demo_env) world_funded
                  = (Normal "0x608060405234801561001057600080fd", world_funded))
    by reflexivity.
  assert (Hcontract : "0x608060405234801561001057600080fd" <> "0x") by discriminate.
  assert (Hbal : balanceOf scripted (POL_AMOY demo_env) (walletAddress demo_env) world_funded
                 = (Normal 5000000000000000000%Z, world_funded)) by reflexivity.
  exact (proj2 (proj2 (withdrawal_rejects_unparsable_amount scripted demo_env
                         (cli ["withdraw"; "ten"]) _ _ _ _ _ _
                         Hcode Hcontract Hbal Hparse))).
Defined.

(** X13. A failure of either read-only query stops a withdrawal before any
    transaction: the error of the code query is thrown at once, the error
    of the balance query is thrown after the code check, and in both cases
    no contract method is invoked. *)
Theorem withdrawal_stops_on_query_failure
    {W : Type} (X : External W) (env : Config) (argv : list string) (e : JsError) (w w1 : W)
    (Hquery :
       getCode X (POL_AMOY env) w = (Throw e, w1)
       \/ exists code w0,
           getCode X (POL_AMOY env) w = (Normal code, w0)
           /\ code <> "0x"
           /\ balanceOf X (POL_AMOY env) (walletAddress env) w0 = (Throw e, w1)) :
  let run := withdrawPOL X env argv w in
  result_of_run run = Throw e
  /\ world_of_run run = w1
  /\ calls_of (trace_of_run run) = [].
Proof.
  cbv zeta. destruct Hquery as [Hcode | (code & w0 & Hcode & Hne & Hbal)].
  - rewrite (withdrawPOL_getCode_fails_run X env argv e w w1 Hcode). repeat split.
  - destruct (withdrawPOL_balance_fails_run X env argv code e w w0 w1 Hcode Hne Hbal)
      as (t & -> & Hc).
    repeat split. exact Hc.
Qed.

(** X14. A withdrawal never burns twice.  Whatever the outside world
    answers, the contract calls of [withdrawPOL] are none at all, or one
    burn of the parsed amount followed by at most three calls, all of them
    signed for Sepolia. *)
Theorem withdrawal_burns_at_most_once
    {W : Type} (X : External W) (env : Config) (argv : list string) (w : W) :
  let calls := calls_of (trace_of_run (withdrawPOL X env argv w)) in
  calls = []
  \/ exists A rest,
      Ethers.parseEther (or_default (argv_at argv 3) "1") = Normal A
      /\ calls = burn_call env A :: rest
      /\ length rest <= 3
      /\ Forall (fun c => signer c = Sepolia) rest.
Proof. apply withdrawPOL_calls_shape. Qed.

Lemma withdrawal_stops_on_query_failure_witness :
  getCode offline (POL_AMOY demo_env) tt = (Throw network_down, tt)
  /\ result_of_run (withdrawPOL offline demo_env (cli ["withdraw"; "2"]) tt)
     = Throw network_down
  /\ calls_of (trace_of_run (withdrawPOL offline demo_env (cli ["withdraw"; "2"]) tt)) = [].
Proof.
  assert (Hcode : getCode offline (POL_AMOY demo_env) tt = (Throw network_down, tt))
    by reflexivity.
  split; [exact Hcode|].
  destruct (withdrawal_stops_on_query_failure offline demo_env (cli ["withdraw"; "2"])
              network_down tt tt (or_introl Hcode)) as (Hr & _ & Hc).
  split; [exact Hr | exact Hc].
Defined.

Section ModeFacts.

Context {W : Type}.
Variable X : External W.
Variable env : Config.

Lemma main_withdraw (argv : list string) :
  argv_at argv 2 = Some "withdraw" -> main X env argv = withdrawPOL X env argv.
Proof. intros H. unfold main. rewrite H. reflexivity. Qed.

Lemma run_result (argv : list string) (w : W) :
  result_of_run (run X env argv w) = Normal tt
  /\ exits_of (trace_of_run (run X env argv w))
     = match result_of_run (main X env argv w) with
       | Normal _ => []
       | Throw _ => [1%Z]
       end
  /\ match result_of_run (main X env argv w) with
     | Normal _ => True
     | Throw e => In (EError [VStr "❌ Error:"; VErr e]) (trace_of_run (run X env argv w))
     end.
Proof.
  pose proof (no_exit_exits _ (main_no_exit X env argv w)) as Hmain.
  unfold run, try_catch, bind, console_error, emit, result_of_run, trace_of_run in *.
  destruct (main X env argv w) as [[[[]|e] w1] t]; cbn [fst snd] in *.
  - repeat split. exact Hmain.
  - repeat split.
    + rewrite exits_of_app, Hmain. reflexivity.
    + apply in_or_app. right. now left.
Qed.

Lemma quiet_commands (argv : list string) (w : W) :
  argv_at argv 2 <> Some "deposit" ->
  argv_at argv 2 <> Some "withdraw" ->
  result_of_run (main X env argv w) = Normal tt.
Proof.
  intros Hd Hw. unfold main.
  rewrite (strict_eq_false _ _ Hd), (strict_eq_false _ _ Hw).
  destruct (strict_eq (argv_at argv 2) "check"); [apply checkStatus_bounds|].
  destruct (strict_eq (argv_at argv 2) "exit"); [apply completeExit_no_exit|].
  destruct (strict_eq (argv_at argv 2) "finalize"); [apply finalizeExit_no_exit|].
  reflexivity.
Qed.

End ModeFacts.

(** X15. A withdrawal with automatic continuation, end to end, with both
    contract addresses configured: when the burn is confirmed, the polling for the hash of the burn returns a proof
    and both steps of the exit go through, the run completes normally with
    exactly three contract calls, in this order: the burn on Amoy, the
    start-exit call with the [result] field of the proof, and
    [processExits]. *)
Theorem automatic_withdrawal_end_to_end
    {W : Type} (X : External W) (env : Config) (predicate manager : string)
    (argv : list string)
    (bal A : Z) (tx tx1 tx2 : TxResponse) (proofData : Json) (data : JsVal)
    (w w2 w3 w4 w5 w6 : W) (t4 : list Event)
    (Hpredicate : ERC20_PREDICATE env = Some predicate)
    (Hmanager : WITHDRAW_MANAGER env = Some manager)
    (Hreq : withdrawal_request X env argv bal A w w2)
    (Hle : (A <= bal)%Z)
    (Hburn : tx_succeeds X (burn_call env A) tx w2 w3)
    (Hauto : AUTO_COMPLETE env = Some "true")
    (Hpoll : waitForCheckpoint X (hash tx) w3 = (Normal proofData, w4, t4))
    (Hdata : get_result proofData = Normal data)
    (Hstart : tx_succeeds X (start_exit_call predicate data) tx1 w4 w5)
    (Hprocess : tx_succeeds X (process_exits_call env manager) tx2 w5 w6) :
  let run := withdrawPOL X env argv w in
  result_of_run run = Normal tt
  /\ world_of_run run = w6
  /\ calls_of (trace_of_run run)
     = [burn_call env A; start_exit_call predicate data; process_exits_call env manager]
  /\ In (ELog [VStr "✅ Automatic withdrawal completed!"]) (trace_of_run run).
Proof.
  cbv zeta.
  destruct (withdrawPOL_auto_run X env argv bal A tx w w2 w3 Hreq Hle Hburn Hauto)
    as (pre & -> & Hpre & _).
  rewrite Hpoll.
  destruct (processExit_success_run X env predicate manager proofData data tx1 tx2 w4 w5 w6
              Hpredicate Hmanager Hdata Hstart Hprocess) as (t & -> & Hc & _).
  destruct (waitForCheckpoint_run X (hash tx) w3) as (r & w' & t' & Hw & Hc4 & _).
  rewrite Hpoll in Hw. injection Hw as _ _ <-.
  unfold result_of_run, world_of_run, trace_of_run. cbn [fst snd].
  repeat apply conj; try reflexivity.
  - rewrite calls_of_app, Hpre, calls_of_app, Hc4.
    change (ELog [VStr "3) Processing exit on Sepolia..."]
            :: t ++ [ELog [VStr "✅ Automatic withdrawal completed!"]])%list
      with ([ELog [VStr "3) Processing exit on Sepolia..."]]
            ++ t ++ [ELog [VStr "✅ Automatic withdrawal completed!"]])%list.
    rewrite !calls_of_app, Hc. reflexivity.
  - apply in_or_app. right. apply in_or_app. right. right. apply in_or_app. right. now left.
Qed.

Lemma automatic_withdrawal_end_to_end_witness :
  withdrawal_request scripted demo_env_auto (cli ["withdraw"; "5"])
    5000000000000000000 5000000000000000000 world_automatic world_automatic
  /\ AUTO_COMPLETE demo_env_auto = Some "true"
  /\ calls_of (trace_of_run (withdrawPOL scripted demo_env_auto (cli ["withdraw"; "5"])
                               world_automatic))
     = [burn_call demo_env_auto 5000000000000000000;
        start_exit_call "0xErc20Predicate" (VJson (JStr "0xf90a54"));
        process_exits_call demo_env_auto "0xWithdrawManager"].
Proof.
  assert (Hreq : withdrawal_request scripted demo_env_auto (cli ["withdraw"; "5"])
                   5000000000000000000 5000000000000000000 world_automatic world_automatic).
  { exists "0x608060405234801561001057600080fd", world_automatic.
    repeat split; try reflexivity. discriminate. }
  assert (Hle : (5000000000000000000 <= 5000000000000000000)%Z) by lia.
  assert (Hauto : AUTO_COMPLETE demo_env_auto = Some "true") by reflexivity.
  pose (fs := [Normal (mkResponse 400 (Normal (JObj [("error", JBool true)])));
               Normal (mkResponse 404 (Throw (mkError "Unexpected token < in JSON")));
               Normal (mkResponse 200 (Normal proof_body))]).
  pose (wa := world_of 5000000000000000000
                [Normal (mkTx "0x57a7"); Normal (mkTx "0xf1a1")] [Normal tt; Normal tt] fs).
  pose (wb := world_of 5000000000000000000
                [Normal (mkTx "0x57a7"); Normal (mkTx "0xf1a1")] [Normal tt; Normal tt] []).
  pose (wc := world_of 5000000000000000000 [Normal (mkTx "0xf1a1")] [Normal tt] []).
  pose (wd := world_of 5000000000000000000 [] [] []).
  assert (Hburn : tx_succeeds scripted (burn_call demo_env_auto 5000000000000000000)
                    (mkTx "0xb0b1") world_automatic wa).
  { exists (world_of 5000000000000000000
              [Normal (mkTx "0x57a7"); Normal (mkTx "0xf1a1")]
              [Normal tt; Normal tt; Normal tt] fs).
    split; reflexivity. }
  assert (Hpoll : waitForCheckpoint scripted (hash (mkTx "0xb0b1")) wa
                  = (Normal proof_body, wb,
                     trace_of_run (waitForCheckpoint scripted (hash (mkTx "0xb0b1")) wa)))
    by (vm_compute; reflexivity).
  assert (Hdata : get_result proof_body = Normal (VJson (JStr "0xf90a54"))) by reflexivity.
  assert (Hstart : tx_succeeds scripted (start_exit_call "0xErc20Predicate" (VJson (JStr "0xf90a54")))
                     (mkTx "0x57a7") wb wc).
  { exists (world_of 5000000000000000000 [Normal (mkTx "0xf1a1")] [Normal tt; Normal tt] []).
    split; reflexivity. }
  assert (Hprocess : tx_succeeds scripted (process_exits_call demo_env_auto "0xWithdrawManager") (mkTx "0xf1a1")
                       wc wd).
  { exists (world_of 5000000000000000000 [] [Normal tt] []). split; reflexivity. }
  split; [exact Hreq|]. split; [exact Hauto|].
  destruct (automatic_withdrawal_end_to_end scripted demo_env_auto
              "0xErc20Predicate" "0xWithdrawManager" (cli ["withdraw"; "5"])
              _ _ _ _ _ _ _ _ _ _ _ _ _ _
              eq_refl eq_refl Hreq Hle Hburn Hauto Hpoll Hdata Hstart Hprocess)
    as (_ & _ & Hc & _).
  exact Hc.
Defined.

(** X16. With automatic continuation, a checkpoint time-out after a
    confirmed burn is not caught by [withdrawPOL]: the time-out error is
    thrown, the burn being the only contract call of the run, and the
    top-level handler of the [withdraw] command prints the error and ends
    the process with status 1. *)
Theorem automatic_withdrawal_timeout_ends_process
    {W : Type} (X : External W) (env : Config) (argv : list string)
    (bal A : Z) (tx : TxResponse) (w w2 w3 : W)
    (Hmode : argv_at argv 2 = Some "withdraw")
    (Hreq : withdrawal_request X env argv bal A w w2)
    (Hle : (A <= bal)%Z)
    (Hburn : tx_succeeds X (burn_call env A) tx w2 w3)
    (Hauto : AUTO_COMPLETE env = Some "true")
    (Hnone : no_proof_within X (proofUrl (hash tx)) 360 w3 = true) :
  result_of_run (withdrawPOL X env argv w) = Throw checkpoint_timeout
  /\ calls_of (trace_of_run (withdrawPOL X env argv w)) = [burn_call env A]
  /\ In (ELog [VStr "   🔗 Burn tx:"; VStr (amoy_tx (hash tx))])
        (trace_of_run (withdrawPOL X env argv w))
  /\ exits_of (trace_of_run (run X env argv w)) = [1%Z]
  /\ In (EError [VStr "❌ Error:"; VErr checkpoint_timeout]) (trace_of_run (run X env argv w)).
Proof.
  assert (Hrun : result_of_run (withdrawPOL X env argv w) = Throw checkpoint_timeout
                 /\ calls_of (trace_of_run (withdrawPOL X env argv w)) = [burn_call env A]
                 /\ In (ELog [VStr "   🔗 Burn tx:"; VStr (amoy_tx (hash tx))])
                       (trace_of_run (withdrawPOL X env argv w))).
  { destruct (withdrawPOL_auto_run X env argv bal A tx w w2 w3 Hreq Hle Hburn Hauto)
      as (pre & -> & Hpre & _ & _ & _ & Hlog & _).
    destruct (waitForCheckpoint_run X (hash tx) w3) as (r & w' & t & -> & Hc & Hspec).
    destruct r as [data|e].
    - destruct Hspec as (failed & o & _ & _ & _ & _ & Hsome).
      unfold maxAttempts in Hsome. congruence.
    - destruct Hspec as (-> & _).
      unfold result_of_run, trace_of_run. cbn [fst snd].
      repeat split.
      + rewrite calls_of_app, Hpre, Hc. reflexivity.
      + apply in_or_app. left. exact Hlog. }
  destruct Hrun as (Hr & Hc & Hlog).
  split; [exact Hr|]. split; [exact Hc|]. split; [exact Hlog|].
  destruct (run_result X env argv w) as (_ & Hexit & Herr).
  rewrite (main_withdraw X env argv Hmode), Hr in Hexit, Herr.
  split; [exact Hexit | exact Herr].
Qed.

Lemma automatic_withdrawal_timeout_ends_process_witness :
  withdrawal_request scripted demo_env_auto (cli ["withdraw"; "5"])
    5000000000000000000 5000000000000000000 world_funded world_funded
  /\ no_proof_within scripted (proofUrl "0xb0b1") 360 (world_of 5000000000000000000 [] [] [])
     = true
  /\ exits_of (trace_of_run (run scripted demo_env_auto (cli ["withdraw"; "5"]) world_funded))
     = [1%Z].
Proof.
  assert (Hmode : argv_at (cli ["withdraw"; "5"]) 2 = Some "withdraw") by reflexivity.
  assert (Hreq : withdrawal_request scripted demo_env_auto (cli ["withdraw"; "5"])
                   5000000000000000000 5000000000000000000 world_funded world_funded).
  { exists "0x608060405234801561001057600080fd", world_funded.
    repeat split; try reflexivity. discriminate. }
  assert (Hle : (5000000000000000000 <= 5000000000000000000)%Z) by lia.
  assert (Hburn : tx_succeeds scripted (burn_call demo_env_auto 5000000000000000000)
                    (mkTx "0xb0b1") world_funded (world_of 5000000000000000000 [] [] [])).
  { exists (world_of 5000000000000000000 [] [Normal tt] []). split; reflexivity. }
  assert (Hauto : AUTO_COMPLETE demo_env_auto = Some "true") by reflexivity.
  assert (Hnone : no_proof_within scripted (proofUrl (hash (mkTx "0xb0b1"))) 360
                    (world_of 5000000000000000000 [] [] []) = true)
    by (vm_compute; reflexivity).
  split; [exact Hreq|]. split; [exact Hnone|].
  destruct (automatic_withdrawal_timeout_ends_process scripted demo_env_auto
              (cli ["withdraw"; "5"]) _ _ _ _ _ _
              Hmode Hreq Hle Hburn Hauto Hnone) as (_ & _ & _ & Hexit & _).
  exact Hexit.
Defined.

(** X17. Once the burn is confirmed its hash is on the console, whatever
    the mode and whatever happens afterwards: the line with the address of
    the burn transaction and the line with the address of its proof are
    printed before any polling starts. *)
Theorem burn_hash_is_always_shown
    {W : Type} (X : External W) (env : Config) (argv : list string)
    (bal A : Z) (tx : TxResponse) (w w2 w3 : W)
    (Hreq : withdrawal_request X env argv bal A w w2)
    (Hle : (A <= bal)%Z)
    (Hburn : tx_succeeds X (burn_call env A) tx w2 w3) :
  In (ELog [VStr "   🔗 Burn tx:"; VStr (amoy_tx (hash tx))])
     (trace_of_run (withdrawPOL X env argv w))
  /\ In (ELog [VStr "1. Generate proof from:"; VStr (proofUrl (hash tx))])
        (trace_of_run (withdrawPOL X env argv w)).
Proof.
  destruct (strict_eq (AUTO_COMPLETE env) "true") eqn:Hauto.
  - apply strict_eq_true in Hauto.
    destruct (withdrawPOL_auto_run X env argv bal A tx w w2 w3 Hreq Hle Hburn Hauto)
      as (pre & -> & _ & _ & _ & _ & Hlog & Hurl).
    unfold trace_of_run.
    destruct (waitForCheckpoint X (hash tx) w3) as [[[proofData|e] w4] t4].
    + destruct (processExit X env proofData w4) as [[[[]|e] w5] t5]; cbn [snd];
        split; apply in_or_app; left; assumption.
    + cbn [snd]. split; apply in_or_app; left; assumption.
  - assert (Hmanual : AUTO_COMPLETE env <> Some "true").
    { intros H. rewrite H in Hauto. discriminate. }
    destruct (withdrawPOL_manual_run X env argv bal A tx w w2 w3 Hreq Hle Hburn Hmanual)
      as (t & -> & _ & _ & _ & _ & Hlog & Hurl).
    split; assumption.
Qed.

Lemma burn_hash_is_always_shown_witness :
  withdrawal_request scripted demo_env_auto (cli ["withdraw"; "5"])
    5000000000000000000 5000000000000000000 world_funded world_funded
  /\ In (ELog [VStr "   🔗 Burn tx:"; VStr "https://amoy.polygonscan.com/tx/0xb0b1"])
        (trace_of_run (withdrawPOL scripted demo_env_auto (cli ["withdraw"; "5"]) world_funded)).
Proof.
  assert (Hreq : withdrawal_request scripted demo_env_auto (cli ["withdraw"; "5"])
                   5000000000000000000 5000000000000000000 world_funded world_funded).
  { exists "0x608060405234801561001057600080fd", world_funded.
    repeat split; try reflexivity. discriminate. }
  assert (Hle : (5000000000000000000 <= 5000000000000000000)%Z) by lia.
  assert (Hburn : tx_succeeds scripted (burn_call demo_env_auto 5000000000000000000)
                    (mkTx "0xb0b1") world_funded (world_of 5000000000000000000 [] [] [])).
  { exists (world_of 5000000000000000000 [] [Normal tt] []). split; reflexivity. }
  split; [exact Hreq|].
  exact (proj1 (burn_hash_is_always_shown scripted demo_env_auto (cli ["withdraw"; "5"])
                  _ _ _ _ _ _ Hreq Hle Hburn)).
Defined.

(** X18. The time [waitForCheckpoint] spends asleep: 30 seconds for each
    request but the last when it returns a proof, and exactly 10 800 000
    milliseconds, the 180 minutes of its error message, when it times out
    (the loop sleeps after the last failed request as well). *)
Theorem polling_sleep_time
    {W : Type} (X : External W) (txHash : string) (w : W) :
  let run := waitForCheckpoint X txHash w in
  match result_of_run run with
  | Normal _ =>
      (total_sleep (trace_of_run run)
       = 30000 * (Z.of_nat (length (fetches_of (trace_of_run run))) - 1))%Z
  | Throw _ => total_sleep (trace_of_run run) = (180 * 60 * 1000)%Z
  end.
Proof. apply waitForCheckpoint_sleep. Qed.

(** X19. From the call of [main] on, in a process that got past the
    start-up of the module: the process is ended with a status only by the
    handler attached to [main()].  Whatever the command and the outside
    world, no function called by [main] ends the process, and the handler
    emits status 1, once, exactly when [main] throws, after printing the
    error.  (The start-up itself, which ends the process when PRIVATE_KEY or
    POL_AMOY is missing, runs before [main] and is not part of this
    property.) *)
Theorem exit_status_reflects_failure
    {W : Type} (X : External W) (env : Config) (argv : list string) (w : W)
    (Hstarted : past_startup env = true) :
  result_of_run (run X env argv w) = Normal tt
  /\ no_exit (trace_of_run (main X env argv w))
  /\ exits_of (trace_of_run (run X env argv w))
     = match result_of_run (main X env argv w) with
       | Normal _ => []
       | Throw _ => [1%Z]
       end
  /\ match result_of_run (main X env argv w) with
     | Normal _ => True
     | Throw e => In (EError [VStr "❌ Error:"; VErr e]) (trace_of_run (run X env argv w))
     end.
Proof.
  destruct (run_result X env argv w) as (Hr & He & Hp).
  split; [exact Hr|]. split; [apply main_no_exit|]. split; assumption.
Qed.

Lemma exit_status_reflects_failure_witness :
  past_startup demo_env = true
  /\ result_of_run (main offline demo_env (cli ["deposit"; "2"]) tt) = Throw network_down
  /\ exits_of (trace_of_run (run offline demo_env (cli ["deposit"; "2"]) tt)) = [1%Z].
Proof.
  assert (Hstarted : past_startup demo_env = true) by reflexivity.
  split; [exact Hstarted|].
  assert (Hmain : result_of_run (main offline demo_env (cli ["deposit"; "2"]) tt)
                  = Throw network_down) by (vm_compute; reflexivity).
  split; [exact Hmain|].
  destruct (exit_status_reflects_failure offline demo_env (cli ["deposit"; "2"]) tt Hstarted)
    as (_ & _ & Hexit & _).
  rewrite Hmain in Hexit. exact Hexit.
Defined.

(** X20. From the call of [main] on, in a process that got past the
    start-up of the module: only [deposit] and [withdraw] can make the
    handler attached to [main()] end the process.  For every other command
    line ([check], [exit], [finalize], an unknown or a missing command)
    [main] completes normally whatever the outside world answers, and no
    exit status is emitted.  (The start-up itself runs before [main] and is
    not part of this property.) *)
Theorem only_deposit_and_withdraw_can_fail
    {W : Type} (X : External W) (env : Config) (argv : list string) (w : W)
    (Hstarted : past_startup env = true)
    (Hdeposit : argv_at argv 2 <> Some "deposit")
    (Hwithdraw : argv_at argv 2 <> Some "withdraw") :
  result_of_run (main X env argv w) = Normal tt
  /\ exits_of (trace_of_run (run X env argv w)) = [].
Proof.
  pose proof (quiet_commands X env argv w Hdeposit Hwithdraw) as Hmain.
  split; [exact Hmain|].
  destruct (run_result X env argv w) as (_ & He & _).
  rewrite Hmain in He. exact He.
Qed.

Lemma only_deposit_and_withdraw_can_fail_witness :
  past_startup demo_env = true
  /\ argv_at (cli ["exit"; "0xb0b1"]) 2 <> Some "deposit"
  /\ argv_at (cli ["exit"; "0xb0b1"]) 2 <> Some "withdraw"
  /\ result_of_run (main scripted demo_env (cli ["exit"; "0xb0b1"]) world_exit_rejected)
     = Normal tt
  /\ exits_of (trace_of_run (run scripted demo_env (cli ["exit"; "0xb0b1"])
                               world_exit_rejected)) = [].
Proof.
  assert (Hstarted : past_startup demo_env = true) by reflexivity.
  assert (Hd : argv_at (cli ["exit"; "0xb0b1"]) 2 <> Some "deposit") by discriminate.
  assert (Hw : argv_at (cli ["exit"; "0xb0b1"]) 2 <> Some "withdraw") by discriminate.
  split; [exact Hstarted|]. split; [exact Hd|]. split; [exact Hw|].
  exact (only_deposit_and_withdraw_can_fail scripted demo_env (cli ["exit"; "0xb0b1"])
           world_exit_rejected Hstarted Hd Hw).
Defined.
